(** * Control endpoint engine of the Tomu DFU bootloader (toboot/usb_dev.c)

    A shallow embedding of the EP0 control-transfer state machine, the
    request dispatcher and the DFU download reassembler, followed by the
    properties of the specification that concern them and by further
    properties of the engine, the interrupt handler and the driver.

    Conventions of the embedding.
    - C unsigned integers are [Z] with the wrap-around written out
      ([u8], [u16], [u32]); pointers are 32-bit addresses, [NULL] is 0.
    - The USB peripheral is volatile: the handlers read its registers from
      the snapshot [USB] held in the machine (what the hardware presents when
      the handler runs), and everything the code sends to the hardware (a call
      of an [efm32hg_*] driver primitive, a direct register store, a
      breakpoint), to [memcpy] or to the DFU backend is appended, in program
      order, to the [trace] of the machine.
    - The [efm32hg_*] driver primitives are the boundary to the hardware: a
      call is recorded with its arguments, and the register arithmetic of its
      body is not unfolded.  The registers the engine itself reads
      (DOEP0TSIZ for the bytes received, the MPS field of DIEP0CTL and
      DOEP0CTL for the packet size, the interrupt flags) come from the
      snapshot.
    - The bodies of the driver primitives, of [usb_core_init] and of
      [usb_init] are embedded on their own, register by register, in the
      module [Driver]; [driver_call] gives, for a call that the engine
      records, the body that runs.
    - An OUT completion carries the value that DOEP0TSIZ shows.  [receive]
      gives that value for a packet of so many bytes: the register counts
      down from what the driver armed it with.
    - [asm("bkpt #n")] is recorded and execution goes on, as it does under a
      debugger that resumes.
    - What the absent headers declare (mcu.h, usb_dev.h, usb_desc.h, dfu.h)
      is taken as a parameter, one class per header. *)

From Stdlib Require Import ZArith List Lia Bool.
From stdpp Require Import base list.
Import ListNotations.
Open Scope Z_scope.

(** ** Machine integers *)

Definition wrap (bits x : Z) : Z := x mod 2 ^ bits.
Definition u8 : Z -> Z := wrap 8.
Definition u16 : Z -> Z := wrap 16.
Definition u32 : Z -> Z := wrap 32.

Definition NULL : Z := 0.

(** A store to [a[i]].  The arrays of usb_dev.c have fixed sizes and C
    checks no index: a store past the end goes to the memory behind the
    array.  It is kept here at its index, behind the entries of the array
    (cells in between, which no run from power-on has, read 0). *)
Definition store_at (i : nat) (v : Z) (a : list Z) : list Z :=
  if (i <? length a)%nat then <[i := v]> a
  else a ++ repeat 0 (i - length a) ++ [v].

(** ** Constants of usb_dev.c *)

Definition USB_MAX_PACKET_SIZE : Z := 64.
Definition ENDP0 : Z := 0.

(** The state machine states of a control pipe. *)
Inductive CONTROL_STATE : Set :=
| WAIT_SETUP
| IN_DATA
| OUT_DATA
| LAST_IN_DATA
| WAIT_STATUS_IN
| WAIT_STATUS_OUT
| STALLED.

Definition CONTROL_STATE_eqb (a b : CONTROL_STATE) : bool :=
  match a, b with
  | WAIT_SETUP, WAIT_SETUP | IN_DATA, IN_DATA | OUT_DATA, OUT_DATA
  | LAST_IN_DATA, LAST_IN_DATA | WAIT_STATUS_IN, WAIT_STATUS_IN
  | WAIT_STATUS_OUT, WAIT_STATUS_OUT | STALLED, STALLED => true
  | _, _ => false
  end.

(** ** Structures of usb_dev.h (fields as usb_dev.c uses them) *)

Record struct_device_req : Set := {
  wRequestAndType : Z;   (* uint16_t: bRequest << 8 | bmRequestType *)
  wValue : Z;            (* uint16_t *)
  wIndex : Z;            (* uint16_t *)
  wLength : Z            (* uint16_t *)
}.

Record struct_ctrl_data : Set := {
  addr : Z;              (* uint8_t * *)
  len : Z;               (* remaining byte count *)
  require_zlp : bool
}.

Record struct_usb_dev : Set := {
  state : CONTROL_STATE;
  dev_req : struct_device_req;
  ctrl_data : struct_ctrl_data
}.

(** One entry of [usb_descriptor_list] (usb_desc.h). *)
Record usb_descriptor_list_t : Set := {
  d_wValue : Z;
  d_addr : Z;
  d_length : Z
}.

(** ** The absent headers, as parameters *)

(** usb_dev.h: the width in bits of the field [len] of [struct ctrl_data]. *)
Class usb_dev_h : Set := {
  LEN_BITS : Z
}.

(** mcu.h: the register bit masks usb_dev.c names. *)
Class mcu_h : Set := {
  USB_DIEP_CTL_STALL : Z;
  USB_GINTSTS_USBRST : Z;
  USB_GINTSTS_ENUMDONE : Z;
  USB_GINTSTS_IEPINT : Z;
  USB_GINTSTS_OEPINT : Z;
  USB_DIEP_INT_XFERCOMPL : Z;
  USB_DOEP_INT_XFERCOMPL : Z;
  USB_DOEP0INT_STUPPKTRCVD : Z;
  USB_DOEP0INT_SETUP : Z;
  USB_DOEP0INT_STSPHSERCVD : Z
}.

(** usb_desc.h, and where the linker puts the static buffers of usb_dev.c.
    [load8 a] is the byte stored at address [a] of descriptor memory. *)
Class usb_desc_h : Set := {
  EP0_SIZE : Z;
  MSFT_VENDOR_CODE : Z;
  MSFT_WCID_LEN : Z;
  usb_microsoft_wcid : Z;
  usb_descriptor_list : list usb_descriptor_list_t;
  load8 : Z -> Z;
  rx_buffer : Z;
  ctrl_send_buf : Z;
  reply_buffer_p : Z
}.

(** dfu.h: the DFU flash backend, a state [B] and the five operations the
    dispatcher calls. [dfu_getstatus] is handed the reply buffer and returns
    what it leaves there. *)
Class dfu_h (B : Type) : Type := {
  dfu_download : Z -> Z -> Z -> Z -> Z -> B -> bool * B;
  dfu_getstatus : list Z -> B -> bool * list Z * B;
  dfu_clrstatus : B -> bool * B;
  dfu_getstate : B -> Z * B;
  dfu_abort : B -> bool * B
}.

(** ** The USB peripheral, as far as usb_dev.c reads it *)

Record USB_TypeDef : Type := {
  GINTSTS : Z;
  GINTMSK : Z;
  DAINT : Z;
  DAINTMSK : Z;
  DIEPMSK : Z;
  DOEPMSK : Z;
  DOEP0INT : Z;
  DOEP0TSIZ : Z;
  DOEP0CTL : Z;
  DIEP0CTL : Z;
  USB_DINEPS_INT : Z -> Z;     (* USB_DINEPS[ep].INT *)
  USB_DOUTEPS_INT : Z -> Z     (* USB_DOUTEPS[ep].INT *)
}.

Inductive reg : Set :=
| R_GINTSTS
| R_DIEP0CTL
| R_DOEP0INT
| R_DINEPS_INT (ep : Z)
| R_DOUTEPS_INT (ep : Z).

(** What the engine emits, in program order. *)
Inductive io : Set :=
| EP0_SETUP                                   (* efm32hg_prepare_ep0_setup *)
| EP0_OUT (buf len ep0mps : Z)                (* efm32hg_prepare_ep0_out *)
| EP0_IN (buf len ep0mps : Z)                 (* efm32hg_prepare_ep0_in *)
| OUT_STALL (n : Z)                           (* efm32hg_ep_out_stall *)
| IN_STALL (n : Z)                            (* efm32hg_ep_in_stall *)
| SET_DADDR (daddr : Z)                       (* efm32hg_set_daddr *)
| ENABLE_INTS                                 (* efm32hg_enable_ints *)
| STORE (r : reg) (v : Z)                     (* USB->r = v *)
| MEMCPY (dst src cnt : Z)
| BKPT (imm : Z)                              (* asm("bkpt #imm") *)
| DFU_DOWNLOAD (blockNum blockLength packetOffset packetLength data : Z)
               (ok : bool)
| DFU_GETSTATUS (ok : bool)
| DFU_CLRSTATUS (ok : bool)
| DFU_GETSTATE (st : Z)
| DFU_ABORT (ok : bool).

Section Engine.

Context {DEVH : usb_dev_h} {MCU : mcu_h} {DESC : usb_desc_h}.
Context {B : Type} {DFU : dfu_h B}.

(** The static storage of usb_dev.c, the peripheral and the backend. *)
Record machine : Type := {
  USB : USB_TypeDef;
  ep0_setup_pkt : Z -> struct_device_req;   (* the three SETUP slots *)
  usb_configuration : Z;
  dev : struct_usb_dev;                     (* default_dev, through [dev] *)
  last_setup : struct_device_req;
  reply_buffer : list Z;                    (* uint8_t [8] *)
  lens : list Z;                            (* uint32_t [32], see store_at *)
  pktsizes : list Z;                        (* uint32_t [32], see store_at *)
  len_pos : Z;                              (* uint8_t *)
  ep0_rx_offset : Z;                        (* uint32_t *)
  dfu : B;
  trace : list io
}.

(** *** Stores *)

Definition set_USB (u : USB_TypeDef) (m : machine) : machine :=
  {| USB := u; ep0_setup_pkt := ep0_setup_pkt m;
     usb_configuration := usb_configuration m; dev := dev m;
     last_setup := last_setup m; reply_buffer := reply_buffer m;
     lens := lens m; pktsizes := pktsizes m; len_pos := len_pos m;
     ep0_rx_offset := ep0_rx_offset m; dfu := dfu m; trace := trace m |}.

Definition set_usb_configuration (v : Z) (m : machine) : machine :=
  {| USB := USB m; ep0_setup_pkt := ep0_setup_pkt m;
     usb_configuration := v; dev := dev m;
     last_setup := last_setup m; reply_buffer := reply_buffer m;
     lens := lens m; pktsizes := pktsizes m; len_pos := len_pos m;
     ep0_rx_offset := ep0_rx_offset m; dfu := dfu m; trace := trace m |}.

Definition set_dev (d : struct_usb_dev) (m : machine) : machine :=
  {| USB := USB m; ep0_setup_pkt := ep0_setup_pkt m;
     usb_configuration := usb_configuration m; dev := d;
     last_setup := last_setup m; reply_buffer := reply_buffer m;
     lens := lens m; pktsizes := pktsizes m; len_pos := len_pos m;
     ep0_rx_offset := ep0_rx_offset m; dfu := dfu m; trace := trace m |}.

Definition set_last_setup (r : struct_device_req) (m : machine) : machine :=
  {| USB := USB m; ep0_setup_pkt := ep0_setup_pkt m;
     usb_configuration := usb_configuration m; dev := dev m;
     last_setup := r; reply_buffer := reply_buffer m;
     lens := lens m; pktsizes := pktsizes m; len_pos := len_pos m;
     ep0_rx_offset := ep0_rx_offset m; dfu := dfu m; trace := trace m |}.

Definition set_reply_buffer (b : list Z) (m : machine) : machine :=
  {| USB := USB m; ep0_setup_pkt := ep0_setup_pkt m;
     usb_configuration := usb_configuration m; dev := dev m;
     last_setup := last_setup m; reply_buffer := b;
     lens := lens m; pktsizes := pktsizes m; len_pos := len_pos m;
     ep0_rx_offset := ep0_rx_offset m; dfu := dfu m; trace := trace m |}.

Definition set_debug (l p : list Z) (pos : Z) (m : machine) : machine :=
  {| USB := USB m; ep0_setup_pkt := ep0_setup_pkt m;
     usb_configuration := usb_configuration m; dev := dev m;
     last_setup := last_setup m; reply_buffer := reply_buffer m;
     lens := l; pktsizes := p; len_pos := pos;
     ep0_rx_offset := ep0_rx_offset m; dfu := dfu m; trace := trace m |}.

Definition set_ep0_rx_offset (v : Z) (m : machine) : machine :=
  {| USB := USB m; ep0_setup_pkt := ep0_setup_pkt m;
     usb_configuration := usb_configuration m; dev := dev m;
     last_setup := last_setup m; reply_buffer := reply_buffer m;
     lens := lens m; pktsizes := pktsizes m; len_pos := len_pos m;
     ep0_rx_offset := v; dfu := dfu m; trace := trace m |}.

Definition set_dfu (b : B) (m : machine) : machine :=
  {| USB := USB m; ep0_setup_pkt := ep0_setup_pkt m;
     usb_configuration := usb_configuration m; dev := dev m;
     last_setup := last_setup m; reply_buffer := reply_buffer m;
     lens := lens m; pktsizes := pktsizes m; len_pos := len_pos m;
     ep0_rx_offset := ep0_rx_offset m; dfu := b; trace := trace m |}.

Definition emit (e : io) (m : machine) : machine :=
  {| USB := USB m; ep0_setup_pkt := ep0_setup_pkt m;
     usb_configuration := usb_configuration m; dev := dev m;
     last_setup := last_setup m; reply_buffer := reply_buffer m;
     lens := lens m; pktsizes := pktsizes m; len_pos := len_pos m;
     ep0_rx_offset := ep0_rx_offset m; dfu := dfu m;
     trace := trace m ++ [e] |}.

(** dev->state = s *)
Definition set_state (s : CONTROL_STATE) (m : machine) : machine :=
  set_dev {| state := s; dev_req := dev_req (dev m);
             ctrl_data := ctrl_data (dev m) |} m.

(** dev->dev_req = r *)
Definition set_dev_req (r : struct_device_req) (m : machine) : machine :=
  set_dev {| state := state (dev m); dev_req := r;
             ctrl_data := ctrl_data (dev m) |} m.

(** dev->ctrl_data = c *)
Definition set_ctrl_data (c : struct_ctrl_data) (m : machine) : machine :=
  set_dev {| state := state (dev m); dev_req := dev_req (dev m);
             ctrl_data := c |} m.

(** A store to the field [len] of [struct ctrl_data] keeps [LEN_BITS] bits. *)
Definition to_len (x : Z) : Z := wrap LEN_BITS x.

(** *** The driver primitives *)

Definition efm32hg_set_daddr (daddr : Z) : machine -> machine :=
  emit (SET_DADDR daddr).

Definition efm32hg_enable_ints : machine -> machine :=
  emit ENABLE_INTS.

Definition efm32hg_prepare_ep0_setup : machine -> machine :=
  emit EP0_SETUP.

Definition efm32hg_prepare_ep0_out (buf len ep0mps : Z) : machine -> machine :=
  emit (EP0_OUT buf len ep0mps).

Definition efm32hg_prepare_ep0_in (buf len ep0mps : Z) : machine -> machine :=
  emit (EP0_IN buf len ep0mps).

Definition efm32hg_ep_out_stall (n : Z) : machine -> machine :=
  emit (OUT_STALL n).

Definition efm32hg_ep_in_stall (n : Z) : machine -> machine :=
  emit (IN_STALL n).

(** 64 >> (USB->DIEP0CTL & 0x3UL) and 64 >> (USB->DOEP0CTL & 0x3UL) *)
Definition pktsize_of (ctl : Z) : Z := Z.shiftr 64 (Z.land ctl 3).

(** *** Data stages *)

Definition handle_datastage_out (m : machine) : machine :=
  let data_p := ctrl_data (dev m) in
  let len0 := Z.land (DOEP0TSIZ (USB m)) 127 in          (* XFERSIZE *)
  let pktsize := pktsize_of (DIEP0CTL (USB m)) in
  let data_len := to_len (len data_p - len0) in
  let data_addr := u32 (addr data_p + len0) in
  let m := set_ctrl_data {| addr := data_addr; len := data_len;
                            require_zlp := require_zlp data_p |} m in
  let len1 := if data_len <? pktsize then data_len else pktsize in
  (* pktsizes[len_pos] = pktsize; lens[len_pos++] = len;
     if (len_pos > 32) len_pos = 0;
     len_pos runs from 0 to 32, and index 32 lies one past the arrays *)
  let pos := Z.to_nat (len_pos m) in
  let pos1 := u8 (len_pos m + 1) in
  let m := set_debug (store_at pos len1 (lens m)) (store_at pos pktsize (pktsizes m))
                     (if 32 <? pos1 then 0 else pos1) m in
  if data_len =? 0 then
    let m := emit (BKPT 93) m in
    (* No more data to receive, proceed to send acknowledge for IN. *)
    let m := efm32hg_prepare_ep0_setup m in
    let m := set_state WAIT_STATUS_IN m in
    efm32hg_prepare_ep0_in NULL 0 0 m
  else
    let m := set_state OUT_DATA m in
    efm32hg_prepare_ep0_out data_addr len1 0 m.

Definition handle_datastage_in (m : machine) : machine :=
  let data_p := ctrl_data (dev m) in
  let len0 := pktsize_of (DOEP0CTL (USB m)) in
  if (len data_p =? 0) && CONTROL_STATE_eqb (state (dev m)) LAST_IN_DATA then
    if require_zlp data_p then
      let m := set_ctrl_data {| addr := addr data_p; len := len data_p;
                                require_zlp := false |} m in
      let m := efm32hg_prepare_ep0_setup m in
      (* No more data to send.  Send empty packet *)
      efm32hg_prepare_ep0_in NULL 0 0 m
    else
      (* No more data to send, proceed to receive OUT acknowledge. *)
      let m := set_state WAIT_STATUS_OUT m in
      efm32hg_prepare_ep0_out NULL 0 0 m
  else
    let m := set_state (if len data_p <=? len0 then LAST_IN_DATA else IN_DATA) m in
    let len1 := if len data_p <? len0 then len data_p else len0 in
    let m := efm32hg_prepare_ep0_setup m in
    let m := efm32hg_prepare_ep0_in (addr data_p) len1 0 m in
    set_ctrl_data {| addr := u32 (addr data_p + len1);
                     len := to_len (len data_p - len1);
                     require_zlp := require_zlp data_p |} m.

(** *** Starting a data stage, acknowledging, refusing *)

Definition usb_lld_ctrl_recv (p len0 : Z) (m : machine) : machine :=
  let pktsize := pktsize_of (DIEP0CTL (USB m)) in
  let m := set_ctrl_data {| addr := p; len := to_len len0;
                            require_zlp := require_zlp (ctrl_data (dev m)) |} m in
  let len1 := if pktsize <? len0 then pktsize else len0 in
  let m := efm32hg_prepare_ep0_out p len1 0 m in
  set_state OUT_DATA m.

Definition usb_lld_ctrl_ack (m : machine) : machine :=
  (* Zero length packet for ACK. *)
  let m := efm32hg_prepare_ep0_setup m in
  let m := set_state WAIT_STATUS_IN m in
  efm32hg_prepare_ep0_in NULL 0 0 m.

Definition usb_lld_ctrl_send (buf buflen : Z) (m : machine) : machine :=
  let len_asked := wLength (dev_req (dev m)) in
  let pktsize := pktsize_of (DIEP0CTL (USB m)) in
  let data_len := to_len buflen in
  (* Restrict the data length to be the one host asks for *)
  let data_len := if len_asked <? data_len then to_len len_asked else data_len in
  let zlp := negb (data_len =? 0) && (data_len mod pktsize =? 0) in
  let staged := negb (Z.land buf 3 =? 0) && (data_len <=? pktsize) in
  let data_addr := if staged then ctrl_send_buf else buf in
  let m := if staged then emit (MEMCPY ctrl_send_buf buf buflen) m else m in
  let len1 := if data_len <? pktsize then data_len else pktsize in
  let m := set_state (if data_len <? pktsize then LAST_IN_DATA else IN_DATA) m in
  let m := efm32hg_prepare_ep0_in data_addr len1 0 m in
  set_ctrl_data {| addr := u32 (data_addr + len1);
                   len := to_len (data_len - len1);
                   require_zlp := zlp |} m.

Definition usb_lld_ctrl_error (m : machine) : machine :=
  let m := set_state STALLED m in
  let m := efm32hg_ep_out_stall ENDP0 m in
  let m := efm32hg_ep_in_stall ENDP0 m in
  let m := set_state WAIT_SETUP m in
  efm32hg_prepare_ep0_setup m.


(** *** OUT completions on endpoint 0 *)

Definition handle_out0 (m : machine) : machine :=
  match state (dev m) with
  | OUT_DATA =>
    (* It's normal control WRITE transfer. *)
    let m := handle_datastage_out m in
    (* The only control OUT request we have now, DFU_DNLOAD *)
    if wRequestAndType (last_setup m) =? 0x0121 then
      if negb (wIndex (last_setup m) =? 0)
         && (wLength (last_setup m) <? ep0_rx_offset m)
      then usb_lld_ctrl_error m
      else
        let size := u32 (wLength (last_setup m) - ep0_rx_offset m) in
        let size := if EP0_SIZE <? size then EP0_SIZE else size in
        let '(ok, b) := dfu_download (wValue (last_setup m))      (* blockNum *)
                                     (wLength (last_setup m))     (* blockLength *)
                                     (ep0_rx_offset m)            (* packetOffset *)
                                     size                         (* packetLength *)
                                     (addr (ctrl_data (dev m)))
                                     (dfu m) in
        let m := emit (DFU_DOWNLOAD (wValue (last_setup m)) (wLength (last_setup m))
                                    (ep0_rx_offset m) size
                                    (addr (ctrl_data (dev m))) ok)
                      (set_dfu b m) in
        if ok then
          let m := set_ep0_rx_offset (u32 (ep0_rx_offset m + size)) m in
          if wLength (last_setup m) <=? ep0_rx_offset m then
            (* End of transaction, acknowledge with a zero-length IN *)
            usb_lld_ctrl_ack m
          else m
        else usb_lld_ctrl_error m
    else m
  | WAIT_STATUS_OUT =>
    (* Control READ transfer done successfully. *)
    let m := efm32hg_prepare_ep0_setup m in
    let m := set_ep0_rx_offset 0 m in
    set_state WAIT_SETUP m
  | _ =>
    (* dev->state == IN_DATA || dev->state == LAST_IN_DATA
       (Host aborts the transfer before finish)
       Or else, unexpected state.
       STALL the endpoint, until we receive the next SETUP token. *)
    let m := set_state STALLED m in
    let m := efm32hg_ep_out_stall ENDP0 m in
    let m := efm32hg_ep_in_stall ENDP0 m in
    let m := set_state WAIT_SETUP m in
    efm32hg_prepare_ep0_setup m
  end.

(** *** The request dispatcher *)

(** The scan of [usb_descriptor_list] in the GET_DESCRIPTOR case: the entry
    with a NULL address ends the table; the result is [(data, datalen)]. *)
Fixpoint find_descriptor (wValue0 : Z) (list : list usb_descriptor_list_t)
  : option (Z * Z) :=
  match list with
  | [] => None
  | e :: list =>
    if d_addr e =? NULL then None
    else if wValue0 =? d_wValue e then
      (* for string descriptors, use the descriptor's length field *)
      Some (d_addr e,
            if Z.shiftr wValue0 8 =? 3 then load8 (d_addr e) else d_length e)
    else find_descriptor wValue0 list
  end.

(** The label [send:] *)
Definition send (data datalen : Z) (m : machine) : machine :=
  if negb (data =? NULL) && negb (datalen =? 0)
  then usb_lld_ctrl_send data datalen m
  else usb_lld_ctrl_ack m.

Definition usb_setup (m : machine) : machine :=
  let m := set_last_setup (dev_req (dev m)) m in
  let req := dev_req (dev m) in
  let code := wRequestAndType req in
  if code =? 0x0500 then                       (* SET_ADDRESS *)
    let m := efm32hg_set_daddr (u8 (wValue req)) m in
    send NULL 0 m
  else if code =? 0x0900 then                  (* SET_CONFIGURATION *)
    let m := set_usb_configuration (u8 (wValue req)) m in
    send NULL 0 m
  else if code =? 0x0880 then                  (* GET_CONFIGURATION *)
    let m := set_reply_buffer (<[0%nat := usb_configuration m]> (reply_buffer m)) m in
    send reply_buffer_p 1 m
  else if code =? 0x0080 then                  (* GET_STATUS (device) *)
    let m := set_reply_buffer (<[1%nat := 0]> (<[0%nat := 0]> (reply_buffer m))) m in
    send reply_buffer_p 2 m
  else if code =? 0x0082 then                  (* GET_STATUS (endpoint) *)
    if 0 <? wIndex req then usb_lld_ctrl_error m
    else
      let m := set_reply_buffer (<[1%nat := 0]> (<[0%nat := 0]> (reply_buffer m))) m in
      let m := if negb (Z.land (DIEP0CTL (USB m)) USB_DIEP_CTL_STALL =? 0)
               then set_reply_buffer (<[0%nat := 1]> (reply_buffer m)) m
               else m in
      send reply_buffer_p 2 m
  else if code =? 0x0102 then                  (* CLEAR_FEATURE (endpoint) *)
    if (0 <? wIndex req) || negb (wValue req =? 0) then usb_lld_ctrl_error m
    else
      let m := emit (STORE R_DIEP0CTL
                       (u32 (Z.land (DIEP0CTL (USB m)) (Z.lnot USB_DIEP_CTL_STALL)))) m in
      send NULL 0 m
  else if code =? 0x0302 then                  (* SET_FEATURE (endpoint) *)
    if (0 <? wIndex req) || negb (wValue req =? 0) then usb_lld_ctrl_error m
    else
      let m := emit (STORE R_DIEP0CTL
                       (Z.lor (DIEP0CTL (USB m)) USB_DIEP_CTL_STALL)) m in
      send NULL 0 m
  else if (code =? 0x0680) || (code =? 0x0681) then   (* GET_DESCRIPTOR *)
    match find_descriptor (wValue req) usb_descriptor_list with
    | Some (data, datalen) => send data datalen m
    | None => usb_lld_ctrl_error m
    end
  else if (code =? Z.lor (Z.shiftl MSFT_VENDOR_CODE 8) 0xC0)
          || (code =? Z.lor (Z.shiftl MSFT_VENDOR_CODE 8) 0xC1) then
    (* Get Microsoft descriptor *)
    if wIndex req =? 0x0004 then
      (* Return WCID descriptor *)
      send usb_microsoft_wcid MSFT_WCID_LEN m
    else usb_lld_ctrl_error m
  else if code =? 0x0121 then                  (* DFU_DNLOAD *)
    if 0 <? wIndex req then usb_lld_ctrl_error m
    else
      (* Data comes in the OUT phase. But if it's a zero-length request,
         handle it now. *)
      if wLength req =? 0 then
        let '(ok, b) := dfu_download (wValue req) 0 0 0 NULL (dfu m) in
        let m := emit (DFU_DOWNLOAD (wValue req) 0 0 0 NULL ok) (set_dfu b m) in
        if negb ok then usb_lld_ctrl_error m
        else usb_lld_ctrl_recv rx_buffer (wLength req) m
      else usb_lld_ctrl_recv rx_buffer (wLength req) m
  else if code =? 0x03a1 then                  (* DFU_GETSTATUS *)
    if 0 <? wIndex req then usb_lld_ctrl_error m
    else
      let '(ok, buf, b) := dfu_getstatus (reply_buffer m) (dfu m) in
      let m := emit (DFU_GETSTATUS ok) (set_dfu b (set_reply_buffer buf m)) in
      if ok then send reply_buffer_p 6 m
      else usb_lld_ctrl_error m
  else if code =? 0x0421 then                  (* DFU_CLRSTATUS *)
    if 0 <? wIndex req then usb_lld_ctrl_error m
    else
      let '(ok, b) := dfu_clrstatus (dfu m) in
      let m := emit (DFU_CLRSTATUS ok) (set_dfu b m) in
      if ok then send NULL 0 m
      else usb_lld_ctrl_error m
  else if code =? 0x05a1 then                  (* DFU_GETSTATE *)
    if 0 <? wIndex req then usb_lld_ctrl_error m
    else
      let '(st, b) := dfu_getstate (dfu m) in
      let m := emit (DFU_GETSTATE st) (set_dfu b m) in
      let m := set_reply_buffer (<[0%nat := u8 st]> (reply_buffer m)) m in
      send reply_buffer_p 1 m
  else if code =? 0x0621 then                  (* DFU_ABORT *)
    if 0 <? wIndex req then usb_lld_ctrl_error m
    else
      let '(ok, b) := dfu_abort (dfu m) in
      let m := emit (DFU_ABORT ok) (set_dfu b m) in
      if ok then send NULL 0 m
      else usb_lld_ctrl_error m
  else usb_lld_ctrl_error m.

(** The request codes that have a case of their own in [usb_setup]. *)
Definition supported_request (code : Z) : bool :=
  existsb (Z.eqb code)
    [0x0500; 0x0900; 0x0880; 0x0080; 0x0082; 0x0102; 0x0302; 0x0680; 0x0681;
     Z.lor (Z.shiftl MSFT_VENDOR_CODE 8) 0xC0;
     Z.lor (Z.shiftl MSFT_VENDOR_CODE 8) 0xC1;
     0x0121; 0x03a1; 0x0421; 0x05a1; 0x0621].

(** *** IN completions on endpoint 0 *)

Definition handle_in0 (m : machine) : machine :=
  match state (dev m) with
  | IN_DATA | LAST_IN_DATA => handle_datastage_in m
  | WAIT_STATUS_IN =>
    (* Control WRITE transfer done successfully. *)
    let m := efm32hg_prepare_ep0_setup m in
    set_state WAIT_SETUP m
  | _ =>
    let m := set_state STALLED m in
    let m := efm32hg_ep_out_stall ENDP0 m in
    let m := efm32hg_ep_in_stall ENDP0 m in
    let m := set_state WAIT_SETUP m in
    efm32hg_prepare_ep0_setup m
  end.

(** *** The interrupt handler *)

Definition tst (x mask : Z) : bool := negb (Z.land x mask =? 0).

(** dev->dev_req = ep0_setup_pkt[2 - supcnt]; usb_setup(dev); *)
Definition take_setup (m : machine) : machine :=
  let m := emit (STORE R_DOEP0INT USB_DOEP0INT_SETUP) m in
  let supcnt := Z.shiftr (Z.land (DOEP0TSIZ (USB m)) 0x60000000) 29 in
  let supcnt := if supcnt =? 3 then 2 else supcnt in
  let m := set_dev_req (ep0_setup_pkt m (2 - supcnt)) m in
  usb_setup m.

(** The body of the IN loop for endpoint [ep]. *)
Definition in_ep (ep : Z) (m : machine) : machine :=
  let sts := Z.land (USB_DINEPS_INT (USB m) ep) (DIEPMSK (USB m)) in
  if tst sts USB_DIEP_INT_XFERCOMPL then
    let m := emit (STORE (R_DINEPS_INT ep) USB_DIEP_INT_XFERCOMPL) m in
    if ep =? 0 then handle_in0 m
    else emit (BKPT 99) m          (* Unsupported in this bootloader. *)
  else m.

(** while (epint != 0) { if (epint & 1) ...; ep++; epint >>= 1; }
    [epint] is a uint32_t, so 32 rounds exhaust it. *)
Fixpoint in_loop (rounds : nat) (epint ep : Z) (m : machine) : machine :=
  match rounds with
  | O => m
  | S rounds =>
    if epint =? 0 then m
    else
      let m := if tst epint 1 then in_ep ep m else m in
      in_loop rounds (Z.shiftr epint 1) (ep + 1) m
  end.

(** The body of the OUT loop for endpoint [ep]; [false] in the result is the
    [return] of the branch for an endpoint other than 0. *)
Definition out_ep (ep : Z) (m : machine) : machine * bool :=
  let sts := Z.land (USB_DOUTEPS_INT (USB m) ep) (DOEPMSK (USB m)) in
  let stup := (ep =? 0) && tst sts USB_DOEP0INT_STUPPKTRCVD in
  let m := if stup then emit (STORE (R_DOUTEPS_INT ep) USB_DOEP0INT_STUPPKTRCVD) m
           else m in
  let sts := if stup then Z.land sts (Z.lnot USB_DOEP_INT_XFERCOMPL) else sts in
  if tst sts USB_DOEP_INT_XFERCOMPL then
    let m := emit (STORE (R_DOUTEPS_INT ep) USB_DOEP_INT_XFERCOMPL) m in
    if ep =? 0 then
      let sts := Z.land (DOEP0INT (USB m)) (DOEPMSK (USB m)) in
      let m := emit (STORE (R_DOUTEPS_INT ep) USB_DOEP0INT_STUPPKTRCVD) m in
      let m := if tst sts USB_DOEP0INT_SETUP then take_setup m
               else if negb (CONTROL_STATE_eqb (state (dev m)) WAIT_SETUP)
                    then handle_out0 m
                    else m in
      let m := if tst sts USB_DOEP0INT_STSPHSERCVD
               then emit (STORE R_DOEP0INT USB_DOEP0INT_STSPHSERCVD) m else m in
      (m, true)
    else (emit (BKPT 98) m, false)
  else
    let m := if (ep =? 0) && tst sts USB_DOEP0INT_SETUP then take_setup m else m in
    let m := if tst sts USB_DOEP0INT_STSPHSERCVD
             then emit (STORE R_DOEP0INT USB_DOEP0INT_STSPHSERCVD) m else m in
    (m, true).

Fixpoint out_loop (rounds : nat) (epint ep : Z) (m : machine) : machine :=
  match rounds with
  | O => m
  | S rounds =>
    if epint =? 0 then m
    else if tst epint 1 then
      let '(m, continue) := out_ep ep m in
      if continue then out_loop rounds (Z.shiftr epint 1) (ep + 1) m else m
    else out_loop rounds (Z.shiftr epint 1) (ep + 1) m
  end.

Definition USB_Handler (m : machine) : machine :=
  let intsts := Z.land (GINTSTS (USB m)) (GINTMSK (USB m)) in
  if tst intsts USB_GINTSTS_USBRST then
    emit (STORE R_GINTSTS USB_GINTSTS_USBRST) m
  else
    let m := if tst intsts USB_GINTSTS_ENUMDONE then
               let m := emit (STORE R_GINTSTS USB_GINTSTS_ENUMDONE) m in
               let m := efm32hg_prepare_ep0_setup m in
               let m := efm32hg_enable_ints m in
               set_state WAIT_SETUP m
             else m in
    let m := if tst intsts USB_GINTSTS_IEPINT then
               in_loop 32 (u32 (Z.land (DAINT (USB m)) (DAINTMSK (USB m)))) 0 m
             else m in
    if tst intsts USB_GINTSTS_OEPINT then
      out_loop 32 (Z.shiftr (u32 (Z.land (DAINT (USB m)) (DAINTMSK (USB m)))) 16) 0 m
    else m.

(** *** The events of USB_Handler, decoded

    [deliver] is what the OUT and IN branches of [USB_Handler] do with the
    machine once the interrupt flags are decoded: a SETUP packet is copied to
    [dev->dev_req] and dispatched, an IN completion goes to [handle_in0], an
    OUT completion goes to [handle_out0] unless the pipe waits for a SETUP.
    The OUT completion carries what the hardware left in DOEP0TSIZ. *)
Inductive event : Set :=
| SETUP (req : struct_device_req)
| IN_COMPLETE
| OUT_COMPLETE (tsiz : Z).

Definition set_DOEP0TSIZ (v : Z) (u : USB_TypeDef) : USB_TypeDef :=
  {| GINTSTS := GINTSTS u; GINTMSK := GINTMSK u; DAINT := DAINT u;
     DAINTMSK := DAINTMSK u; DIEPMSK := DIEPMSK u; DOEPMSK := DOEPMSK u;
     DOEP0INT := DOEP0INT u; DOEP0TSIZ := v; DOEP0CTL := DOEP0CTL u;
     DIEP0CTL := DIEP0CTL u; USB_DINEPS_INT := USB_DINEPS_INT u;
     USB_DOUTEPS_INT := USB_DOUTEPS_INT u |}.

Definition deliver (e : event) (m : machine) : machine :=
  match e with
  | SETUP req => usb_setup (set_dev_req req m)
  | IN_COMPLETE => handle_in0 m
  | OUT_COMPLETE tsiz =>
    let m := set_USB (set_DOEP0TSIZ tsiz (USB m)) m in
    if negb (CONTROL_STATE_eqb (state (dev m)) WAIT_SETUP) then handle_out0 m
    else m
  end.

Definition run (es : list event) (m : machine) : machine :=
  fold_left (fun m e => deliver e m) es m.

(** The interrupt flags under which [USB_Handler] has only endpoint 0 to
    serve, in one direction. *)
Definition only_OUT0_pending (u : USB_TypeDef) : Prop :=
  tst (Z.land (GINTSTS u) (GINTMSK u)) USB_GINTSTS_USBRST = false
  /\ tst (Z.land (GINTSTS u) (GINTMSK u)) USB_GINTSTS_ENUMDONE = false
  /\ tst (Z.land (GINTSTS u) (GINTMSK u)) USB_GINTSTS_IEPINT = false
  /\ tst (Z.land (GINTSTS u) (GINTMSK u)) USB_GINTSTS_OEPINT = true
  /\ Z.shiftr (u32 (Z.land (DAINT u) (DAINTMSK u))) 16 = 1.

Definition only_IN0_pending (u : USB_TypeDef) : Prop :=
  tst (Z.land (GINTSTS u) (GINTMSK u)) USB_GINTSTS_USBRST = false
  /\ tst (Z.land (GINTSTS u) (GINTMSK u)) USB_GINTSTS_ENUMDONE = false
  /\ tst (Z.land (GINTSTS u) (GINTMSK u)) USB_GINTSTS_IEPINT = true
  /\ tst (Z.land (GINTSTS u) (GINTMSK u)) USB_GINTSTS_OEPINT = false
  /\ u32 (Z.land (DAINT u) (DAINTMSK u)) = 1.

(** The IN data phase of a control READ: IN completions are delivered as
    long as the pipe is in IN_DATA or LAST_IN_DATA. *)
Definition in_data_phase_active (m : machine) : bool :=
  match state (dev m) with
  | IN_DATA | LAST_IN_DATA => true
  | _ => false
  end.

Fixpoint in_data_phase (completions : nat) (m : machine) : machine :=
  match completions with
  | O => m
  | S completions =>
    if in_data_phase_active m then in_data_phase completions (handle_in0 m)
    else m
  end.

(** The static storage as the C start-up code leaves it, with the peripheral
    and the backend as given. *)
Definition zero_req : struct_device_req :=
  {| wRequestAndType := 0; wValue := 0; wIndex := 0; wLength := 0 |}.

Definition power_on (u : USB_TypeDef) (b : B) : machine :=
  {| USB := u;
     ep0_setup_pkt := fun _ => zero_req;
     usb_configuration := 0;
     dev := {| state := WAIT_SETUP; dev_req := zero_req;
               ctrl_data := {| addr := NULL; len := 0; require_zlp := false |} |};
     last_setup := zero_req;
     reply_buffer := repeat 0 8;
     lens := repeat 9 13 ++ repeat 0 19;
     pktsizes := repeat 9 13 ++ repeat 0 19;
     len_pos := 0;
     ep0_rx_offset := 0;
     dfu := b;
     trace := [] |}.

End Engine.

Arguments machine : clear implicits.

(** ** Reading a trace *)

Definition is_stall (e : io) : bool :=
  match e with OUT_STALL _ | IN_STALL _ => true | _ => false end.

(** A backend operation that reported failure. *)
Definition backend_failed (e : io) : bool :=
  match e with
  | DFU_DOWNLOAD _ _ _ _ _ ok | DFU_GETSTATUS ok | DFU_CLRSTATUS ok
  | DFU_ABORT ok => negb ok
  | _ => false
  end.

(** The lengths of the IN packets armed, in order. *)
Fixpoint in_packets (t : list io) : list Z :=
  match t with
  | [] => []
  | EP0_IN _ n _ :: t => n :: in_packets t
  | _ :: t => in_packets t
  end.

(** The backend chunk calls, in order: (blockNum, blockLength, packetOffset,
    packetLength). *)
Fixpoint chunk_calls (t : list io) : list (Z * Z * Z * Z) :=
  match t with
  | [] => []
  | DFU_DOWNLOAD bn bl off n _ _ :: t => (bn, bl, off, n) :: chunk_calls t
  | _ :: t => chunk_calls t
  end.

Definition is_zero_in (e : io) : bool :=
  match e with EP0_IN _ n _ => n =? 0 | _ => false end.

Definition is_chunk_call (e : io) : bool :=
  match e with DFU_DOWNLOAD _ _ _ _ _ _ => true | _ => false end.

Definition count (p : io -> bool) (t : list io) : nat :=
  length (List.filter p t).

Definition sum_of (l : list Z) : Z := fold_right Z.add 0 l.

(** Every packet of a data phase is min(remaining bytes, 64). *)
Fixpoint chunked (remaining : Z) (packets : list Z) : Prop :=
  match packets with
  | [] => True
  | p :: packets =>
    p = Z.min remaining USB_MAX_PACKET_SIZE /\ chunked (remaining - p) packets
  end.

(** The packets of an IN data phase of [total] bytes on 64-byte packets, as
    the code arms them: the full packets, the rest if there is one, and for
    a multiple of 64 the zero-length packet, which comes twice when the
    total is 64. A total of 0 is one packet of 0 bytes. *)
Definition armed_in_packets (total : Z) : list Z :=
  if total =? 0 then [0]
  else
    repeat 64 (Z.to_nat (total / 64))
    ++ (if total mod 64 =? 0 then if total =? 64 then [0; 0] else [0]
        else [total mod 64]).

(** The chunk calls of a download of [n] bytes as block [blockNum], one per
    64 bytes: offsets 0, 64, 128, ... and lengths min(what is left, 64). *)
Definition expected_chunks (blockNum n : Z) (first count : nat)
  : list (Z * Z * Z * Z) :=
  map (fun i => (blockNum, n, 64 * Z.of_nat i, Z.min (n - 64 * Z.of_nat i) 64))
      (seq first count).

Definition chunk_length (c : Z * Z * Z * Z) : Z := snd c.

(** The OUT packets that deliver [n] bytes: full packets, then the rest. *)
Fixpoint out_packets (count : nat) (n : Z) : list Z :=
  match count with
  | O => []
  | S count => Z.min n 64 :: out_packets count (n - Z.min n 64)
  end.

(** ceil(n / 64) *)
Definition packets_for (n : Z) : nat := Z.to_nat ((n + 63) / 64).


(** A driver call that arms endpoint 0 asks for at most one packet of 64
    bytes, and passes no bit of its own for the control register. *)
Definition within_packet (e : io) : Prop :=
  match e with
  | EP0_IN _ n ep0mps | EP0_OUT _ n ep0mps => 0 <= n <= 64 /\ ep0mps = 0
  | _ => True
  end.

(** The data pointers of the backend chunk calls, in order. *)
Fixpoint chunk_data (t : list io) : list Z :=
  match t with
  | [] => []
  | DFU_DOWNLOAD _ _ _ _ data _ :: t => data :: chunk_data t
  | _ :: t => chunk_data t
  end.

(** The entries of a descriptor table that the scan of GET_DESCRIPTOR can
    reach: those before the first entry with a NULL address. *)
Fixpoint reachable_entries (table : list usb_descriptor_list_t)
  : list usb_descriptor_list_t :=
  match table with
  | [] => []
  | e :: table => if d_addr e =? NULL then [] else e :: reachable_entries table
  end.

(** The slot of [ep0_setup_pkt] that [take_setup] reads, from DOEP0TSIZ. *)
Definition setup_slot (tsiz : Z) : Z :=
  let supcnt := Z.shiftr (Z.land tsiz 0x60000000) 29 in
  2 - (if supcnt =? 3 then 2 else supcnt).

(** The bytes for which the OUT side of endpoint 0 was armed last: the
    length of the last [efm32hg_prepare_ep0_out], or the 24 bytes of
    [efm32hg_prepare_ep0_setup]; [k] if the trace arms nothing. *)
Fixpoint armed_out (k : Z) (t : list io) : Z :=
  match t with
  | [] => k
  | EP0_OUT _ n _ :: t => armed_out n t
  | EP0_SETUP :: t => armed_out 24 t
  | _ :: t => armed_out k t
  end.

(** A breakpoint that the run passed. *)
Definition is_bkpt (e : io) : bool :=
  match e with BKPT _ => true | _ => false end.

(** A store that acknowledges an interrupt flag of OUT endpoint 0: the flag
    STUPPKTRCVD or XFERCOMPL written to USB_DOUTEPS[0].INT, or STSPHSERCVD
    written to DOEP0INT. *)
Definition acknowledges_OUT0 {MCU : mcu_h} (e : io) : bool :=
  match e with
  | STORE (R_DOUTEPS_INT ep) v =>
    (ep =? 0)
    && ((v =? USB_DOEP0INT_STUPPKTRCVD) || (v =? USB_DOEP_INT_XFERCOMPL))
  | STORE R_DOEP0INT v => v =? USB_DOEP0INT_STSPHSERCVD
  | _ => false
  end.

(** ** The transfer size register, and the chunk at hand

    DOEP0TSIZ is armed with the bytes to receive and counts down as they
    arrive: [take_setup] reads the SETUP packets left in SUPCNT, and
    [handle_datastage_out] reads XFERSIZE. *)

Section Download.

Context {DEVH : usb_dev_h} {MCU : mcu_h} {DESC : usb_desc_h}.
Context {B : Type} {DFU : dfu_h B}.

(** An OUT packet of [received] bytes completes, of the bytes armed at
    most.  The transfer size register counts down from what it was armed
    with: XFERSIZE shows the bytes armed and not received, and PKTCNT,
    armed with 1, shows 0. *)
Definition receive (received : Z) (m : machine B) : machine B :=
  deliver (OUT_COMPLETE (armed_out 0 (trace m) - received)) m.

Definition receive_all (packets : list Z) (m : machine B) : machine B :=
  fold_left (fun m p => receive p m) packets m.

(** The chunk that [handle_out0] passes to the backend for the OUT packet
    at hand: its length and its data pointer, and whether the backend
    rejects it. *)
Definition chunk_size (m : machine B) : Z :=
  let size := u32 (wLength (last_setup m) - ep0_rx_offset m) in
  if EP0_SIZE <? size then EP0_SIZE else size.

Definition chunk_pointer (m : machine B) : Z :=
  u32 (addr (ctrl_data (dev m)) + Z.land (DOEP0TSIZ (USB m)) 127).

Definition chunk_rejected (m : machine B) : Prop :=
  fst (dfu_download (wValue (last_setup m)) (wLength (last_setup m))
                    (ep0_rx_offset m) (chunk_size m) (chunk_pointer m) (dfu m))
  = false.

End Download.

(** ** The vocabulary of the properties *)

Section Vocabulary.

Context {B : Type} {DFU : dfu_h B}.

Implicit Types (m : machine B) (t l : list io).

(** [m'] differs from [m] by what it appended to the trace, [l], only. *)
Definition only_emits m m' l : Prop :=
  USB m' = USB m /\ ep0_setup_pkt m' = ep0_setup_pkt m
  /\ usb_configuration m' = usb_configuration m /\ dev m' = dev m
  /\ last_setup m' = last_setup m /\ reply_buffer m' = reply_buffer m
  /\ lens m' = lens m /\ pktsizes m' = pktsizes m /\ len_pos m' = len_pos m
  /\ ep0_rx_offset m' = ep0_rx_offset m /\ dfu m' = dfu m
  /\ trace m' = trace m ++ l.

(** The requests that name an endpoint or an interface of which only number
    0 exists: GET_STATUS, CLEAR_FEATURE and SET_FEATURE of an endpoint, and
    the five DFU class requests. *)
Definition index0_only (code : Z) : Prop :=
  In code [0x0082; 0x0102; 0x0302; 0x0121; 0x03a1; 0x0421; 0x05a1; 0x0621].

(** The stall of both directions followed by the re-arming for SETUP. *)
Definition stall_and_rearm : list io :=
  [OUT_STALL ENDP0; IN_STALL ENDP0; EP0_SETUP].

(** Whether a piece of trace holds a stall, and whether it holds a backend
    operation that failed. *)
Definition stalls l : bool := existsb is_stall l.

Definition failures l : bool := existsb backend_failed l.

(** How a handler that ran from [m] to [m'] ends: either it went on without
    a stall, no backend operation failed and the pipe is not left in
    STALLED, or it refused: the stall of both directions and the re-arming
    for SETUP are the last things it did, once, and the pipe is in
    WAIT_SETUP. *)
Inductive outcome m m' : Prop :=
| proceeds l :
    trace m' = trace m ++ l -> stalls l = false -> failures l = false ->
    state (dev m') <> STALLED -> outcome m m'
| refuses l :
    trace m' = trace m ++ l ++ stall_and_rearm -> stalls l = false ->
    state (dev m') = WAIT_SETUP -> outcome m m'.

(** An upper bound on the IN completions a data phase still takes. *)
Definition steps_left m : nat :=
  if len (ctrl_data (dev m)) =? 0 then
    match state (dev m) with
    | LAST_IN_DATA => if require_zlp (ctrl_data (dev m)) then 2 else 1
    | _ => 3
    end
  else Z.to_nat (len (ctrl_data (dev m))) + 3.

(** The backend accepts every chunk. *)
Definition accepts_chunks : Prop :=
  forall blockNum blockLength packetOffset packetLength data b,
    fst (dfu_download blockNum blockLength packetOffset packetLength data b) = true.

(** A SETUP packet carries a wIndex that is not negative. *)
Definition from_the_wire (e : event) : Prop :=
  match e with
  | SETUP req => 0 <= wIndex req
  | _ => True
  end.

(** While data of a control WRITE is awaited, the request on record is a
    DFU_DNLOAD to interface 0. *)
Definition awaits_download_only m : Prop :=
  state (dev m) = OUT_DATA ->
  wRequestAndType (last_setup m) = 0x0121 /\ wIndex (last_setup m) = 0.


(** A SETUP packet carries a wLength that is not negative. *)
Definition sized (e : event) : Prop :=
  match e with
  | SETUP req => 0 <= wLength req
  | _ => True
  end.

(** Whether an event is the SETUP of a SET_CONFIGURATION. *)
Definition sets_configuration (e : event) : bool :=
  match e with
  | SETUP req => wRequestAndType req =? 0x0900
  | _ => false
  end.

(** Between [m0] and [m] the SETUP slots are untouched, and the
    configuration is what it was or the low byte of wValue of a
    SET_CONFIGURATION held in one of the three slots. *)
Definition configured_by_SETUP m0 m : Prop :=
  ep0_setup_pkt m = ep0_setup_pkt m0
  /\ (usb_configuration m = usb_configuration m0
      \/ exists i, 0 <= i <= 2
         /\ wRequestAndType (ep0_setup_pkt m0 i) = 0x0900
         /\ usb_configuration m = u8 (wValue (ep0_setup_pkt m0 i))).

(** Every driver call so far stayed within one packet, and the bytes left of
    the data stage are not negative. *)
Definition packets_sound m : Prop :=
  0 <= len (ctrl_data (dev m)) /\ Forall within_packet (trace m).

(** The debug arrays after [i] data stages of 64-byte packets with more
    than 64 bytes outstanding, from [len_pos] = 0 and arrays of 32
    entries: the index goes round 0 .. 32, and from the 33rd data stage
    on there is an entry at index 32, behind the arrays. *)
Definition debug_ring (i : nat) m : Prop :=
  len_pos m = Z.of_nat i mod 33
  /\ length (lens m) = (if (33 <=? i)%nat then 33 else 32)%nat
  /\ length (pktsizes m) = (if (33 <=? i)%nat then 33 else 32)%nat
  /\ ((33 <= i)%nat ->
      lens m !! 32%nat = Some 64 /\ pktsizes m !! 32%nat = Some 64).

End Vocabulary.


Section Lookup.

Context {DESC : usb_desc_h}.

(** The length GET_DESCRIPTOR replies with for the entry [e]: for a string
    descriptor the first byte of the descriptor, else the length the table
    gives. *)
Definition reply_length (wValue0 : Z) (e : usb_descriptor_list_t) : Z :=
  if Z.shiftr wValue0 8 =? 3 then load8 (d_addr e) else d_length e.

End Lookup.

(** ** The driver primitives and the initialisation, register by register

    The part of usb_dev.c that talks to the registers directly.  A register
    is volatile: every load is answered by the hardware, and nothing is
    assumed about the answer.  A program is run against the list of the
    answers the hardware gives to its loads, in order; it yields its
    result, the loads and stores it made, and the answers left.  A program
    that asks for an answer when none is left has not returned within what
    was observed. *)
Module Driver.

(** The registers named in the driver part, as the code writes them. *)
Inductive port : Set :=
| USB_ROUTE | USB_PCGCCTL | USB_GRSTCTL | USB_DCFG | USB_GAHBCFG | USB_DCTL
| USB_GRXFSIZ | USB_GNPTXFSIZ
| USB_DIEPTXFS (i : Z)                      (* USB_DIEPTXFS[i] *)
| USB_GINTSTS | USB_GINTMSK | USB_DAINTMSK | USB_DIEPMSK | USB_DOEPMSK
| USB_DIEPEMPMSK | USB_CTRL
| USB_DOEP0TSIZ | USB_DOEP0DMAADDR | USB_DOEP0CTL
| USB_DIEP0TSIZ | USB_DIEP0DMAADDR | USB_DIEP0CTL
| USB_DINEPS_CTL (ep : Z) | USB_DINEPS_TSIZ (ep : Z) | USB_DINEPS_INT (ep : Z)
| USB_DOUTEPS_CTL (ep : Z) | USB_DOUTEPS_TSIZ (ep : Z) | USB_DOUTEPS_INT (ep : Z)
| CMU_OSCENCMD | CMU_STATUS | CMU_LFCLKSEL | CMU_LFCCLKEN0 | CMU_HFCORECLKEN0
| CMU_USHFRCOCONF | CMU_CMD | CMU_USBCRCTRL.

Inductive access : Set :=
| LOAD (p : port) (v : Z)
| STORE (p : port) (v : Z)
| NVIC_EnableIRQ (irq : Z).

Definition mmio (A : Type) : Type :=
  list Z -> option (A * list access * list Z).

#[global] Instance mmio_ret : MRet mmio :=
  fun A a answers => Some (a, [], answers).

#[global] Instance mmio_bind : MBind mmio :=
  fun A C f c answers =>
    match c answers with
    | None => None
    | Some (a, t1, answers) =>
      match f a answers with
      | None => None
      | Some (r, t2, answers) => Some (r, t1 ++ t2, answers)
      end
    end.

(** A load of a 32-bit register. *)
Definition load (p : port) : mmio Z :=
  fun answers =>
    match answers with
    | [] => None
    | v :: answers => Some (u32 v, [LOAD p (u32 v)], answers)
    end.

(** A store to a 32-bit register. *)
Definition store (p : port) (v : Z) : mmio unit :=
  fun answers => Some (tt, [STORE p (u32 v)], answers).

Definition call_NVIC_EnableIRQ (irq : Z) : mmio unit :=
  fun answers => Some (tt, [NVIC_EnableIRQ irq], answers).

(** A loop with no exit. *)
Definition forever {A : Type} : mmio A := fun _ => None.

(** while (p & mask) { } and while (!(p & mask)) { }: one load per round. *)
Fixpoint while_set (p : port) (mask : Z) (answers : list Z)
  : option (unit * list access * list Z) :=
  match answers with
  | [] => None
  | v :: answers =>
    if tst (u32 v) mask then
      match while_set p mask answers with
      | None => None
      | Some (r, t, answers) => Some (r, LOAD p (u32 v) :: t, answers)
      end
    else Some (tt, [LOAD p (u32 v)], answers)
  end.

Fixpoint while_clear (p : port) (mask : Z) (answers : list Z)
  : option (unit * list access * list Z) :=
  match answers with
  | [] => None
  | v :: answers =>
    if negb (tst (u32 v) mask) then
      match while_clear p mask answers with
      | None => None
      | Some (r, t, answers) => Some (r, LOAD p (u32 v) :: t, answers)
      end
    else Some (tt, [LOAD p (u32 v)], answers)
  end.

(** x & ~mask *)
Definition andn (x mask : Z) : Z := Z.land x (Z.lnot mask).

(** What efm32hg_revno fills in. *)
Record efm32hg_rev : Set := {
  family : Z;
  major : Z;
  minor : Z
}.

(** mcu.h, the part the driver primitives and the initialisation name, and
    the address of [ep0_setup_pkt]. *)
Class mcu_h_driver : Type := {
  USB_PCGCCTL_STOPPCLK : Z;
  USB_PCGCCTL_PWRCLMP : Z;
  USB_PCGCCTL_RSTPDWNMODULE : Z;
  USB_GRSTCTL_CSFTRST : Z;
  USB_GRSTCTL_AHBIDLE : Z;
  USB_GRSTCTL_RXFFLSH : Z;
  USB_GRSTCTL_TXFFLSH : Z;
  USB_GINTMSK_USBRSTMSK : Z;
  USB_GINTMSK_ENUMDONEMSK : Z;
  USB_GINTMSK_IEPINTMSK : Z;
  USB_GINTMSK_OEPINTMSK : Z;
  DCTL_WO_BITMASK : Z;
  USB_DCTL_SFTDISCON : Z;
  USB_DCTL_IGNRFRMNUM : Z;
  _USB_DCFG_DEVADDR_MASK : Z;
  _USB_DCFG_DEVSPD_MASK : Z;
  USB_DCFG_DEVSPD_FS : Z;
  USB_DCFG_NZSTSOUTHSHK : Z;
  _USB_DCFG_PERFRINT_MASK : Z;
  DEPCTL_WO_BITMASK : Z;
  USB_DOEP0CTL_EPENA : Z;
  USB_DOEP0CTL_CNAK : Z;
  USB_DIEP0CTL_EPENA : Z;
  USB_DIEP0CTL_CNAK : Z;
  USB_DOEP_CTL_EPTYPE_ISO : Z;
  USB_DIEP_CTL_EPTYPE_ISO : Z;
  USB_DIEP_CTL_EPENA : Z;
  USB_DIEP_CTL_EPDIS : Z;
  USB_ROUTE_PHYPEN : Z;
  _USB_GAHBCFG_HBSTLEN_MASK : Z;
  USB_GAHBCFG_DMAEN : Z;
  USB_GAHBCFG_HBSTLEN_SINGLE : Z;
  USB_GAHBCFG_GLBLINTRMSK : Z;
  MAX_NUM_IN_EPS : Z;
  MAX_NUM_OUT_EPS : Z;
  MAX_DEVICE_FIFO_SIZE_INWORDS : Z;
  CMU_OSCENCMD_LFRCOEN : Z;
  CMU_STATUS_LFRCORDY : Z;
  CMU_LFCCLKEN0_USBLE : Z;
  CMU_HFCORECLKEN0_USB : Z;
  CMU_HFCORECLKEN0_USBC : Z;
  CMU_USHFRCOCONF_BAND_48MHZ : Z;
  CMU_OSCENCMD_USHFRCOEN : Z;
  CMU_STATUS_USHFRCORDY : Z;
  CMU_CMD_USBCCLKSEL_USHFRCO : Z;
  CMU_STATUS_USBCUSHFRCOSEL : Z;
  CMU_USBCRCTRL_EN : Z;
  USB_CTRL_LEMOSCCTRL_GATE : Z;
  USB_CTRL_LEMIDLEEN : Z;
  USB_CTRL_LEMPHYCTRL : Z;
  USB_CTRL_LEMNAKEN : Z;
  USB_CTRL_LEMADDRMEN : Z;
  USB_IRQn : Z;
  USB_DAINTMSK_INEPMSK0 : Z;
  USB_DAINTMSK_OUTEPMSK0 : Z;
  USB_DOEPMSK_SETUPMSK : Z;
  USB_DOEPMSK_XFERCOMPLMSK : Z;
  USB_DOEPMSK_STSPHSERCVDMSK : Z;
  USB_DIEPMSK_XFERCOMPLMSK : Z;
  ep0_setup_pkt_p : Z;                  (* (uint32_t)&ep0_setup_pkt *)
  efm32hg_revno : mmio efm32hg_rev
}.

Section Primitives.

Context {MCU : mcu_h} {DRV : mcu_h_driver}.

Definition efm32hg_core_reset : mmio unit :=
  v ← load USB_PCGCCTL;
  store USB_PCGCCTL (andn v USB_PCGCCTL_STOPPCLK);;
  v ← load USB_PCGCCTL;
  store USB_PCGCCTL
        (andn v (Z.lor USB_PCGCCTL_PWRCLMP USB_PCGCCTL_RSTPDWNMODULE));;
  (* Core Soft Reset *)
  v ← load USB_GRSTCTL;
  store USB_GRSTCTL (Z.lor v USB_GRSTCTL_CSFTRST);;
  while_set USB_GRSTCTL USB_GRSTCTL_CSFTRST;;
  (* Wait for AHB master IDLE state. *)
  while_clear USB_GRSTCTL USB_GRSTCTL_AHBIDLE.

Definition efm32hg_flush_rx_fifo : mmio unit :=
  store USB_GRSTCTL USB_GRSTCTL_RXFFLSH;;
  while_set USB_GRSTCTL USB_GRSTCTL_RXFFLSH.

Definition efm32hg_flush_tx_fifo (n : Z) : mmio unit :=
  store USB_GRSTCTL (Z.lor USB_GRSTCTL_TXFFLSH (Z.shiftl (u8 n) 6));;
  while_set USB_GRSTCTL USB_GRSTCTL_TXFFLSH.

Definition efm32hg_enable_ints : mmio unit :=
  (* Disable all interrupts. *)
  store USB_GINTMSK 0;;
  (* Clear pending interrupts *)
  store USB_GINTSTS 0xFFFFFFFF;;
  store USB_GINTMSK
        (Z.lor (Z.lor (Z.lor USB_GINTMSK_USBRSTMSK USB_GINTMSK_ENUMDONEMSK)
                      USB_GINTMSK_IEPINTMSK)
               USB_GINTMSK_OEPINTMSK).

Definition efm32hg_connect : mmio unit :=
  v ← load USB_DCTL;
  store USB_DCTL (andn v (Z.lor DCTL_WO_BITMASK USB_DCTL_SFTDISCON)).

Definition efm32hg_disconnect : mmio unit :=
  v ← load USB_DCTL;
  store USB_DCTL (Z.lor (andn v DCTL_WO_BITMASK) USB_DCTL_SFTDISCON).

Definition efm32hg_set_daddr (daddr : Z) : mmio unit :=
  v ← load USB_DCFG;
  store USB_DCFG (Z.lor (andn v _USB_DCFG_DEVADDR_MASK) (Z.shiftl (u8 daddr) 4)).

Definition efm32hg_prepare_ep0_setup : mmio unit :=
  store USB_DOEP0TSIZ
        (Z.lor (Z.lor (Z.shiftl (8 * 3) 0)      (* XFERSIZE *)
                      (Z.shiftl 1 19))          (* PKTCNT *)
               (Z.shiftl 3 29));;               (* SUPCNT *)
  store USB_DOEP0DMAADDR ep0_setup_pkt_p;;
  v ← load USB_DOEP0CTL;
  store USB_DOEP0CTL (Z.lor (andn v DEPCTL_WO_BITMASK) USB_DOEP0CTL_EPENA).

Definition efm32hg_prepare_ep0_out (buf len ep0mps : Z) : mmio unit :=
  store USB_DOEP0DMAADDR buf;;
  store USB_DOEP0TSIZ (Z.lor (Z.shiftl (u32 len) 0)   (* XFERSIZE *)
                             (Z.shiftl 1 19));;       (* PKTCNT *)
  v ← load USB_DOEP0CTL;
  store USB_DOEP0CTL
        (Z.lor (Z.lor (Z.lor (andn v DEPCTL_WO_BITMASK) USB_DOEP0CTL_CNAK)
                      USB_DOEP0CTL_EPENA)
               ep0mps).

Definition efm32hg_prepare_ep0_in (buf len ep0mps : Z) : mmio unit :=
  store USB_DIEP0DMAADDR buf;;
  store USB_DIEP0TSIZ (Z.lor (Z.shiftl (u32 len) 0)   (* XFERSIZE *)
                             (Z.shiftl 1 19));;       (* PKTCNT *)
  v ← load USB_DIEP0CTL;
  store USB_DIEP0CTL
        (Z.lor (Z.lor (Z.lor (andn v DEPCTL_WO_BITMASK) USB_DIEP0CTL_CNAK)
                      USB_DIEP0CTL_EPENA)
               ep0mps).

Definition efm32hg_ep_out_stall (n : Z) : mmio unit :=
  v ← load (USB_DOUTEPS_CTL n);
  let ctl := andn v DEPCTL_WO_BITMASK in
  let eptype := Z.land ctl 0xC0000 in
  if negb (eptype =? USB_DOEP_CTL_EPTYPE_ISO) then
    store (USB_DOUTEPS_CTL n) (Z.lor ctl USB_DIEP_CTL_STALL)
  else mret tt.

Definition efm32hg_ep_in_stall (n : Z) : mmio unit :=
  v ← load (USB_DOUTEPS_CTL n);          (* the OUT register, as written *)
  let ctl := andn v DEPCTL_WO_BITMASK in
  let eptype := Z.land ctl 0xC0000 in
  if negb (eptype =? USB_DIEP_CTL_EPTYPE_ISO) then
    w ← load (USB_DINEPS_CTL n);
    store (USB_DINEPS_CTL n) (Z.lor w USB_DIEP_CTL_STALL);;
    let ctl := if tst ctl USB_DIEP_CTL_EPENA
               then Z.lor ctl USB_DIEP_CTL_EPDIS else ctl in
    store (USB_DINEPS_CTL n) ctl
  else mret tt.

(** for (ep = 1; ep <= MAX_NUM_IN_EPS; ep++) of usb_core_init; [ep] is a
    uint8_t, and a loop that ends takes at most 256 rounds. *)
Fixpoint tx_fifo_sizes (rounds : nat) (ep address depth : Z) : mmio (Z * Z) :=
  match rounds with
  | O => forever
  | S rounds =>
    if ep <=? MAX_NUM_IN_EPS then
      let address := u32 (address + depth) in
      let depth := 64 in                            (* ep_tx_fifo_size *)
      store (USB_DIEPTXFS (ep - 1))
            (Z.lor (Z.shiftl depth 16)              (* INEPNTXFDEP *)
                   (Z.land address 0x7FF));;        (* INEPNTXFSTADDR *)
      tx_fifo_sizes rounds (u8 (ep + 1)) address depth
    else mret (address, depth)
  end.

(** for (ep = 0; ep <= MAX_NUM_IN_EPS; ep++) and the same for OUT. *)
Fixpoint disable_in_eps (rounds : nat) (ep : Z) : mmio unit :=
  match rounds with
  | O => forever
  | S rounds =>
    if ep <=? MAX_NUM_IN_EPS then
      store (USB_DINEPS_CTL ep) 0;;
      store (USB_DINEPS_TSIZ ep) 0;;
      store (USB_DINEPS_INT ep) 0xFFFFFFFF;;
      disable_in_eps rounds (u8 (ep + 1))
    else mret tt
  end.

Fixpoint disable_out_eps (rounds : nat) (ep : Z) : mmio unit :=
  match rounds with
  | O => forever
  | S rounds =>
    if ep <=? MAX_NUM_OUT_EPS then
      store (USB_DOUTEPS_CTL ep) 0;;
      store (USB_DOUTEPS_TSIZ ep) 0;;
      store (USB_DOUTEPS_INT ep) 0xFFFFFFFF;;
      disable_out_eps rounds (u8 (ep + 1))
    else mret tt
  end.

Definition usb_core_init : mmio Z :=
  let total_rx_fifo_size := 128 in
  let total_tx_fifo_size := 256 in
  let ep_tx_fifo_size := 64 in
  store USB_ROUTE USB_ROUTE_PHYPEN;;                 (* Enable PHY pins. *)
  v ← load USB_PCGCCTL;
  store USB_PCGCCTL (andn v USB_PCGCCTL_STOPPCLK);;
  v ← load USB_PCGCCTL;
  store USB_PCGCCTL
        (andn v (Z.lor USB_PCGCCTL_PWRCLMP USB_PCGCCTL_RSTPDWNMODULE));;
  (* Core Soft Reset *)
  v ← load USB_GRSTCTL;
  store USB_GRSTCTL (Z.lor v USB_GRSTCTL_CSFTRST);;
  while_set USB_GRSTCTL USB_GRSTCTL_CSFTRST;;
  (* Wait for AHB master IDLE state. *)
  while_clear USB_GRSTCTL USB_GRSTCTL_AHBIDLE;;
  (* Setup full speed device *)
  v ← load USB_DCFG;
  store USB_DCFG (Z.lor (andn v _USB_DCFG_DEVSPD_MASK) USB_DCFG_DEVSPD_FS);;
  (* Stall on non-zero len status OUT packets (ctrl transfers). *)
  v ← load USB_DCFG;
  store USB_DCFG (Z.lor v USB_DCFG_NZSTSOUTHSHK);;
  (* Set periodic frame interval to 80% *)
  v ← load USB_DCFG;
  store USB_DCFG (andn v _USB_DCFG_PERFRINT_MASK);;
  v ← load USB_GAHBCFG;
  store USB_GAHBCFG
        (Z.lor (Z.lor (andn v _USB_GAHBCFG_HBSTLEN_MASK) USB_GAHBCFG_DMAEN)
               USB_GAHBCFG_HBSTLEN_SINGLE);;
  (* Ignore frame numbers on ISO transfers. *)
  v ← load USB_DCTL;
  store USB_DCTL (Z.lor (andn v DCTL_WO_BITMASK) USB_DCTL_IGNRFRMNUM);;
  (* Set Rx FIFO size *)
  store USB_GRXFSIZ total_rx_fifo_size;;
  (* Set Tx EP0 FIFO size *)
  let address := total_rx_fifo_size in
  let depth := ep_tx_fifo_size in
  store USB_GNPTXFSIZ (Z.lor (Z.shiftl depth 16) address);;
  (* Set Tx EP FIFO sizes for all IN ep's *)
  '(address, depth) ← tx_fifo_sizes 256 1 address depth;
  (* the macro is compared with a uint32_t, as an unsigned value *)
  if u32 MAX_DEVICE_FIFO_SIZE_INWORDS <? total_rx_fifo_size + total_tx_fifo_size
  then mret (-1)
  else if u32 MAX_DEVICE_FIFO_SIZE_INWORDS <? address then mret (-1)
  else
    (* Flush the FIFO's *)
    efm32hg_flush_tx_fifo 0x10;;                     (* All Tx FIFO's *)
    efm32hg_flush_rx_fifo;;                          (* The Rx FIFO *)
    (* Disable all device interrupts *)
    store USB_DIEPMSK 0;;
    store USB_DOEPMSK 0;;
    store USB_DAINTMSK 0;;
    store USB_DIEPEMPMSK 0;;
    (* Disable all EP's, clear all EP ints. *)
    disable_in_eps 256 0;;
    disable_out_eps 256 0;;
    efm32hg_connect;;
    mret 0.

Definition usb_init : mmio unit :=
  (* Ensure selected oscillator is enabled, waiting for it to stabilize *)
  store CMU_OSCENCMD CMU_OSCENCMD_LFRCOEN;;
  while_clear CMU_STATUS CMU_STATUS_LFRCORDY;;
  (* Select LFRCO as LFCCLK clock *)
  v ← load CMU_LFCLKSEL;
  store CMU_LFCLKSEL (Z.lor (andn v 0x30) (Z.shiftl 0x1 4));;
  v ← load CMU_LFCCLKEN0;
  store CMU_LFCCLKEN0 (Z.lor v CMU_LFCCLKEN0_USBLE);;
  (* Enable USB clock *)
  v ← load CMU_HFCORECLKEN0;
  store CMU_HFCORECLKEN0
        (Z.lor v (Z.lor CMU_HFCORECLKEN0_USB CMU_HFCORECLKEN0_USBC));;
  store CMU_USHFRCOCONF CMU_USHFRCOCONF_BAND_48MHZ;;
  (* Select USHFRCO as clock source for USB *)
  store CMU_OSCENCMD CMU_OSCENCMD_USHFRCOEN;;
  while_clear CMU_STATUS CMU_STATUS_USHFRCORDY;;
  (* Switch oscillator *)
  store CMU_CMD CMU_CMD_USBCCLKSEL_USHFRCO;;
  (* Wait until clock is activated *)
  while_clear CMU_STATUS CMU_STATUS_USBCUSHFRCOSEL;;
  (* Enable USHFRCO Clock Recovery mode. *)
  v ← load CMU_USBCRCTRL;
  store CMU_USBCRCTRL (Z.lor v CMU_USBCRCTRL_EN);;
  (* Turn on Low Energy Mode (LEM) features. *)
  rev ← efm32hg_revno;
  (if (family rev =? 5) && (major rev =? 1) && (minor rev =? 0) then
     (* First Happy Gecko chip revision did not have all LEM features
        enabled. *)
     store USB_CTRL
           (Z.lor (Z.lor USB_CTRL_LEMOSCCTRL_GATE USB_CTRL_LEMIDLEEN)
                  USB_CTRL_LEMPHYCTRL)
   else
     store USB_CTRL
           (Z.lor (Z.lor (Z.lor (Z.lor USB_CTRL_LEMOSCCTRL_GATE USB_CTRL_LEMIDLEEN)
                                USB_CTRL_LEMPHYCTRL)
                         USB_CTRL_LEMNAKEN)
                  USB_CTRL_LEMADDRMEN));;
  (* enable interrupt in NVIC... *)
  call_NVIC_EnableIRQ USB_IRQn;;
  _ ← usb_core_init;
  efm32hg_set_daddr 0;;
  (* Unmask interrupts for TX and RX *)
  v ← load USB_GAHBCFG;
  store USB_GAHBCFG (Z.lor v USB_GAHBCFG_GLBLINTRMSK);;
  store USB_GINTMSK
        (Z.lor (Z.lor (Z.lor USB_GINTMSK_USBRSTMSK USB_GINTMSK_ENUMDONEMSK)
                      USB_GINTMSK_IEPINTMSK)
               USB_GINTMSK_OEPINTMSK);;
  store USB_DAINTMSK (Z.lor USB_DAINTMSK_INEPMSK0 USB_DAINTMSK_OUTEPMSK0);;
  store USB_DOEPMSK
        (Z.lor (Z.lor USB_DOEPMSK_SETUPMSK USB_DOEPMSK_XFERCOMPLMSK)
               USB_DOEPMSK_STSPHSERCVDMSK);;
  store USB_DIEPMSK USB_DIEPMSK_XFERCOMPLMSK.

End Primitives.

End Driver.


(** *** The engine's calls, at the registers *)

Section Calls.

Context {MCU : mcu_h} {DRV : Driver.mcu_h_driver}.

(** The body of the driver primitive that an event of the engine stands
    for; the other events are not calls of the driver. *)
Definition driver_call (e : io) : Driver.mmio unit :=
  match e with
  | EP0_SETUP => Driver.efm32hg_prepare_ep0_setup
  | EP0_OUT buf len ep0mps => Driver.efm32hg_prepare_ep0_out buf len ep0mps
  | EP0_IN buf len ep0mps => Driver.efm32hg_prepare_ep0_in buf len ep0mps
  | OUT_STALL n => Driver.efm32hg_ep_out_stall n
  | IN_STALL n => Driver.efm32hg_ep_in_stall n
  | SET_DADDR daddr => Driver.efm32hg_set_daddr daddr
  | ENABLE_INTS => Driver.efm32hg_enable_ints
  | _ => mret tt
  end.

Fixpoint driver_calls (l : list io) : Driver.mmio unit :=
  match l with
  | [] => mret tt
  | e :: l => driver_call e;; driver_calls l
  end.

(** An answer of the hardware that ends every wait of [usb_core_init]: no
    reset and no flush in progress, the AHB master idle. *)
Definition ready (w : Z) : Prop :=
  tst (u32 w) Driver.USB_GRSTCTL_CSFTRST = false
  /\ tst (u32 w) Driver.USB_GRSTCTL_AHBIDLE = true
  /\ tst (u32 w) Driver.USB_GRSTCTL_TXFFLSH = false
  /\ tst (u32 w) Driver.USB_GRSTCTL_RXFFLSH = false.

End Calls.

(** The stores that lay out the FIFO memory. *)
Definition fifo_store (a : Driver.access) : bool :=
  match a with
  | Driver.STORE Driver.USB_GRXFSIZ _ | Driver.STORE Driver.USB_GNPTXFSIZ _
  | Driver.STORE (Driver.USB_DIEPTXFS _) _ => true
  | _ => false
  end.

(** A FIFO size register: the depth in the upper half, the start address in
    the lower. *)
Definition fifo_word (depth start : Z) : Z := depth * 65536 + start.

(** The FIFO memory as usb_core_init lays it out for [n] IN endpoints
    besides endpoint 0: 128 words for reception, then 64 words for each
    transmit FIFO, one behind the other. *)
Definition fifo_map (n : nat) : list Driver.access :=
  Driver.STORE Driver.USB_GRXFSIZ 128
  :: Driver.STORE Driver.USB_GNPTXFSIZ (fifo_word 64 128)
  :: map (fun k => Driver.STORE (Driver.USB_DIEPTXFS (Z.of_nat k))
                                (fifo_word 64 (192 + 64 * Z.of_nat k)))
         (seq 0 n).

(** ** A board to run the engine on

    Values for the parameters, used where a property is evaluated on a
    concrete input: 16-bit [len], full-speed EP0, a one-entry descriptor
    table, and two backends, one that accepts every call and one that
    rejects every call. *)
Module Board.

Definition usb_dev : usb_dev_h := {| LEN_BITS := 16 |}.

Definition mcu : mcu_h :=
  {| USB_DIEP_CTL_STALL := 0x200000;
     USB_GINTSTS_USBRST := 0x1000;
     USB_GINTSTS_ENUMDONE := 0x2000;
     USB_GINTSTS_IEPINT := 0x40000;
     USB_GINTSTS_OEPINT := 0x80000;
     USB_DIEP_INT_XFERCOMPL := 0x1;
     USB_DOEP_INT_XFERCOMPL := 0x1;
     USB_DOEP0INT_STUPPKTRCVD := 0x8000;
     USB_DOEP0INT_SETUP := 0x8;
     USB_DOEP0INT_STSPHSERCVD := 0x20 |}.

Definition usb_desc : usb_desc_h :=
  {| EP0_SIZE := 64;
     MSFT_VENDOR_CODE := 0x7E;
     MSFT_WCID_LEN := 40;
     usb_microsoft_wcid := 0x4100;
     usb_descriptor_list :=
       [ {| d_wValue := 0x0100; d_addr := 0x4000; d_length := 18 |};
         {| d_wValue := 0; d_addr := NULL; d_length := 0 |} ];
     load8 := fun _ => 0;
     rx_buffer := 0x20000100;
     ctrl_send_buf := 0x20000140;
     reply_buffer_p := 0x20000180 |}.

Definition accepting : dfu_h unit :=
  {| dfu_download := fun _ _ _ _ _ b => (true, b);
     dfu_getstatus := fun buf b => (true, buf, b);
     dfu_clrstatus := fun b => (true, b);
     dfu_getstate := fun b => (2, b);
     dfu_abort := fun b => (true, b) |}.

Definition rejecting : dfu_h unit :=
  {| dfu_download := fun _ _ _ _ _ b => (false, b);
     dfu_getstatus := fun buf b => (false, buf, b);
     dfu_clrstatus := fun b => (false, b);
     dfu_getstate := fun b => (10, b);
     dfu_abort := fun b => (false, b) |}.

(** The peripheral at rest: no interrupt pending, 64-byte packets on EP0. *)
Definition idle : USB_TypeDef :=
  {| GINTSTS := 0; GINTMSK := 0xC3000; DAINT := 0; DAINTMSK := 0x10001;
     DIEPMSK := 0x1; DOEPMSK := 0x29; DOEP0INT := 0; DOEP0TSIZ := 0;
     DOEP0CTL := 0; DIEP0CTL := 0;
     USB_DINEPS_INT := fun _ => 0; USB_DOUTEPS_INT := fun _ => 0 |}.

Definition boot : machine unit :=
  power_on idle tt.

Definition go (es : list event) (m : machine unit) : machine unit :=
  run (DEVH := usb_dev) (MCU := mcu) (DESC := usb_desc) (DFU := accepting) es m.

Definition request (code value index length : Z) : struct_device_req :=
  {| wRequestAndType := code; wValue := value; wIndex := index;
     wLength := length |}.

(** The machine after power-on with [req] in [dev->dev_req]. *)
Definition asked (req : struct_device_req) : machine unit :=
  set_dev_req req boot.

(** DFU_DNLOAD of [n] bytes as block [blockNum], to interface 0. *)
Definition download (blockNum n : Z) : struct_device_req :=
  request 0x0121 blockNum 0 n.

(** Scenario B of the specification. *)
Definition scenario_B : list event :=
  [SETUP (download 0 200);
   OUT_COMPLETE 64; OUT_COMPLETE 64; OUT_COMPLETE 64; OUT_COMPLETE 8].

(** Scenario B to its end, then the SETUP of a next block of 64 bytes, with
    no control READ in between. *)
Definition next_block : list event :=
  scenario_B ++ [IN_COMPLETE; SETUP (download 1 64)].

(** A block of 64 bytes downloaded, then GET_DESCRIPTOR(device) up to its
    OUT handshake. *)
Definition download_then_read : list event :=
  [SETUP (download 0 64); OUT_COMPLETE 64; IN_COMPLETE;
   SETUP (request 0x0680 0x0100 0 18); IN_COMPLETE].

(** An interrupt for OUT endpoint 0: transfer complete, no SETUP. *)
Definition out0_complete : USB_TypeDef :=
  {| GINTSTS := 0x80000; GINTMSK := 0xC3000; DAINT := 0x10000;
     DAINTMSK := 0x10001; DIEPMSK := 0x1; DOEPMSK := 0x29; DOEP0INT := 0x1;
     DOEP0TSIZ := 0; DOEP0CTL := 0; DIEP0CTL := 0;
     USB_DINEPS_INT := fun _ => 0;
     USB_DOUTEPS_INT := fun ep => if ep =? 0 then 0x1 else 0 |}.

(** [boot] with that interrupt pending. *)
Definition stray_out0 : machine unit := set_USB out0_complete boot.


(** Values for the parameters of the driver part, with a device FIFO of
    [fifo_words] words.  The properties name the values they depend on as
    hypotheses. *)
Definition driver_with (fifo_words : Z) : Driver.mcu_h_driver :=
  {| Driver.USB_PCGCCTL_STOPPCLK := 0x1;
     Driver.USB_PCGCCTL_PWRCLMP := 0x4;
     Driver.USB_PCGCCTL_RSTPDWNMODULE := 0x8;
     Driver.USB_GRSTCTL_CSFTRST := 0x1;
     Driver.USB_GRSTCTL_AHBIDLE := 0x80000000;
     Driver.USB_GRSTCTL_RXFFLSH := 0x10;
     Driver.USB_GRSTCTL_TXFFLSH := 0x20;
     Driver.USB_GINTMSK_USBRSTMSK := 0x1000;
     Driver.USB_GINTMSK_ENUMDONEMSK := 0x2000;
     Driver.USB_GINTMSK_IEPINTMSK := 0x40000;
     Driver.USB_GINTMSK_OEPINTMSK := 0x80000;
     Driver.DCTL_WO_BITMASK := 0x780;
     Driver.USB_DCTL_SFTDISCON := 0x2;
     Driver.USB_DCTL_IGNRFRMNUM := 0x8000;
     Driver._USB_DCFG_DEVADDR_MASK := 0x7F0;
     Driver._USB_DCFG_DEVSPD_MASK := 0x3;
     Driver.USB_DCFG_DEVSPD_FS := 0x3;
     Driver.USB_DCFG_NZSTSOUTHSHK := 0x4;
     Driver._USB_DCFG_PERFRINT_MASK := 0x1800;
     Driver.DEPCTL_WO_BITMASK := 0x3C000000;
     Driver.USB_DOEP0CTL_EPENA := 0x80000000;
     Driver.USB_DOEP0CTL_CNAK := 0x4000000;
     Driver.USB_DIEP0CTL_EPENA := 0x80000000;
     Driver.USB_DIEP0CTL_CNAK := 0x4000000;
     Driver.USB_DOEP_CTL_EPTYPE_ISO := 0x40000;
     Driver.USB_DIEP_CTL_EPTYPE_ISO := 0x40000;
     Driver.USB_DIEP_CTL_EPENA := 0x80000000;
     Driver.USB_DIEP_CTL_EPDIS := 0x40000000;
     Driver.USB_ROUTE_PHYPEN := 0x1;
     Driver._USB_GAHBCFG_HBSTLEN_MASK := 0x1E;
     Driver.USB_GAHBCFG_DMAEN := 0x20;
     Driver.USB_GAHBCFG_HBSTLEN_SINGLE := 0x0;
     Driver.USB_GAHBCFG_GLBLINTRMSK := 0x1;
     Driver.MAX_NUM_IN_EPS := 3;
     Driver.MAX_NUM_OUT_EPS := 3;
     Driver.MAX_DEVICE_FIFO_SIZE_INWORDS := fifo_words;
     Driver.CMU_OSCENCMD_LFRCOEN := 0x40;
     Driver.CMU_STATUS_LFRCORDY := 0x80;
     Driver.CMU_LFCCLKEN0_USBLE := 0x1;
     Driver.CMU_HFCORECLKEN0_USB := 0x8;
     Driver.CMU_HFCORECLKEN0_USBC := 0x4;
     Driver.CMU_USHFRCOCONF_BAND_48MHZ := 0x1;
     Driver.CMU_OSCENCMD_USHFRCOEN := 0x1000;
     Driver.CMU_STATUS_USHFRCORDY := 0x200000;
     Driver.CMU_CMD_USBCCLKSEL_USHFRCO := 0x40;
     Driver.CMU_STATUS_USBCUSHFRCOSEL := 0x4000000;
     Driver.CMU_USBCRCTRL_EN := 0x1;
     Driver.USB_CTRL_LEMOSCCTRL_GATE := 0x200000;
     Driver.USB_CTRL_LEMIDLEEN := 0x1000000;
     Driver.USB_CTRL_LEMPHYCTRL := 0x80;
     Driver.USB_CTRL_LEMNAKEN := 0x4000000;
     Driver.USB_CTRL_LEMADDRMEN := 0x8000000;
     Driver.USB_IRQn := 19;
     Driver.USB_DAINTMSK_INEPMSK0 := 0x1;
     Driver.USB_DAINTMSK_OUTEPMSK0 := 0x10000;
     Driver.USB_DOEPMSK_SETUPMSK := 0x8;
     Driver.USB_DOEPMSK_XFERCOMPLMSK := 0x1;
     Driver.USB_DOEPMSK_STSPHSERCVDMSK := 0x20;
     Driver.USB_DIEPMSK_XFERCOMPLMSK := 0x1;
     Driver.ep0_setup_pkt_p := 0x200000E8;
     Driver.efm32hg_revno :=
       fun answers =>
         Some ({| Driver.family := 5; Driver.major := 1; Driver.minor := 1 |},
               [], answers) |}.

(** The device FIFO of 512 words, and one too small for the layout. *)
Definition driver : Driver.mcu_h_driver := driver_with 512.

Definition tight : Driver.mcu_h_driver := driver_with 256.

(** Hardware that is ready whenever it is asked: AHBIDLE and the three
    clock flags set, nothing in progress. *)
Definition always_ready (loads : nat) : list Z := repeat 0x84200080 loads.

(** [boot] with the IN interrupt of endpoint 0 pending: transfer complete. *)
Definition in0_complete : USB_TypeDef :=
  {| GINTSTS := 0x40000; GINTMSK := 0xC3000; DAINT := 0x1;
     DAINTMSK := 0x10001; DIEPMSK := 0x1; DOEPMSK := 0x29; DOEP0INT := 0;
     DOEP0TSIZ := 0; DOEP0CTL := 0; DIEP0CTL := 0;
     USB_DINEPS_INT := fun ep => if ep =? 0 then 0x1 else 0;
     USB_DOUTEPS_INT := fun _ => 0 |}.

Definition stray_in0 : machine unit := set_USB in0_complete boot.


(** [boot] with a SETUP packet received on endpoint 0, two slots of the
    three left. *)
Definition setup_received : USB_TypeDef :=
  {| GINTSTS := 0x80000; GINTMSK := 0xC3000; DAINT := 0x10000;
     DAINTMSK := 0x10001; DIEPMSK := 0x1; DOEPMSK := 0x29; DOEP0INT := 0x8;
     DOEP0TSIZ := 0x40000000; DOEP0CTL := 0; DIEP0CTL := 0;
     USB_DINEPS_INT := fun _ => 0;
     USB_DOUTEPS_INT := fun ep => if ep =? 0 then 0x8 else 0 |}.

Definition setup_pending : machine unit := set_USB setup_received boot.

(** Packets received with the transfer size register counting down. *)
Definition take (packets : list Z) (m : machine unit) : machine unit :=
  receive_all (DEVH := usb_dev) (MCU := mcu) (DESC := usb_desc)
              (DFU := accepting) packets m.

(** Scenario B to the end of its status stage, and then the SETUP of a
    next block of 200 bytes, with no control READ in between. *)
Definition block_0_done : machine unit :=
  go [IN_COMPLETE] (take [64; 64; 64; 8] (go [SETUP (download 0 200)] boot)).

Definition block_1_set_up : machine unit :=
  go [SETUP (download 1 200)] block_0_done.

End Board.

(** ** Properties *)

Section Properties.

Context {DEVH : usb_dev_h} {MCU : mcu_h} {DESC : usb_desc_h}.
Context {B : Type} {DFU : dfu_h B}.

Implicit Types (m : machine B) (t l : list io).

(** *** Bits and wrap-around *)

Lemma wrap_small bits x : 0 <= bits -> 0 <= x < 2 ^ bits -> wrap bits x = x.
Proof. intros _ Hx. unfold wrap. now apply Z.mod_small. Qed.

Lemma pktsize_of_64 ctl : Z.land ctl 3 = 0 -> pktsize_of ctl = 64.
Proof. intros H. unfold pktsize_of. now rewrite H. Qed.

Lemma lor_bit6 hi low c :
  Z.lor hi low = c -> Z.testbit low 6 = true -> Z.testbit c 6 = true.
Proof.
  intros <- Hlow. rewrite Z.lor_spec, Hlow. apply orb_true_r.
Qed.

(** The two Microsoft request codes end in 0xC0 and 0xC1: no code whose bit 6
    is clear is one of them. *)
Lemma not_msft code :
  Z.testbit code 6 = false ->
  (code =? Z.lor (Z.shiftl MSFT_VENDOR_CODE 8) 0xC0)
  || (code =? Z.lor (Z.shiftl MSFT_VENDOR_CODE 8) 0xC1) = false.
Proof.
  intros Hbit. apply orb_false_intro; apply Z.eqb_neq; intros Heq;
    symmetry in Heq; apply lor_bit6 in Heq; try reflexivity; congruence.
Qed.

Lemma tst_land_false a b mask : tst a mask = false -> tst (Z.land a b) mask = false.
Proof.
  unfold tst. rewrite !negb_false_iff, !Z.eqb_eq. intros H.
  rewrite <- Z.land_assoc, (Z.land_comm b mask), Z.land_assoc, H.
  apply Z.land_0_l.
Qed.

(** *** What a handler leaves alone *)

Ltac open_machine m :=
  destruct m as [u pkts cfg [st [code val idx lng] [a n z]] ls rb ln ps pos off b t];
  cbn [USB ep0_setup_pkt usb_configuration dev last_setup reply_buffer lens
       pktsizes len_pos ep0_rx_offset dfu trace state dev_req ctrl_data
       wRequestAndType wValue wIndex wLength addr len require_zlp] in *.

Ltac exec :=
  cbv beta iota zeta delta
    [usb_setup handle_in0 handle_out0 handle_datastage_in handle_datastage_out
     usb_lld_ctrl_error usb_lld_ctrl_ack usb_lld_ctrl_recv usb_lld_ctrl_send
     send efm32hg_prepare_ep0_setup efm32hg_prepare_ep0_in
     efm32hg_prepare_ep0_out efm32hg_ep_out_stall efm32hg_ep_in_stall
     efm32hg_set_daddr efm32hg_enable_ints set_state set_dev_req set_ctrl_data
     set_dev set_last_setup set_reply_buffer set_usb_configuration
     set_ep0_rx_offset set_dfu set_debug set_USB emit
     USB ep0_setup_pkt usb_configuration dev last_setup reply_buffer lens
     pktsizes len_pos ep0_rx_offset dfu trace state dev_req ctrl_data
     wRequestAndType wValue wIndex wLength addr len require_zlp].

(** C5. A request for an endpoint or interface of which only number 0 exists
    (GET_STATUS, CLEAR_FEATURE, SET_FEATURE of an endpoint, DFU_DNLOAD,
    DFU_GETSTATUS, DFU_CLRSTATUS, DFU_GETSTATE, DFU_ABORT) that carries
    wIndex > 0 makes the dispatcher stall EP0 in both directions and nothing
    else: the pipe is back in WAIT_SETUP and re-armed, the request is kept in
    [last_setup] as for every SETUP, and the configuration, the reply
    buffer, the data cursor, the download cursor and the backend are as they
    were; no address is set, no register stored, no reply armed, no backend
    called. *)
Theorem wIndex_nonzero_stalls_only m :
  index0_only (wRequestAndType (dev_req (dev m))) ->
  0 < wIndex (dev_req (dev m)) ->
  usb_setup m =
  {| USB := USB m; ep0_setup_pkt := ep0_setup_pkt m;
     usb_configuration := usb_configuration m;
     dev := {| state := WAIT_SETUP; dev_req := dev_req (dev m);
               ctrl_data := ctrl_data (dev m) |};
     last_setup := dev_req (dev m);
     reply_buffer := reply_buffer m;
     lens := lens m; pktsizes := pktsizes m; len_pos := len_pos m;
     ep0_rx_offset := ep0_rx_offset m; dfu := dfu m;
     trace := trace m ++ [OUT_STALL ENDP0; IN_STALL ENDP0; EP0_SETUP] |}.
Proof.
  intros Hcode Hidx. open_machine m.
  apply Z.ltb_lt in Hidx.
  unfold index0_only, In in Hcode.
  exec.
  repeat (destruct Hcode as [<- | Hcode]; [
    rewrite ?not_msft by reflexivity; cbn [Z.eqb Pos.eqb orb];
    rewrite Hidx; cbn [orb]; rewrite <- !app_assoc; reflexivity | ]).
  destruct Hcode.
Qed.

(** *** The download cursor *)

(** One case split on what the code branches on: a backend result, the
    descriptor scan, or a condition. *)
Ltac split_step :=
  match goal with
  | |- context [if ?c then _ else _] =>
    lazymatch type of c with bool => idtac end;
    lazymatch c with
    | context [if _ then _ else _] => fail
    | _ => destruct c eqn:?
    end
  | |- context [find_descriptor ?a ?b] =>
    let data := fresh "data" in let datalen := fresh "datalen" in
    destruct (find_descriptor a b) as [[data datalen] |] eqn:?
  | |- context [dfu_download ?a ?b ?c ?d ?e ?f] =>
    let ok := fresh "ok" in let b' := fresh "b" in
    destruct (dfu_download a b c d e f) as [ok b'] eqn:?; destruct ok
  | |- context [dfu_getstatus ?a ?b] =>
    let ok := fresh "ok" in let b' := fresh "b" in let buf := fresh "buf" in
    destruct (dfu_getstatus a b) as [[ok buf] b'] eqn:?; destruct ok
  | |- context [dfu_clrstatus ?a] =>
    let ok := fresh "ok" in let b' := fresh "b" in
    destruct (dfu_clrstatus a) as [ok b'] eqn:?; destruct ok
  | |- context [dfu_getstate ?a] =>
    let ok := fresh "st" in let b' := fresh "b" in
    destruct (dfu_getstate a) as [ok b'] eqn:?
  | |- context [dfu_abort ?a] =>
    let ok := fresh "ok" in let b' := fresh "b" in
    destruct (dfu_abort a) as [ok b'] eqn:?; destruct ok
  end.

Ltac absurd_case :=
  match goal with
  | H : negb true = true |- _ => discriminate H
  | H : negb false = false |- _ => discriminate H
  end.

Ltac split_cases := repeat (split_step; try absurd_case; exec).

Lemma usb_setup_ep0_rx_offset m : ep0_rx_offset (usb_setup m) = ep0_rx_offset m.
Proof. open_machine m. exec. split_cases; reflexivity. Qed.

Lemma handle_in0_ep0_rx_offset m : ep0_rx_offset (handle_in0 m) = ep0_rx_offset m.
Proof. open_machine m. destruct st; exec; split_cases; reflexivity. Qed.

(** C1, as the code has it. The download cursor is set to 0 when a control
    READ completes, that is by the OUT completion that finds the pipe in
    WAIT_STATUS_OUT, which also returns the pipe to WAIT_SETUP. The
    dispatcher never writes the cursor, whatever the request and the state
    it arrives in, and neither does an IN completion, the one that ends a
    no-data transfer included: both leave the cursor as it was. *)
Theorem ep0_rx_offset_reset_only_after_control_read m :
  (state (dev m) = WAIT_STATUS_OUT ->
   ep0_rx_offset (handle_out0 m) = 0
   /\ state (dev (handle_out0 m)) = WAIT_SETUP)
  /\ ep0_rx_offset (usb_setup m) = ep0_rx_offset m
  /\ ep0_rx_offset (handle_in0 m) = ep0_rx_offset m.
Proof.
  split; [| split].
  - intros Hst. unfold handle_out0. rewrite Hst. now exec.
  - apply usb_setup_ep0_rx_offset.
  - apply handle_in0_ep0_rx_offset.
Qed.

(** *** Error paths *)

Lemma error_outcome m0 m l :
  trace m = trace m0 ++ l -> stalls l = false ->
  outcome m0 (usb_lld_ctrl_error m).
Proof.
  intros Ht Hl. open_machine m. subst t.
  apply refuses with l; [ | exact Hl | reflexivity ].
  exec. rewrite <- !app_assoc. reflexivity.
Qed.

Lemma ack_outcome m0 m l :
  trace m = trace m0 ++ l -> stalls l = false -> failures l = false ->
  outcome m0 (usb_lld_ctrl_ack m).
Proof.
  intros Ht Hl Hf. open_machine m. subst t.
  apply proceeds with (l ++ [EP0_SETUP; EP0_IN NULL 0 0]).
  - exec. rewrite <- !app_assoc. reflexivity.
  - unfold stalls in *. rewrite existsb_app, Hl. reflexivity.
  - unfold failures in *. rewrite existsb_app, Hf. reflexivity.
  - discriminate.
Qed.

Lemma ctrl_send_outcome m0 m l buf buflen :
  trace m = trace m0 ++ l -> stalls l = false -> failures l = false ->
  outcome m0 (usb_lld_ctrl_send buf buflen m).
Proof.
  intros Ht Hl Hf. open_machine m. exec. subst t.
  split_cases.
  all: eapply proceeds;
    [ exec; rewrite <- ?app_assoc; reflexivity
    | unfold stalls in *; rewrite existsb_app, Hl; reflexivity
    | unfold failures in *; rewrite existsb_app, Hf; reflexivity
    | discriminate ].
Qed.

Lemma send_outcome m0 m l data datalen :
  trace m = trace m0 ++ l -> stalls l = false -> failures l = false ->
  outcome m0 (send data datalen m).
Proof.
  intros Ht Hl Hf. unfold send.
  destruct (_ && _); eauto using ctrl_send_outcome, ack_outcome.
Qed.

Lemma recv_outcome m0 m l p cnt :
  trace m = trace m0 ++ l -> stalls l = false -> failures l = false ->
  outcome m0 (usb_lld_ctrl_recv p cnt m).
Proof.
  intros Ht Hl Hf. open_machine m. subst t.
  eapply proceeds.
  - exec. rewrite <- !app_assoc. reflexivity.
  - unfold stalls in *. rewrite existsb_app, Hl. reflexivity.
  - unfold failures in *. rewrite existsb_app, Hf. reflexivity.
  - discriminate.
Qed.

Ltac stores :=
  cbv beta iota zeta delta
    [efm32hg_set_daddr set_state set_dev_req set_ctrl_data
     set_dev set_last_setup set_reply_buffer set_usb_configuration
     set_ep0_rx_offset set_dfu set_debug set_USB emit
     USB ep0_setup_pkt usb_configuration dev last_setup reply_buffer lens
     pktsizes len_pos ep0_rx_offset dfu trace state dev_req ctrl_data
     wRequestAndType wValue wIndex wLength addr len require_zlp].

Ltac dispatch :=
  cbv beta iota zeta delta
    [usb_setup efm32hg_set_daddr set_state set_dev_req set_ctrl_data
     set_dev set_last_setup set_reply_buffer set_usb_configuration
     set_ep0_rx_offset set_dfu set_debug set_USB emit
     USB ep0_setup_pkt usb_configuration dev last_setup reply_buffer lens
     pktsizes len_pos ep0_rx_offset dfu trace state dev_req ctrl_data
     wRequestAndType wValue wIndex wLength addr len require_zlp].

Lemma usb_setup_outcome m : outcome m (usb_setup m).
Proof.
  open_machine m. dispatch.
  repeat (split_step; try absurd_case; dispatch).
  all: first [ eapply send_outcome | eapply error_outcome | eapply recv_outcome ];
    [ cbn [trace]; rewrite <- ?app_assoc;
      first [ reflexivity | symmetry; apply app_nil_r ]
    | reflexivity .. ].
Qed.

Lemma proceeds_with m m' l :
  trace m' = trace m ++ l -> stalls l = false -> failures l = false ->
  state (dev m') <> STALLED ->
  outcome m m'.
Proof. apply proceeds. Qed.

Lemma refuses_last m m' l :
  trace m' = trace m ++ l ->
  skipn (length l - 3) l = stall_and_rearm ->
  stalls (firstn (length l - 3) l) = false ->
  state (dev m') = WAIT_SETUP ->
  outcome m m'.
Proof.
  intros Ht Hs Hf Hst. apply refuses with (firstn (length l - 3) l); trivial.
  rewrite <- Hs, firstn_skipn. exact Ht.
Qed.

Ltac settle_outcome :=
  first
    [ eapply proceeds_with;
      [ cbn [trace]; rewrite <- ?app_assoc; reflexivity
      | reflexivity | reflexivity | discriminate ]
    | eapply refuses_last;
      [ cbn [trace]; rewrite <- ?app_assoc; reflexivity
      | reflexivity | reflexivity | reflexivity ] ].

Lemma handle_in0_outcome m : outcome m (handle_in0 m).
Proof. open_machine m. destruct st; exec; split_cases; settle_outcome. Qed.

Lemma handle_out0_outcome m : outcome m (handle_out0 m).
Proof. open_machine m. destruct st; exec; split_cases; settle_outcome. Qed.

Lemma outcome_not_STALLED m m' : outcome m m' -> state (dev m') <> STALLED.
Proof. intros [l _ _ _ H | l _ _ H]; [ exact H | rewrite H; discriminate ]. Qed.

(** The interrupt handler never leaves the pipe in STALLED either. *)
Lemma emit_state e m : state (dev (emit e m)) = state (dev m).
Proof. reflexivity. Qed.

Lemma take_setup_not_STALLED m : state (dev (take_setup m)) <> STALLED.
Proof. unfold take_setup. eapply outcome_not_STALLED, usb_setup_outcome. Qed.

Lemma in_ep_not_STALLED ep m :
  state (dev m) <> STALLED -> state (dev (in_ep ep m)) <> STALLED.
Proof.
  intros H. unfold in_ep.
  destruct (tst _ _); [ | exact H ].
  destruct (ep =? 0); [ | exact H ].
  eapply outcome_not_STALLED, handle_in0_outcome.
Qed.

Lemma in_loop_not_STALLED rounds : forall epint ep m,
  state (dev m) <> STALLED -> state (dev (in_loop rounds epint ep m)) <> STALLED.
Proof.
  induction rounds as [| rounds IH]; intros epint ep m H; cbn [in_loop].
  - exact H.
  - destruct (epint =? 0); [ exact H | ].
    apply IH. destruct (tst epint 1); [ now apply in_ep_not_STALLED | exact H ].
Qed.

Lemma out_ep_not_STALLED ep m :
  state (dev m) <> STALLED -> state (dev (fst (out_ep ep m))) <> STALLED.
Proof.
  intros H. unfold out_ep.
  repeat match goal with
  | |- context [if ?c then _ else _] =>
    lazymatch c with
    | context [if _ then _ else _] => fail
    | _ => destruct c
    end
  end; cbn [fst]; rewrite ?emit_state;
  first [ exact H | apply take_setup_not_STALLED
        | eapply outcome_not_STALLED, handle_out0_outcome ].
Qed.

Lemma out_loop_not_STALLED rounds : forall epint ep m,
  state (dev m) <> STALLED -> state (dev (out_loop rounds epint ep m)) <> STALLED.
Proof.
  induction rounds as [| rounds IH]; intros epint ep m H; cbn [out_loop].
  - exact H.
  - destruct (epint =? 0); [ exact H | ].
    destruct (tst epint 1); [ | now apply IH ].
    pose proof (out_ep_not_STALLED ep m H) as H'.
    destruct (out_ep ep m) as [m' [|]]; cbn [fst] in H'; [ now apply IH | exact H' ].
Qed.

Lemma USB_Handler_not_STALLED m :
  state (dev m) <> STALLED -> state (dev (USB_Handler m)) <> STALLED.
Proof.
  intros H. unfold USB_Handler.
  destruct (tst _ USB_GINTSTS_USBRST); [ exact H | ].
  set (m1 := if tst _ USB_GINTSTS_ENUMDONE then _ else m).
  assert (H1 : state (dev m1) <> STALLED).
  { subst m1. destruct (tst _ USB_GINTSTS_ENUMDONE); [ discriminate | exact H ]. }
  clearbody m1.
  set (m2 := if tst _ USB_GINTSTS_IEPINT then _ else m1).
  assert (H2 : state (dev m2) <> STALLED).
  { subst m2. destruct (tst _ USB_GINTSTS_IEPINT);
      [ now apply in_loop_not_STALLED | exact H1 ]. }
  clearbody m2.
  destruct (tst _ USB_GINTSTS_OEPINT); [ now apply out_loop_not_STALLED | exact H2 ].
Qed.

(** The error paths by name: a request code without a case of its own, and
    a completion in the direction opposite to the data phase (the host
    aborts), are answered by the stall and nothing else. *)
Lemma unknown_request_stalls m :
  supported_request (wRequestAndType (dev_req (dev m))) = false ->
  trace (usb_setup m) = trace m ++ stall_and_rearm.
Proof.
  intros H. open_machine m. unfold supported_request in H. cbn [existsb] in H.
  repeat (apply orb_false_elim in H as [? H]).
  dispatch.
  repeat match goal with
  | E : (code =? _) = false |- _ => rewrite E; clear E
  end.
  cbn [orb]. exec. now rewrite <- !app_assoc.
Qed.

Lemma host_abort_stalls m :
  (state (dev m) = IN_DATA \/ state (dev m) = LAST_IN_DATA ->
   trace (handle_out0 m) = trace m ++ stall_and_rearm)
  /\ (state (dev m) = OUT_DATA ->
      trace (handle_in0 m) = trace m ++ stall_and_rearm).
Proof.
  open_machine m. split.
  - intros [-> | ->]; exec; now rewrite <- !app_assoc.
  - intros ->. exec. now rewrite <- !app_assoc.
Qed.

(** C7. Every error path ends in WAIT_SETUP with EP0 stalled in both
    directions and re-armed for SETUP. This is what [usb_lld_ctrl_error]
    does. A handler of a SETUP, of an IN completion or of an OUT completion
    stalls whenever a backend operation it called failed, and when it stalls,
    for whatever reason, the stall and the re-arming are its last three
    actions, done once, and the pipe is left in WAIT_SETUP. An unknown
    request code and a completion in the direction opposite to the data
    phase (host abort) are answered by exactly that. No handler, the
    interrupt handler included, leaves the pipe in STALLED. *)
Theorem error_paths_rest_in_WAIT_SETUP m :
  (state (dev (usb_lld_ctrl_error m)) = WAIT_SETUP
   /\ trace (usb_lld_ctrl_error m) = trace m ++ stall_and_rearm)
  /\ (forall h, In h [usb_setup; handle_in0; handle_out0] ->
      state (dev (h m)) <> STALLED
      /\ exists l, trace (h m) = trace m ++ l
         /\ (failures l = true -> stalls l = true)
         /\ (stalls l = true ->
             state (dev (h m)) = WAIT_SETUP
             /\ exists l0, l = l0 ++ stall_and_rearm /\ stalls l0 = false))
  /\ (supported_request (wRequestAndType (dev_req (dev m))) = false ->
      trace (usb_setup m) = trace m ++ stall_and_rearm)
  /\ (state (dev m) = IN_DATA \/ state (dev m) = LAST_IN_DATA ->
      trace (handle_out0 m) = trace m ++ stall_and_rearm)
  /\ (state (dev m) = OUT_DATA ->
      trace (handle_in0 m) = trace m ++ stall_and_rearm)
  /\ (state (dev m) <> STALLED -> state (dev (USB_Handler m)) <> STALLED).
Proof.
  split; [ | split; [ | split; [ | split; [ | split ] ] ] ].
  - split; [ reflexivity | ].
    open_machine m. exec. now rewrite <- !app_assoc.
  - intros h Hh.
    assert (Ho : outcome m (h m)).
    { cbn [In] in Hh. destruct Hh as [<- | [<- | [<- | []]]];
        auto using usb_setup_outcome, handle_in0_outcome, handle_out0_outcome. }
    split; [ now apply (outcome_not_STALLED m) | ].
    destruct Ho as [l Ht Hl Hf Hst | l Ht Hl Hst].
    + exists l. split; [ exact Ht | ]. rewrite Hl, Hf. split; discriminate.
    + exists (l ++ stall_and_rearm). split; [ exact Ht | ].
      assert (Hs : stalls (l ++ stall_and_rearm) = true)
        by (unfold stalls; rewrite existsb_app; apply orb_true_r).
      split; [ intros _; exact Hs | ].
      intros _. split; [ exact Hst | ]. now exists l.
  - apply unknown_request_stalls.
  - apply host_abort_stalls.
  - apply host_abort_stalls.
  - apply USB_Handler_not_STALLED.
Qed.

(** *** OUT completions while waiting for SETUP *)

Lemma out_ep0_ignored m :
  state (dev m) = WAIT_SETUP ->
  tst (Z.land (USB_DOUTEPS_INT (USB m) 0) (DOEPMSK (USB m))) USB_DOEP0INT_SETUP = false ->
  tst (Z.land (DOEP0INT (USB m)) (DOEPMSK (USB m))) USB_DOEP0INT_SETUP = false ->
  exists l, only_emits m (fst (out_ep 0 m)) l
            /\ forallb acknowledges_OUT0 l = true
            /\ snd (out_ep 0 m) = true.
Proof.
  intros Hst H1 H2. open_machine m. subst st.
  unfold out_ep.
  destruct (tst (Z.land (USB_DOUTEPS_INT u 0) (DOEPMSK u)) USB_DOEP0INT_STUPPKTRCVD)
    eqn:Hstup; stores; cbn [Z.eqb andb]; rewrite ?Hstup;
    [ rewrite (tst_land_false _ (Z.lnot USB_DOEP_INT_XFERCOMPL) _ H1) | rewrite H1 ];
    rewrite ?H2; cbn [CONTROL_STATE_eqb negb];
    repeat match goal with
    | |- context [if ?c then _ else _] =>
      lazymatch c with
      | context [if _ then _ else _] => fail
      | _ => destruct c
      end
    end;
    cbn [fst snd]; stores.
  all: (eexists; split; [ | split; [ | reflexivity ] ];
     [ unfold only_emits; stores; repeat split; rewrite <- ?app_assoc;
       first [ reflexivity | symmetry; apply app_nil_r ]
     | cbn [forallb acknowledges_OUT0 Z.eqb andb app];
       rewrite ?Z.eqb_refl, ?orb_true_r; reflexivity ]).
Qed.

Lemma out_loop_only_ep0 rounds m :
  out_loop (S (S rounds)) 1 0 m = fst (out_ep 0 m).
Proof.
  change (out_loop (S (S rounds)) 1 0 m)
    with (let '(m', continue) := out_ep 0 m in
          if continue then out_loop (S rounds) (Z.shiftr 1 1) (0 + 1) m' else m').
  destruct (out_ep 0 m) as [m' [|]]; reflexivity.
Qed.

(** C10. In WAIT_SETUP, an interrupt for OUT endpoint 0 that carries no SETUP
    packet is ignored: the handler writes interrupt flags of OUT endpoint 0
    back to USB_DOUTEPS[0].INT and DOEP0INT to acknowledge them, and does
    nothing else; the state, the requests, the buffers, the cursors and the
    backend are as they were, no stall is issued, and no driver primitive
    and no backend operation is called. *)
Theorem OUT0_without_SETUP_ignored_in_WAIT_SETUP m :
  state (dev m) = WAIT_SETUP ->
  tst (Z.land (GINTSTS (USB m)) (GINTMSK (USB m))) USB_GINTSTS_USBRST = false ->
  tst (Z.land (GINTSTS (USB m)) (GINTMSK (USB m))) USB_GINTSTS_ENUMDONE = false ->
  tst (Z.land (GINTSTS (USB m)) (GINTMSK (USB m))) USB_GINTSTS_IEPINT = false ->
  tst (Z.land (GINTSTS (USB m)) (GINTMSK (USB m))) USB_GINTSTS_OEPINT = true ->
  Z.shiftr (u32 (Z.land (DAINT (USB m)) (DAINTMSK (USB m)))) 16 = 1 ->
  tst (Z.land (USB_DOUTEPS_INT (USB m) 0) (DOEPMSK (USB m))) USB_DOEP0INT_SETUP = false ->
  tst (Z.land (DOEP0INT (USB m)) (DOEPMSK (USB m))) USB_DOEP0INT_SETUP = false ->
  exists l, only_emits m (USB_Handler m) l
            /\ forallb acknowledges_OUT0 l = true.
Proof.
  intros Hst Hrst Henum Hin Hout Hep H1 H2.
  destruct (out_ep0_ignored m Hst H1 H2) as (l & Hm & Hl & Hc).
  exists l. split; [ | exact Hl ].
  unfold USB_Handler. rewrite Hrst, Henum, Hin, Hout, Hep.
  rewrite (out_loop_only_ep0 30 m). exact Hm.
Qed.

(** *** The interrupt handler and the decoded events

    What [USB_Handler] does when one interrupt of endpoint 0 is pending is
    what [deliver] does with the decoded event, after the stores that
    acknowledge the interrupt flags. *)

Lemma in_loop_only_ep0 rounds m :
  in_loop (S (S rounds)) 1 0 m = in_ep 0 m.
Proof. reflexivity. Qed.

Lemma USB_Handler_IN0 m :
  only_IN0_pending (USB m) ->
  tst (Z.land (USB_DINEPS_INT (USB m) 0) (DIEPMSK (USB m))) USB_DIEP_INT_XFERCOMPL = true ->
  USB_Handler m
  = handle_in0 (emit (STORE (R_DINEPS_INT 0) USB_DIEP_INT_XFERCOMPL) m).
Proof.
  intros (Hrst & Henum & Hin & Hout & Hep) Hx.
  unfold USB_Handler. rewrite Hrst, Henum, Hin, Hep.
  rewrite (in_loop_only_ep0 30 m). unfold in_ep. rewrite Hx.
  change (0 =? 0) with true. cbv iota.
  replace (USB (handle_in0 (emit (STORE (R_DINEPS_INT 0) USB_DIEP_INT_XFERCOMPL) m)))
    with (USB m); [ now rewrite Hout | ].
  destruct m as [u pkts cfg [st req cd] ls rb ln ps pos off b t].
  destruct st; cbv [handle_in0 emit USB state dev]; try reflexivity.
  all: cbv [handle_datastage_in];
    repeat match goal with
           | |- context [if ?c then _ else _] => destruct c
           end; reflexivity.
Qed.

Lemma USB_Handler_OUT0_data m :
  only_OUT0_pending (USB m) ->
  state (dev m) <> WAIT_SETUP ->
  tst (Z.land (USB_DOUTEPS_INT (USB m) 0) (DOEPMSK (USB m))) USB_DOEP0INT_STUPPKTRCVD = false ->
  tst (Z.land (USB_DOUTEPS_INT (USB m) 0) (DOEPMSK (USB m))) USB_DOEP_INT_XFERCOMPL = true ->
  tst (Z.land (DOEP0INT (USB m)) (DOEPMSK (USB m))) USB_DOEP0INT_SETUP = false ->
  tst (Z.land (DOEP0INT (USB m)) (DOEPMSK (USB m))) USB_DOEP0INT_STSPHSERCVD = false ->
  USB_Handler m
  = handle_out0 (emit (STORE (R_DOUTEPS_INT 0) USB_DOEP0INT_STUPPKTRCVD)
                      (emit (STORE (R_DOUTEPS_INT 0) USB_DOEP_INT_XFERCOMPL) m)).
Proof.
  intros (Hrst & Henum & Hin & Hout & Hep) Hst Hstup Hx Hsetup Hsts.
  unfold USB_Handler. rewrite Hrst, Henum, Hin, Hout, Hep.
  rewrite (out_loop_only_ep0 30 m). unfold out_ep.
  change (0 =? 0) with true. rewrite Hstup. cbn [andb]. rewrite Hx.
  change (USB (emit ?e ?x)) with (USB x). rewrite Hsetup, Hsts.
  replace (CONTROL_STATE_eqb _ WAIT_SETUP) with false; [ reflexivity | ].
  destruct m as [u pkts cfg [st req cd] ls rb ln ps pos off b t].
  cbn in Hst |- *. now destruct st.
Qed.

Lemma USB_Handler_SETUP m :
  only_OUT0_pending (USB m) ->
  tst (Z.land (USB_DOUTEPS_INT (USB m) 0) (DOEPMSK (USB m))) USB_DOEP0INT_STUPPKTRCVD = false ->
  tst (Z.land (USB_DOUTEPS_INT (USB m) 0) (DOEPMSK (USB m))) USB_DOEP_INT_XFERCOMPL = false ->
  tst (Z.land (USB_DOUTEPS_INT (USB m) 0) (DOEPMSK (USB m))) USB_DOEP0INT_SETUP = true ->
  tst (Z.land (USB_DOUTEPS_INT (USB m) 0) (DOEPMSK (USB m))) USB_DOEP0INT_STSPHSERCVD = false ->
  USB_Handler m = take_setup m.
Proof.
  intros (Hrst & Henum & Hin & Hout & Hep) Hstup Hx Hsetup Hsts.
  unfold USB_Handler. rewrite Hrst, Henum, Hin, Hout, Hep.
  rewrite (out_loop_only_ep0 30 m). unfold out_ep.
  change (0 =? 0) with true. rewrite Hstup. cbn [andb]. rewrite Hx, Hsetup, Hsts.
  reflexivity.
Qed.

(** *** The IN data phase *)

Lemma in_packets_app l1 l2 : in_packets (l1 ++ l2) = in_packets l1 ++ in_packets l2.
Proof.
  induction l1 as [| e l1 IH]; [ reflexivity | ].
  destruct e; cbn [in_packets app]; rewrite ?IH; reflexivity.
Qed.

Lemma sum_of_app a b : sum_of (a ++ b) = sum_of a + sum_of b.
Proof. unfold sum_of. induction a as [| x a IH]; cbn [fold_right app]; lia. Qed.

Lemma to_len_small x : 0 <= LEN_BITS -> 0 <= x < 2 ^ LEN_BITS -> to_len x = x.
Proof. apply wrap_small. Qed.

Lemma in_data_phase_over k m :
  in_data_phase_active m = false -> in_data_phase k m = m.
Proof. intros H. destruct k; cbn [in_data_phase]; [ | rewrite H ]; reflexivity. Qed.

(** One IN completion in the data phase, with 64-byte packets: either the
    phase is over (nothing was left and the OUT handshake is armed), or one
    packet of min(remaining, 64) bytes is armed. *)
Lemma handle_in0_step m :
  in_data_phase_active m = true ->
  Z.land (DOEP0CTL (USB m)) 3 = 0 ->
  0 <= LEN_BITS ->
  0 <= len (ctrl_data (dev m)) < 2 ^ LEN_BITS ->
  exists l, trace (handle_in0 m) = trace m ++ l
  /\ ((state (dev (handle_in0 m)) = WAIT_STATUS_OUT
       /\ len (ctrl_data (dev m)) = 0 /\ in_packets l = [])
      \/ (in_data_phase_active (handle_in0 m) = true
          /\ USB (handle_in0 m) = USB m
          /\ len (ctrl_data (dev (handle_in0 m)))
             = len (ctrl_data (dev m)) - Z.min (len (ctrl_data (dev m))) 64
          /\ in_packets l = [Z.min (len (ctrl_data (dev m))) 64]
          /\ (steps_left (handle_in0 m) < steps_left m)%nat)).
Proof.
  intros Hact Hmps Hbits Hlen. apply pktsize_of_64 in Hmps.
  unfold steps_left, in_data_phase_active in *. open_machine m.
  destruct st; try discriminate Hact; exec; rewrite Hmps;
    cbn [CONTROL_STATE_eqb andb].
  - (* IN_DATA *)
    rewrite andb_false_r.
    destruct (Z.leb_spec n 64), (Z.ltb_spec n 64); try lia; stores;
      (eexists; split; [ rewrite <- app_assoc; reflexivity | right ]);
      rewrite to_len_small by lia;
      repeat split; cbn [in_packets app]; try (f_equal; f_equal; lia); try lia.
    all: destruct (Z.eqb_spec n 0), (Z.eqb_spec (n - n) 0), (Z.eqb_spec (n - 64) 0);
      try lia; try destruct z; lia.
  - (* LAST_IN_DATA *)
    rewrite andb_true_r.
    destruct (Z.eqb_spec n 0) as [-> | Hn].
    + destruct z; stores;
        (eexists; split; [ rewrite <- ?app_assoc; reflexivity | ]);
        [ right | left ]; repeat split; cbn; lia.
    + destruct (Z.leb_spec n 64), (Z.ltb_spec n 64); try lia; stores;
        (eexists; split; [ rewrite <- app_assoc; reflexivity | right ]);
        rewrite to_len_small by lia;
        repeat split; cbn [in_packets app]; try (f_equal; f_equal; lia); try lia.
      all: destruct (Z.eqb_spec (n - n) 0), (Z.eqb_spec (n - 64) 0);
        try lia; try destruct z; lia.
Qed.

(** Enough IN completions end the data phase; the packets armed on the way
    are min(remaining, 64) each and add up to what was left to send. *)
Lemma in_data_phase_ends k : forall m,
  in_data_phase_active m = true ->
  Z.land (DOEP0CTL (USB m)) 3 = 0 ->
  0 <= LEN_BITS ->
  0 <= len (ctrl_data (dev m)) < 2 ^ LEN_BITS ->
  (steps_left m <= k)%nat ->
  exists l, trace (in_data_phase k m) = trace m ++ l
  /\ state (dev (in_data_phase k m)) = WAIT_STATUS_OUT
  /\ sum_of (in_packets l) = len (ctrl_data (dev m))
  /\ chunked (len (ctrl_data (dev m))) (in_packets l).
Proof.
  induction k as [| k IH]; intros m Hact Hmps Hbits Hlen Hk.
  - exfalso. unfold steps_left in Hk.
    destruct (_ =? _); [ destruct (state _); try destruct (require_zlp _) | ]; lia.
  - cbn [in_data_phase]. rewrite Hact.
    destruct (handle_in0_step m Hact Hmps Hbits Hlen)
      as (l & Ht & [(Hst & H0 & Hp) | (Hact' & Hu & Hlen' & Hp & Hsteps)]).
    + rewrite in_data_phase_over by (unfold in_data_phase_active; now rewrite Hst).
      exists l. rewrite Hp, H0. repeat split; trivial.
    + destruct (IH (handle_in0 m)) as (l' & Ht' & Hst' & Hsum & Hch); trivial.
      * now rewrite Hu.
      * rewrite Hlen'. lia.
      * lia.
      * exists (l ++ l'). rewrite Ht', Ht, <- app_assoc.
        rewrite in_packets_app, Hp. cbn [app sum_of fold_right chunked].
        fold (sum_of (in_packets l')). rewrite Hsum, Hlen'.
        repeat split; trivial; unfold USB_MAX_PACKET_SIZE; try lia.
        now rewrite <- Hlen'.
Qed.

(** The first packet: [usb_lld_ctrl_send] clamps the length to wLength and
    arms min(total, 64) bytes. *)
Lemma usb_lld_ctrl_send_starts m buf buflen :
  Z.land (DIEP0CTL (USB m)) 3 = 0 ->
  16 <= LEN_BITS ->
  0 <= wLength (dev_req (dev m)) < 2 ^ 16 ->
  0 <= buflen < 2 ^ LEN_BITS ->
  let total := Z.min buflen (wLength (dev_req (dev m))) in
  let m' := usb_lld_ctrl_send buf buflen m in
  exists l, trace m' = trace m ++ l
  /\ in_packets l = [Z.min total 64]
  /\ state (dev m') = (if total <? 64 then LAST_IN_DATA else IN_DATA)
  /\ USB m' = USB m
  /\ len (ctrl_data (dev m')) = total - Z.min total 64
  /\ require_zlp (ctrl_data (dev m')) = negb (total =? 0) && (total mod 64 =? 0).
Proof.
  intros Hmps Hbits Hw Hb total m'. subst total m'.
  apply pktsize_of_64 in Hmps.
  assert (2 ^ 16 <= 2 ^ LEN_BITS) by (apply Z.pow_le_mono_r; lia).
  open_machine m. exec. rewrite Hmps, (to_len_small buflen) by lia.
  rewrite (to_len_small lng) by lia.
  destruct (Z.ltb_spec lng buflen);
    [ rewrite (Z.min_r buflen lng) by lia | rewrite (Z.min_l buflen lng) by lia ].
  all: match goal with |- context [Z.min ?x 64] =>
         destruct (Z.ltb_spec x 64);
         [ rewrite (Z.min_l x 64) by lia | rewrite (Z.min_r x 64) by lia ]
       end.
  all: rewrite to_len_small by lia.
  all: destruct (negb (Z.land buf 3 =? 0) && _); stores;
    (eexists; split; [ rewrite <- ?app_assoc; reflexivity | ]);
    repeat split.
Qed.

(** C4. A control IN transfer started by [usb_lld_ctrl_send] with caller
    length [buflen] for a request of [wLength] bytes, on 64-byte packets, and
    carried on by as many IN completions as it takes: the data phase ends
    with the OUT handshake armed, every packet armed in it is
    min(remaining bytes, 64), and the packets add up to min(buflen, wLength).
    ([buflen] is a value the field [len] can hold.) *)
Theorem control_send_packets_sum_to_min m buf buflen completions :
  Z.land (DIEP0CTL (USB m)) 3 = 0 ->
  Z.land (DOEP0CTL (USB m)) 3 = 0 ->
  16 <= LEN_BITS ->
  0 <= wLength (dev_req (dev m)) < 2 ^ 16 ->
  0 <= buflen < 2 ^ LEN_BITS ->
  (Z.to_nat (Z.min buflen (wLength (dev_req (dev m)))) + 3 <= completions)%nat ->
  exists l,
    trace (in_data_phase completions (usb_lld_ctrl_send buf buflen m))
    = trace m ++ l
    /\ state (dev (in_data_phase completions (usb_lld_ctrl_send buf buflen m)))
       = WAIT_STATUS_OUT
    /\ sum_of (in_packets l) = Z.min buflen (wLength (dev_req (dev m)))
    /\ chunked (Z.min buflen (wLength (dev_req (dev m)))) (in_packets l).
Proof.
  intros Hin Hout Hbits Hw Hb Hk.
  destruct (usb_lld_ctrl_send_starts m buf buflen Hin Hbits Hw Hb)
    as (l0 & Ht0 & Hp0 & Hst0 & Hu0 & Hlen0 & Hz0).
  set (total := Z.min buflen (wLength (dev_req (dev m)))) in *.
  set (m1 := usb_lld_ctrl_send buf buflen m) in *.
  assert (Htot : 0 <= total < 2 ^ LEN_BITS) by (subst total; lia).
  destruct (in_data_phase_ends completions m1) as (l & Ht & Hst & Hsum & Hch).
  - unfold in_data_phase_active. rewrite Hst0. now destruct (_ <? _).
  - now rewrite Hu0.
  - lia.
  - rewrite Hlen0. lia.
  - unfold steps_left. rewrite Hlen0, Hst0, Hz0.
    destruct (Z.eqb_spec (total - Z.min total 64) 0), (Z.ltb_spec total 64),
      (Z.eqb_spec total 0); cbn [negb andb]; try lia.
    destruct (_ =? _); lia.
  - exists (l0 ++ l). rewrite Ht, Ht0, <- app_assoc.
    rewrite in_packets_app, Hp0. cbn [app sum_of fold_right chunked].
    fold (sum_of (in_packets l)). rewrite Hsum, Hlen0.
    repeat split; trivial; unfold USB_MAX_PACKET_SIZE; try lia.
    now rewrite <- Hlen0.
Qed.

(** The three things an IN completion does in the data phase. *)
Lemma handle_in0_chunk m :
  state (dev m) = IN_DATA
  \/ (state (dev m) = LAST_IN_DATA /\ len (ctrl_data (dev m)) <> 0) ->
  Z.land (DOEP0CTL (USB m)) 3 = 0 ->
  0 <= LEN_BITS ->
  0 <= len (ctrl_data (dev m)) < 2 ^ LEN_BITS ->
  let r := len (ctrl_data (dev m)) in
  let m' := handle_in0 m in
  state (dev m') = (if r <=? 64 then LAST_IN_DATA else IN_DATA)
  /\ len (ctrl_data (dev m')) = r - Z.min r 64
  /\ require_zlp (ctrl_data (dev m')) = require_zlp (ctrl_data (dev m))
  /\ USB m' = USB m
  /\ trace m' = trace m ++ [EP0_SETUP; EP0_IN (addr (ctrl_data (dev m))) (Z.min r 64) 0].
Proof.
  intros Hst Hmps Hbits Hlen r m'. subst r m'. apply pktsize_of_64 in Hmps.
  open_machine m.
  assert (Hc : (n =? 0) && CONTROL_STATE_eqb st LAST_IN_DATA = false).
  { destruct Hst as [-> | [-> Hn]]; [ apply andb_false_r | ].
    apply andb_false_intro1. now apply Z.eqb_neq. }
  assert (Hh : handle_in0
    {| USB := u; ep0_setup_pkt := pkts; usb_configuration := cfg;
       dev := {| state := st;
                 dev_req := {| wRequestAndType := code; wValue := val;
                               wIndex := idx; wLength := lng |};
                 ctrl_data := {| addr := a; len := n; require_zlp := z |} |};
       last_setup := ls; reply_buffer := rb; lens := ln; pktsizes := ps;
       len_pos := pos; ep0_rx_offset := off; dfu := b; trace := t |}
    = handle_datastage_in
    {| USB := u; ep0_setup_pkt := pkts; usb_configuration := cfg;
       dev := {| state := st;
                 dev_req := {| wRequestAndType := code; wValue := val;
                               wIndex := idx; wLength := lng |};
                 ctrl_data := {| addr := a; len := n; require_zlp := z |} |};
       last_setup := ls; reply_buffer := rb; lens := ln; pktsizes := ps;
       len_pos := pos; ep0_rx_offset := off; dfu := b; trace := t |}).
  { destruct Hst as [-> | [-> _]]; reflexivity. }
  rewrite Hh. clear Hh Hst. exec. rewrite Hc, Hmps.
  destruct (Z.leb_spec n 64), (Z.ltb_spec n 64); try lia; stores;
    rewrite to_len_small by lia; rewrite <- ?app_assoc;
    first [ rewrite (Z.min_l n 64) by lia | rewrite (Z.min_r n 64) by lia ];
    try (replace n with 64 by lia); repeat split.
Qed.

Lemma handle_in0_zlp m :
  state (dev m) = LAST_IN_DATA -> len (ctrl_data (dev m)) = 0 ->
  require_zlp (ctrl_data (dev m)) = true ->
  let m' := handle_in0 m in
  state (dev m') = LAST_IN_DATA
  /\ len (ctrl_data (dev m')) = 0
  /\ require_zlp (ctrl_data (dev m')) = false
  /\ USB m' = USB m
  /\ trace m' = trace m ++ [EP0_SETUP; EP0_IN NULL 0 0].
Proof.
  intros Hst Hlen Hz m'. subst m'. open_machine m. subst st n z.
  exec. cbn [Z.eqb andb CONTROL_STATE_eqb]. stores.
  rewrite <- app_assoc. repeat split.
Qed.

Lemma handle_in0_handshake m :
  state (dev m) = LAST_IN_DATA -> len (ctrl_data (dev m)) = 0 ->
  require_zlp (ctrl_data (dev m)) = false ->
  let m' := handle_in0 m in
  state (dev m') = WAIT_STATUS_OUT
  /\ trace m' = trace m ++ [EP0_OUT NULL 0 0].
Proof.
  intros Hst Hlen Hz m'. subst m'. open_machine m. subst st n z.
  exec. cbn [Z.eqb andb CONTROL_STATE_eqb]. stores. repeat split.
Qed.

Lemma in_data_phase_S k m :
  in_data_phase_active m = true ->
  in_data_phase (S k) m = in_data_phase k (handle_in0 m).
Proof. intros H. cbn [in_data_phase]. now rewrite H. Qed.

(** C3, at 64 bytes. A control IN transfer of exactly 64 bytes on 64-byte
    packets arms two zero-length packets after the data packet: the first
    because [usb_lld_ctrl_send] leaves the pipe in IN_DATA when the length is
    not below the packet size, so that the next IN completion arms a packet
    for the 0 bytes left, the second for the zero-length-packet flag. *)
Theorem exactly_64_bytes_arm_two_zero_length_packets m buf completions :
  Z.land (DIEP0CTL (USB m)) 3 = 0 ->
  Z.land (DOEP0CTL (USB m)) 3 = 0 ->
  16 <= LEN_BITS ->
  64 <= wLength (dev_req (dev m)) < 2 ^ 16 ->
  (3 <= completions)%nat ->
  exists l,
    trace (in_data_phase completions (usb_lld_ctrl_send buf 64 m)) = trace m ++ l
    /\ state (dev (in_data_phase completions (usb_lld_ctrl_send buf 64 m)))
       = WAIT_STATUS_OUT
    /\ in_packets l = [64; 0; 0].
Proof.
  intros Hin Hout Hbits Hw Hk.
  assert (2 ^ 16 <= 2 ^ LEN_BITS) by (apply Z.pow_le_mono_r; lia).
  destruct (usb_lld_ctrl_send_starts m buf 64 Hin Hbits) as
    (l0 & Ht0 & Hp0 & Hst0 & Hu0 & Hlen0 & Hz0); [ lia | lia | ].
  set (m1 := usb_lld_ctrl_send buf 64 m) in *. clearbody m1.
  replace (Z.min 64 (wLength (dev_req (dev m)))) with 64 in * by lia.
  change (Z.min 64 64) with 64 in *. change (64 - 64) with 0 in *.
  change (negb (64 =? 0) && (64 mod 64 =? 0)) with true in Hz0.
  change (64 <? 64) with false in Hst0.
  destruct (handle_in0_chunk m1) as (Hst1 & Hlen1 & Hz1 & Hu1 & Ht1);
    [ now left | now rewrite Hu0 | lia | rewrite Hlen0; lia | ].
  rewrite Hlen0 in *. change (Z.min 0 64) with 0 in *.
  change (0 - 0) with 0 in *. change (0 <=? 64) with true in Hst1.
  set (m2 := handle_in0 m1) in *.
  destruct (handle_in0_zlp m2) as (Hst2 & Hlen2 & Hz2 & Hu2 & Ht2);
    [ trivial | trivial | congruence | ].
  set (m3 := handle_in0 m2) in *.
  destruct (handle_in0_handshake m3) as (Hst3 & Ht3); trivial.
  subst m3 m2.
  destruct completions as [| [| [| k]]]; try lia.
  rewrite !in_data_phase_S, in_data_phase_over;
    unfold in_data_phase_active;
    rewrite ?Hst3, ?Hst2, ?Hst1, ?Hst0; trivial.
  exists (l0 ++ [EP0_SETUP; EP0_IN (addr (ctrl_data (dev m1))) 0 0]
             ++ [EP0_SETUP; EP0_IN NULL 0 0] ++ [EP0_OUT NULL 0 0]).
  split; [ | split; [ first [ exact Hst3 | reflexivity ] | ] ].
  - rewrite Ht3, Ht2, Ht1, Ht0, <- !app_assoc. reflexivity.
  - rewrite in_packets_app, Hp0. reflexivity.
Qed.

(** *** The IN data phase, for every total *)

Lemma in_data_phase_zlp_tail k m :
  state (dev m) = LAST_IN_DATA -> len (ctrl_data (dev m)) = 0 ->
  (2 <= k)%nat ->
  exists l, trace (in_data_phase k m) = trace m ++ l
  /\ state (dev (in_data_phase k m)) = WAIT_STATUS_OUT
  /\ in_packets l = if require_zlp (ctrl_data (dev m)) then [0] else [].
Proof.
  intros Hst Hlen Hk. destruct k as [| [| k]]; try lia.
  destruct (require_zlp (ctrl_data (dev m))) eqn:Hz.
  - destruct (handle_in0_zlp m Hst Hlen Hz) as (Hst1 & Hlen1 & Hz1 & _ & Ht1).
    destruct (handle_in0_handshake (handle_in0 m) Hst1 Hlen1 Hz1) as (Hst2 & Ht2).
    rewrite !in_data_phase_S, in_data_phase_over;
      unfold in_data_phase_active; rewrite ?Hst2, ?Hst1, ?Hst; trivial.
    eexists. split; [ rewrite Ht2, Ht1, <- app_assoc; reflexivity | ].
    split; [ first [ exact Hst2 | reflexivity ] | reflexivity ].
  - destruct (handle_in0_handshake m Hst Hlen Hz) as (Hst1 & Ht1).
    rewrite in_data_phase_S, in_data_phase_over;
      unfold in_data_phase_active; rewrite ?Hst1, ?Hst; trivial.
    eexists. split; [ exact Ht1 | ].
    split; [ first [ exact Hst1 | reflexivity ] | reflexivity ].
Qed.

(** From IN_DATA with 64 j + rest bytes left, 0 < rest <= 64. *)
Lemma in_data_phase_from_IN_DATA j : forall k m rest,
  state (dev m) = IN_DATA ->
  Z.land (DOEP0CTL (USB m)) 3 = 0 ->
  0 <= LEN_BITS ->
  len (ctrl_data (dev m)) = 64 * Z.of_nat j + rest ->
  0 < rest <= 64 ->
  len (ctrl_data (dev m)) < 2 ^ LEN_BITS ->
  (j + 3 <= k)%nat ->
  exists l, trace (in_data_phase k m) = trace m ++ l
  /\ state (dev (in_data_phase k m)) = WAIT_STATUS_OUT
  /\ in_packets l
     = repeat 64 j ++ [rest]
       ++ (if require_zlp (ctrl_data (dev m)) then [0] else []).
Proof.
  induction j as [| j IH]; intros k m rest Hst Hmps Hbits Hlen Hrest Hfit Hk;
    destruct k as [| k]; try lia;
    (rewrite in_data_phase_S by (unfold in_data_phase_active; now rewrite Hst));
    destruct (handle_in0_chunk m (or_introl Hst) Hmps Hbits)
      as (Hst1 & Hlen1 & Hz1 & Hu1 & Ht1); try lia.
  - rewrite Hlen in *. change (64 * Z.of_nat 0) with 0 in *. rewrite Z.add_0_l in *.
    rewrite (Z.min_l rest 64) in * by lia. rewrite Z.sub_diag in Hlen1.
    replace (rest <=? 64) with true in Hst1 by (symmetry; apply Z.leb_le; lia).
    destruct (in_data_phase_zlp_tail k (handle_in0 m) Hst1 Hlen1) as (l & Ht & Hst' & Hp);
      [ lia | ].
    eexists. split; [ rewrite Ht, Ht1, <- app_assoc; reflexivity | ].
    split; [ exact Hst' | ].
    rewrite in_packets_app, Hp, Hz1. reflexivity.
  - rewrite Hlen in *.
    rewrite (Z.min_r (64 * Z.of_nat (S j) + rest) 64) in * by lia.
    replace (64 * Z.of_nat (S j) + rest <=? 64) with false in Hst1
      by (symmetry; apply Z.leb_gt; lia).
    destruct (IH k (handle_in0 m) rest) as (l & Ht & Hst' & Hp); trivial;
      try lia.
    + now rewrite Hu1.
    + eexists. split; [ rewrite Ht, Ht1, <- app_assoc; reflexivity | ].
      split; [ exact Hst' | ].
      rewrite in_packets_app, Hp, Hz1. reflexivity.
Qed.

Lemma repeat_snoc (x : Z) n : repeat x n ++ [x] = x :: repeat x n.
Proof. induction n as [| n IH]; [ reflexivity | ]. cbn. now rewrite IH. Qed.

(** The packets of an IN data phase, for every total. *)
Lemma in_data_phase_packets m buf buflen completions :
  Z.land (DIEP0CTL (USB m)) 3 = 0 ->
  Z.land (DOEP0CTL (USB m)) 3 = 0 ->
  16 <= LEN_BITS ->
  0 <= wLength (dev_req (dev m)) < 2 ^ 16 ->
  0 <= buflen < 2 ^ LEN_BITS ->
  (Z.to_nat (Z.min buflen (wLength (dev_req (dev m)))) + 3 <= completions)%nat ->
  exists l,
    trace (in_data_phase completions (usb_lld_ctrl_send buf buflen m))
    = trace m ++ l
    /\ state (dev (in_data_phase completions (usb_lld_ctrl_send buf buflen m)))
       = WAIT_STATUS_OUT
    /\ in_packets l = armed_in_packets (Z.min buflen (wLength (dev_req (dev m)))).
Proof.
  intros Hin Hout Hbits Hw Hb Hk.
  assert (2 ^ 16 <= 2 ^ LEN_BITS) by (apply Z.pow_le_mono_r; lia).
  destruct (usb_lld_ctrl_send_starts m buf buflen Hin Hbits Hw Hb)
    as (l0 & Ht0 & Hp0 & Hst0 & Hu0 & Hlen0 & Hz0).
  set (total := Z.min buflen (wLength (dev_req (dev m)))) in *.
  set (m1 := usb_lld_ctrl_send buf buflen m) in *. clearbody m1.
  assert (Htot : 0 <= total < 2 ^ LEN_BITS) by (subst total; lia).
  unfold armed_in_packets.
  destruct (Z.ltb_spec total 64) as [Hlt | Hge].
  - (* one short packet *)
    rewrite (Z.min_l total 64) in * by lia. rewrite Z.sub_diag in Hlen0.
    destruct (in_data_phase_zlp_tail completions m1 Hst0 Hlen0) as (l & Ht & Hst & Hp);
      [ lia | ].
    exists (l0 ++ l). split; [ rewrite Ht, Ht0, <- app_assoc; reflexivity | ].
    split; [ exact Hst | ]. rewrite in_packets_app, Hp0, Hp, Hz0.
    rewrite Z.div_small, Z.mod_small by lia.
    destruct (Z.eqb_spec total 0) as [-> | Hne]; [ reflexivity | ].
    cbn [negb andb Z.to_nat repeat app]. reflexivity.
  - rewrite (Z.min_r total 64) in * by lia.
    replace (total =? 0) with false in * by (symmetry; apply Z.eqb_neq; lia).
    cbn [negb andb] in Hz0.
    destruct (Z.eqb_spec total 64) as [H64 | Hne].
    + (* exactly 64 *)
      rewrite H64 in *. change (64 - 64) with 0 in *.
      destruct (handle_in0_chunk m1) as (Hst1 & Hlen1 & Hz1 & Hu1 & Ht1);
        [ now left | now rewrite Hu0 | lia | rewrite Hlen0; lia | ].
      rewrite Hlen0 in *. change (Z.min 0 64) with 0 in *.
      change (0 - 0) with 0 in *. change (0 <=? 64) with true in Hst1.
      destruct completions as [| k]; [ lia | ].
      rewrite in_data_phase_S by (unfold in_data_phase_active; now rewrite Hst0).
      destruct (in_data_phase_zlp_tail k (handle_in0 m1) Hst1 Hlen1) as (l & Ht & Hst & Hp);
        [ lia | ].
      eexists. split; [ rewrite Ht, Ht1, Ht0, <- !app_assoc; reflexivity | ].
      split; [ exact Hst | ].
      rewrite !in_packets_app, Hp0, Hp, Hz1, Hz0. reflexivity.
    + (* more than 64: 64 (j + 1) + rest, 0 < rest <= 64 *)
      set (j := Z.to_nat ((total - 65) / 64)).
      set (rest := total - 64 - 64 * Z.of_nat j).
      assert (Hj : 0 <= (total - 65) / 64) by (apply Z.div_pos; lia).
      assert (Hdm := Z.div_mod (total - 65) 64 ltac:(lia)).
      assert (Hmod := Z.mod_pos_bound (total - 65) 64 ltac:(lia)).
      assert (Hrest : 0 < rest <= 64) by (subst rest j; lia).
      destruct (in_data_phase_from_IN_DATA j completions m1 rest)
        as (l & Ht & Hst & Hp); trivial; try lia.
      * now rewrite Hu0.
      * exists (l0 ++ l). split; [ rewrite Ht, Ht0, <- app_assoc; reflexivity | ].
        split; [ exact Hst | ]. rewrite in_packets_app, Hp0, Hp, Hz0.
        cbn [app].
        destruct (Z.eq_dec rest 64) as [Hr | Hr].
        -- (* a multiple of 64 *)
           assert (Hq : total = 64 * (Z.of_nat j + 2)) by (subst rest; lia).
           replace (total mod 64) with 0
             by (rewrite Hq, Z.mul_comm, Z.mod_mul; lia).
           replace (total / 64) with (Z.of_nat j + 2)
             by (rewrite Hq, Z.mul_comm, Z.div_mul; lia).
           replace (Z.to_nat (Z.of_nat j + 2)) with (S (S j)) by lia.
           rewrite Hr. cbn [Z.eqb repeat app]. f_equal.
           change (repeat 64 j ++ [64; 0]) with (repeat 64 j ++ [64] ++ [0]).
           rewrite app_assoc, repeat_snoc. reflexivity.
        -- assert (Hq : total = rest + (Z.of_nat j + 1) * 64) by (subst rest; lia).
           replace (total mod 64) with rest
             by (rewrite Hq, Z.mod_add, Z.mod_small; lia).
           replace (total / 64) with (Z.of_nat j + 1)
             by (rewrite Hq, Z.div_add, Z.div_small; lia).
           replace (Z.to_nat (Z.of_nat j + 1)) with (S j) by lia.
           replace (rest =? 0) with false by (symmetry; apply Z.eqb_neq; lia).
           cbn [repeat app]. reflexivity.
Qed.

(** *** The OUT data phase of DFU_DNLOAD *)

Lemma land_127 x : 0 <= x <= 64 -> Z.land x 127 = x.
Proof.
  intros Hx. change 127 with (Z.ones 7). rewrite Z.land_ones by lia.
  apply Z.mod_small. change (2 ^ 7) with 128. lia.
Qed.

Lemma u32_small x : 0 <= x < 2 ^ 32 -> u32 x = x.
Proof. apply wrap_small. lia. Qed.

Lemma run_cons e es m : run (e :: es) m = run es (deliver e m).
Proof. reflexivity. Qed.

Ltac exec_hw :=
  cbv beta iota zeta delta
    [deliver set_DOEP0TSIZ
     GINTSTS GINTMSK DAINT DAINTMSK DIEPMSK DOEPMSK DOEP0INT DOEP0TSIZ
     DOEP0CTL DIEP0CTL USB_DINEPS_INT USB_DOUTEPS_INT
     usb_setup handle_in0 handle_out0 handle_datastage_in handle_datastage_out
     usb_lld_ctrl_error usb_lld_ctrl_ack usb_lld_ctrl_recv usb_lld_ctrl_send
     send efm32hg_prepare_ep0_setup efm32hg_prepare_ep0_in
     efm32hg_prepare_ep0_out efm32hg_ep_out_stall efm32hg_ep_in_stall
     efm32hg_set_daddr efm32hg_enable_ints set_state set_dev_req set_ctrl_data
     set_dev set_last_setup set_reply_buffer set_usb_configuration
     set_ep0_rx_offset set_dfu set_debug set_USB emit
     USB ep0_setup_pkt usb_configuration dev last_setup reply_buffer lens
     pktsizes len_pos ep0_rx_offset dfu trace state dev_req ctrl_data
     wRequestAndType wValue wIndex wLength addr len require_zlp].

(** One OUT packet of a download in progress, whatever XFERSIZE shows
    short of the bytes that are left: the reception is armed again, the
    chunk goes to the backend, and the last chunk is acknowledged. *)
Lemma out_packet_counts_down m tsiz :
  accepts_chunks -> EP0_SIZE = 64 -> 16 <= LEN_BITS ->
  state (dev m) = OUT_DATA ->
  wRequestAndType (last_setup m) = 0x0121 ->
  wIndex (last_setup m) = 0 ->
  Z.land (DIEP0CTL (USB m)) 3 = 0 ->
  0 <= tsiz <= 64 ->
  tsiz < len (ctrl_data (dev m)) < 2 ^ 16 ->
  0 <= ep0_rx_offset m < wLength (last_setup m) ->
  wLength (last_setup m) < 2 ^ 16 ->
  let n := wLength (last_setup m) in
  let off := ep0_rx_offset m in
  let p := Z.min (n - off) 64 in
  let left := len (ctrl_data (dev m)) - tsiz in
  let a := u32 (addr (ctrl_data (dev m)) + tsiz) in
  let m' := deliver (OUT_COMPLETE tsiz) m in
  last_setup m' = last_setup m
  /\ Z.land (DIEP0CTL (USB m')) 3 = 0
  /\ ep0_rx_offset m' = off + p
  /\ len (ctrl_data (dev m')) = left
  /\ addr (ctrl_data (dev m')) = a
  /\ if n <=? off + 64 then
       state (dev m') = WAIT_STATUS_IN
       /\ trace m' = trace m ++
            [EP0_OUT a (Z.min left 64) 0;
             DFU_DOWNLOAD (wValue (last_setup m)) n off p a true;
             EP0_SETUP; EP0_IN NULL 0 0]
     else
       state (dev m') = OUT_DATA
       /\ trace m' = trace m ++
            [EP0_OUT a (Z.min left 64) 0;
             DFU_DOWNLOAD (wValue (last_setup m)) n off p a true].
Proof.
  intros Hacc Hep0 Hbits Hst Hcode Hidx Hmps Hts Hlen Hoff Hw n0 off0 p left a m'.
  subst n0 off0 p left a m'. pose proof (pktsize_of_64 _ Hmps) as Hpk.
  assert (2 ^ 16 <= 2 ^ LEN_BITS) by (apply Z.pow_le_mono_r; lia).
  assert (H16 : 2 ^ 16 = 65536) by reflexivity.
  assert (H32 : 2 ^ 32 = 4294967296) by reflexivity.
  open_machine m. destruct ls as [lcode lval lidx llng].
  destruct u as [r0 r1 r2 r3 r4 r5 r6 r7 r8 r9 r10 r11].
  cbn [wRequestAndType wValue wIndex wLength DIEP0CTL] in *.
  subst st lcode lidx.
  unfold pktsize_of in Hpk.
  exec_hw. cbn [CONTROL_STATE_eqb negb Z.eqb Pos.eqb andb].
  unfold pktsize_of. rewrite Hpk, Hep0.
  rewrite land_127 by lia.
  rewrite (to_len_small (n - tsiz)) by lia.
  replace (n - tsiz =? 0) with false by (symmetry; apply Z.eqb_neq; lia).
  replace (if n - tsiz <? 64 then n - tsiz else 64) with (Z.min (n - tsiz) 64)
    by (destruct (Z.ltb_spec (n - tsiz) 64); lia).
  exec_hw. cbn [Z.eqb Pos.eqb andb negb].
  rewrite (u32_small (llng - off)) by lia.
  replace (if 64 <? llng - off then 64 else llng - off) with (Z.min (llng - off) 64)
    by (destruct (Z.ltb_spec 64 (llng - off)); lia).
  match goal with |- context [dfu_download ?a1 ?a2 ?a3 ?a4 ?a5 ?a6] =>
    pose proof (Hacc a1 a2 a3 a4 a5 a6) as Hok;
    destruct (dfu_download a1 a2 a3 a4 a5 a6) as [ok b'] end.
  cbn [fst] in Hok. subst ok. exec_hw.
  rewrite (u32_small (off + Z.min (llng - off) 64)) by lia.
  destruct (Z.leb_spec llng (off + 64)) as [Hle | Hgt].
  - replace (llng <=? off + Z.min (llng - off) 64) with true
      by (symmetry; apply Z.leb_le; lia).
    exec_hw. rewrite <- !app_assoc. repeat split. exact Hmps.
  - replace (llng <=? off + Z.min (llng - off) 64) with false
      by (symmetry; apply Z.leb_gt; lia).
    exec_hw. rewrite <- !app_assoc. repeat split. exact Hmps.
Qed.

Lemma chunk_data_app l1 l2 : chunk_data (l1 ++ l2) = chunk_data l1 ++ chunk_data l2.
Proof.
  induction l1 as [| e l1 IH]; [ reflexivity | ].
  destruct e; cbn [chunk_data app]; rewrite ?IH; reflexivity.
Qed.

Lemma armed_out_app k t1 t2 :
  armed_out k (t1 ++ t2) = armed_out (armed_out k t1) t2.
Proof.
  revert k. induction t1 as [| e t1 IH]; intros k; [ reflexivity | ].
  destruct e; cbn [armed_out app]; apply IH.
Qed.

Lemma receive_all_cons p ps m :
  receive_all (p :: ps) m = receive_all ps (receive p m).
Proof. reflexivity. Qed.

Lemma chunk_calls_app l1 l2 :
  chunk_calls (l1 ++ l2) = chunk_calls l1 ++ chunk_calls l2.
Proof.
  induction l1 as [| e l1 IH]; [ reflexivity | ].
  destruct e; cbn [chunk_calls app]; rewrite ?IH; reflexivity.
Qed.

Lemma count_app p l1 l2 : count p (l1 ++ l2) = (count p l1 + count p l2)%nat.
Proof. unfold count. now rewrite List.filter_app, length_app. Qed.

Lemma packets_for_last r : 1 <= r <= 64 -> packets_for r = 1%nat.
Proof.
  intros Hr. unfold packets_for.
  replace ((r + 63) / 64) with 1; [ reflexivity | ].
  apply (Z.div_unique (r + 63) 64 1 (r - 1)); lia.
Qed.

Lemma packets_for_more r : 64 < r -> packets_for r = S (packets_for (r - 64)).
Proof.
  intros Hr. unfold packets_for.
  replace (r + 63) with (r - 64 + 63 + 1 * 64) by lia.
  rewrite Z.div_add by lia.
  assert (0 <= (r - 64 + 63) / 64) by (apply Z.div_pos; lia).
  lia.
Qed.

Lemma u32_add_u32 x y : u32 (u32 x + y) = u32 (x + y).
Proof. unfold u32, wrap. apply Zplus_mod_idemp_l. Qed.

(** The packets of a download in progress, to its end, every packet before
    the last received in full. *)
Lemma download_counts_down count0 : forall m (i : nat),
  accepts_chunks -> EP0_SIZE = 64 -> 16 <= LEN_BITS ->
  state (dev m) = OUT_DATA ->
  wRequestAndType (last_setup m) = 0x0121 ->
  wIndex (last_setup m) = 0 ->
  Z.land (DIEP0CTL (USB m)) 3 = 0 ->
  wLength (last_setup m) < 2 ^ 16 ->
  ep0_rx_offset m = 64 * Z.of_nat i ->
  len (ctrl_data (dev m)) = wLength (last_setup m) ->
  armed_out 0 (trace m) = Z.min (wLength (last_setup m)) 64 ->
  64 * Z.of_nat i < wLength (last_setup m) ->
  count0 = packets_for (wLength (last_setup m) - 64 * Z.of_nat i) ->
  let n := wLength (last_setup m) in
  let a0 := addr (ctrl_data (dev m)) in
  let m' := receive_all (out_packets count0 (n - 64 * Z.of_nat i)) m in
  exists l, trace m' = trace m ++ l
  /\ state (dev m') = WAIT_STATUS_IN
  /\ ep0_rx_offset m' = n
  /\ chunk_calls l = expected_chunks (wValue (last_setup m)) n i count0
  /\ chunk_data l
     = map (fun j => u32 (a0 + (Z.min n 64 - Z.min (n - 64 * Z.of_nat j) 64)))
           (seq i count0)
  /\ count is_zero_in l = 1%nat
  /\ count is_bkpt l = 0%nat
  /\ exists l1 c, l = l1 ++ [c; EP0_SETUP; EP0_IN NULL 0 0]
                  /\ is_chunk_call c = true.
Proof.
  induction count0 as [| count0 IH];
    intros m i Hacc Hep0 Hbits Hst Hcode Hidx Hmps Hw Hoff Hlen Harm Hi Hcnt n a0 m';
    subst n a0 m'.
  - exfalso. destruct (Z.leb_spec (wLength (last_setup m) - 64 * Z.of_nat i) 64).
    + rewrite packets_for_last in Hcnt by lia. discriminate.
    + rewrite packets_for_more in Hcnt by lia. discriminate.
  - cbn [out_packets]. rewrite receive_all_cons. unfold receive.
    rewrite Harm.
    set (n := wLength (last_setup m)) in *.
    set (tsiz := Z.min n 64 - Z.min (n - 64 * Z.of_nat i) 64).
    destruct (out_packet_counts_down m tsiz Hacc Hep0 Hbits Hst Hcode Hidx Hmps)
      as (Hls & Hmps' & Hoff' & Hlen' & Haddr' & Hcase);
      try (subst tsiz; fold n; lia).
    fold n in Hoff', Hcase. rewrite Hoff in Hoff', Hcase.
    set (m1 := deliver (OUT_COMPLETE tsiz) m) in *. clearbody m1.
    destruct (Z.leb_spec n (64 * Z.of_nat i + 64)) as [Hle | Hgt].
    + destruct Hcase as (Hst1 & Ht1).
      rewrite packets_for_last in Hcnt by lia. injection Hcnt as ->.
      cbn [out_packets receive_all fold_left].
      eexists. split; [ exact Ht1 | ]. split; [ exact Hst1 | ].
      split; [ lia | ]. split; [ | split; [ | split; [ | split ] ] ].
      * cbn [chunk_calls expected_chunks seq map]. reflexivity.
      * cbn [chunk_data seq map]. reflexivity.
      * reflexivity.
      * reflexivity.
      * eexists [EP0_OUT _ _ 0], _. split; reflexivity.
    + destruct Hcase as (Hst1 & Ht1).
      rewrite packets_for_more in Hcnt by lia. injection Hcnt as Hcnt.
      assert (Hts : tsiz = 0) by (subst tsiz; lia).
      rewrite Hts, Z.sub_0_r, Z.add_0_r in *.
      rewrite (Z.min_r (n - 64 * Z.of_nat i) 64) in * by lia.
      replace (n - 64 * Z.of_nat i - 64) with (n - 64 * Z.of_nat (S i)) by lia.
      destruct (IH m1 (S i)) as
        (l & Ht & Hst' & Hoff'' & Hch & Hd & Hz & Hb & l1 & c & Hl & Hc);
        trivial; rewrite ?Hls; fold n; trivial; try lia.
      * rewrite Ht1, armed_out_app. cbn [armed_out]. rewrite Hlen. reflexivity.
      * rewrite Hcnt. f_equal. lia.
      * rewrite Hls in *. fold n in Ht, Hst', Hch, Hd, Hoff''. rewrite Haddr' in Hd.
        eexists. split; [ rewrite Ht, Ht1, <- app_assoc; reflexivity | ].
        split; [ exact Hst' | ]. split; [ exact Hoff'' | ].
        split; [ | split; [ | split; [ | split ] ] ].
        -- rewrite chunk_calls_app, Hch.
           cbn [chunk_calls expected_chunks seq map app].
           rewrite (Z.min_r (n - 64 * Z.of_nat i) 64) by lia. reflexivity.
        -- rewrite chunk_data_app, Hd. cbn [chunk_data seq map app].
           f_equal; [ f_equal; lia | ].
           apply map_ext. intros j. apply u32_add_u32.
        -- rewrite count_app, Hz. reflexivity.
        -- rewrite count_app, Hb. reflexivity.
        -- eexists (_ ++ l1), c.
           split; [ | exact Hc ]. rewrite Hl, <- app_assoc. reflexivity.
Qed.

Lemma expected_chunks_length blockNum n i count0 :
  length (expected_chunks blockNum n i count0) = count0.
Proof. unfold expected_chunks. now rewrite length_map, length_seq. Qed.

Lemma expected_chunks_sum blockNum n count0 : forall (i : nat),
  1 <= n - 64 * Z.of_nat i ->
  count0 = packets_for (n - 64 * Z.of_nat i) ->
  sum_of (map chunk_length (expected_chunks blockNum n i count0))
  = n - 64 * Z.of_nat i.
Proof.
  induction count0 as [| count0 IH]; intros i Hr Hcnt.
  - exfalso. destruct (Z.leb_spec (n - 64 * Z.of_nat i) 64).
    + rewrite packets_for_last in Hcnt by lia. discriminate.
    + rewrite packets_for_more in Hcnt by lia. discriminate.
  - cbn [expected_chunks seq map sum_of fold_right chunk_length snd].
    fold (expected_chunks blockNum n (S i) count0).
    fold (sum_of (map chunk_length (expected_chunks blockNum n (S i) count0))).
    destruct (Z.leb_spec (n - 64 * Z.of_nat i) 64).
    + rewrite packets_for_last in Hcnt by lia. injection Hcnt as ->.
      cbn. lia.
    + rewrite packets_for_more in Hcnt by lia. injection Hcnt as Hcnt.
      rewrite IH; [ lia | lia | ].
      rewrite Hcnt. f_equal. lia.
Qed.

(** The SETUP of a DFU_DNLOAD with data arms the first reception, of one
    packet at most, at [rx_buffer]. *)
Lemma dnload_setup_arms m blockNum nbytes :
  16 <= LEN_BITS -> 1 <= nbytes < 2 ^ 16 ->
  Z.land (DIEP0CTL (USB m)) 3 = 0 ->
  let req := {| wRequestAndType := 0x0121; wValue := blockNum;
                wIndex := 0; wLength := nbytes |} in
  let m' := deliver (SETUP req) m in
  state (dev m') = OUT_DATA
  /\ last_setup m' = req
  /\ len (ctrl_data (dev m')) = nbytes
  /\ addr (ctrl_data (dev m')) = rx_buffer
  /\ ep0_rx_offset m' = ep0_rx_offset m
  /\ USB m' = USB m
  /\ trace m' = trace m ++ [EP0_OUT rx_buffer (Z.min nbytes 64) 0].
Proof.
  intros Hbits Hn Hmps req m'. subst req m'.
  assert (2 ^ 16 <= 2 ^ LEN_BITS) by (apply Z.pow_le_mono_r; lia).
  pose proof (pktsize_of_64 _ Hmps) as Hpk.
  open_machine m. unfold deliver. stores. dispatch.
  rewrite not_msft by reflexivity. cbn [Z.eqb Pos.eqb orb Z.ltb Z.compare].
  replace (nbytes =? 0) with false by (symmetry; apply Z.eqb_neq; lia).
  exec. rewrite to_len_small by lia. rewrite Hpk.
  replace (if 64 <? nbytes then 64 else nbytes) with (Z.min nbytes 64)
    by (destruct (Z.ltb_spec 64 nbytes); lia).
  repeat split.
Qed.

(** C8, as the code has it. A DFU_DNLOAD of [n] >= 1 bytes that starts with
    the download cursor at 0, on 64-byte packets, with a backend that
    accepts, delivered as ceil(n / 64) OUT packets (full ones, then the
    rest), the transfer size register counting down from what was armed:
    the backend gets one chunk call per packet, at offsets 0, 64, 128, ...
    with lengths min(what is left, 64) that add up to [n]; the cursor ends
    at [n] and the pipe in WAIT_STATUS_IN.  The zero-length IN is armed
    once, by [usb_lld_ctrl_ack] right after the last chunk call, and the
    breakpoint of [handle_datastage_out] is not passed. *)
Theorem dnload_round_trip m blockNum n :
  accepts_chunks -> EP0_SIZE = 64 -> 16 <= LEN_BITS ->
  Z.land (DIEP0CTL (USB m)) 3 = 0 ->
  ep0_rx_offset m = 0 ->
  1 <= n < 2 ^ 16 ->
  let req := {| wRequestAndType := 0x0121; wValue := blockNum;
                wIndex := 0; wLength := n |} in
  let m' := receive_all (out_packets (packets_for n) n) (deliver (SETUP req) m) in
  exists l, trace m' = trace m ++ l
  /\ chunk_calls l = expected_chunks blockNum n 0 (packets_for n)
  /\ length (chunk_calls l) = packets_for n
  /\ sum_of (map chunk_length (chunk_calls l)) = n
  /\ state (dev m') = WAIT_STATUS_IN
  /\ ep0_rx_offset m' = n
  /\ count is_zero_in l = 1%nat
  /\ count is_bkpt l = 0%nat
  /\ exists l1 c, l = l1 ++ [c; EP0_SETUP; EP0_IN NULL 0 0]
                  /\ is_chunk_call c = true.
Proof.
  intros Hacc Hep0 Hbits Hmps Hoff Hn req m'. subst m'.
  destruct (dnload_setup_arms m blockNum n Hbits Hn Hmps)
    as (Hst & Hls & Hlen & Haddr & Hoff1 & Hu & Ht).
  fold req in Hst, Hls, Hlen, Haddr, Hoff1, Hu, Ht.
  set (m1 := deliver (SETUP req) m) in *. clearbody m1.
  pose proof (download_counts_down (packets_for n) m1 0) as Hrun.
  rewrite Hls, Hlen, Hu, Hoff1, Ht, armed_out_app in Hrun.
  cbn [wRequestAndType wValue wIndex wLength req armed_out Z.of_nat] in Hrun.
  rewrite Z.mul_0_r, Z.sub_0_r in Hrun.
  destruct Hrun as (l & Ht' & Hst' & Hoff' & Hch & _ & Hz & Hb & l1 & c & Hl & Hc);
    trivial; try lia.
  exists ([EP0_OUT rx_buffer (Z.min n 64) 0] ++ l).
  split; [ rewrite Ht', <- app_assoc; reflexivity | ].
  rewrite chunk_calls_app, !count_app, Hch, Hz, Hb. cbn [chunk_calls app].
  split; [ reflexivity | ]. split; [ apply expected_chunks_length | ].
  split; [ rewrite (expected_chunks_sum blockNum n (packets_for n) 0);
           cbn; try lia; f_equal; lia | ].
  split; [ exact Hst' | ]. split; [ exact Hoff' | ].
  split; [ reflexivity | ]. split; [ reflexivity | ].
  exists ([EP0_OUT rx_buffer (Z.min n 64) 0] ++ l1), c. split; [ | exact Hc ].
  rewrite Hl, <- app_assoc. reflexivity.
Qed.

(** *** The offset check of handle_out0 *)

Lemma usb_setup_awaits_download_only m :
  0 <= wIndex (dev_req (dev m)) -> awaits_download_only (usb_setup m).
Proof.
  unfold awaits_download_only. intros Hidx. open_machine m. exec.
  split_cases; cbn; intros Hst; try discriminate Hst.
  all: split; [ now apply Z.eqb_eq | ].
  all: match goal with H : (0 <? _) = false |- _ => apply Z.ltb_ge in H; lia end.
Qed.

Lemma handle_in0_awaits_download_only m : awaits_download_only (handle_in0 m).
Proof.
  unfold awaits_download_only. open_machine m.
  destruct st; exec; split_cases; cbn; intros Hst; discriminate Hst.
Qed.

Lemma handle_out0_awaits_download_only m :
  awaits_download_only m -> awaits_download_only (handle_out0 m).
Proof.
  unfold awaits_download_only. open_machine m.
  destruct st; exec; split_cases; cbn; intros Hinv Hst;
    try discriminate Hst; now apply Hinv.
Qed.

Lemma deliver_awaits_download_only e m :
  from_the_wire e -> awaits_download_only m -> awaits_download_only (deliver e m).
Proof.
  intros He Hm. destruct e as [req | | tsiz]; cbn [deliver from_the_wire] in *.
  - apply usb_setup_awaits_download_only. now destruct m as [? ? ? [? ? ?]].
  - apply handle_in0_awaits_download_only.
  - destruct (negb _); [ apply handle_out0_awaits_download_only | ]; exact Hm.
Qed.

Lemma run_awaits_download_only es : forall m,
  Forall from_the_wire es -> awaits_download_only m ->
  awaits_download_only (run es m).
Proof.
  induction es as [| e es IH]; intros m Hes Hm; [ exact Hm | ].
  inversion Hes; subst. apply IH; [ assumption | ].
  now apply deliver_awaits_download_only.
Qed.

(** X11. In no state reached from power-on does the offset check of
    [handle_out0] fire: when the pipe is in OUT_DATA, wIndex of the request
    on record is 0, and the check asks for wIndex != 0. *)
Lemma offset_check_of_handle_out0_is_dead es u b :
  Forall from_the_wire es ->
  state (dev (run es (power_on u b))) = OUT_DATA ->
  negb (wIndex (last_setup (run es (power_on u b))) =? 0)
  && (wLength (last_setup (run es (power_on u b)))
      <? ep0_rx_offset (run es (power_on u b))) = false.
Proof.
  intros Hes Hst.
  destruct (run_awaits_download_only es (power_on u b) Hes) as [_ Hidx];
    [ discriminate | exact Hst | ].
  now rewrite Hidx.
Qed.

(** *** A SETUP starts afresh *)

(** X1. The dispatcher does not look at the state of the pipe nor at the
    request on record: a SETUP is dispatched in the same way, and leaves the
    same machine, whatever state it arrives in and whatever [last_setup]
    held.  Every path of [usb_setup] overwrites both. *)
Theorem usb_setup_overwrites_the_state s r m :
  usb_setup (set_last_setup r (set_state s m)) = usb_setup m.
Proof.
  open_machine m. exec. split_cases; reflexivity.
Qed.

(** *** The configuration *)

Ltac to_Z :=
  repeat match goal with
         | H : (_ <? _) = true |- _ => apply Z.ltb_lt in H
         | H : (_ <? _) = false |- _ => apply Z.ltb_ge in H
         | H : (_ <=? _) = true |- _ => apply Z.leb_le in H
         | H : (_ <=? _) = false |- _ => apply Z.leb_gt in H
         | H : (_ =? _) = true |- _ => apply Z.eqb_eq in H
         | H : (_ =? _) = false |- _ => apply Z.eqb_neq in H
         end.

Lemma usb_setup_usb_configuration m :
  usb_configuration (usb_setup m)
  = if wRequestAndType (dev_req (dev m)) =? 0x0900
    then u8 (wValue (dev_req (dev m)))
    else usb_configuration m.
Proof.
  open_machine m. exec. split_cases; try reflexivity; to_Z; lia.
Qed.

Lemma handle_in0_usb_configuration m :
  usb_configuration (handle_in0 m) = usb_configuration m.
Proof. open_machine m. destruct st; exec; split_cases; reflexivity. Qed.

Lemma handle_out0_usb_configuration m :
  usb_configuration (handle_out0 m) = usb_configuration m.
Proof. open_machine m. destruct st; exec; split_cases; reflexivity. Qed.

Lemma usb_setup_ep0_setup_pkt m : ep0_setup_pkt (usb_setup m) = ep0_setup_pkt m.
Proof. open_machine m. exec. split_cases; reflexivity. Qed.

Lemma handle_in0_ep0_setup_pkt m : ep0_setup_pkt (handle_in0 m) = ep0_setup_pkt m.
Proof. open_machine m. destruct st; exec; split_cases; reflexivity. Qed.

Lemma handle_out0_ep0_setup_pkt m : ep0_setup_pkt (handle_out0 m) = ep0_setup_pkt m.
Proof. open_machine m. destruct st; exec; split_cases; reflexivity. Qed.

(** The slot that [take_setup] reads is one of the three of the array,
    whatever DOEP0TSIZ shows. *)
Lemma setup_slot_bounds tsiz : 0 <= setup_slot tsiz <= 2.
Proof.
  unfold setup_slot.
  assert (H : 0 <= Z.shiftr (Z.land tsiz 0x60000000) 29 <= 3).
  { rewrite Z.shiftr_land. change (Z.shiftr 0x60000000 29) with (Z.ones 2).
    rewrite Z.land_ones by lia.
    pose proof (Z.mod_pos_bound (Z.shiftr tsiz 29) (2 ^ 2)). lia. }
  destruct (Z.eqb_spec (Z.shiftr (Z.land tsiz 0x60000000) 29) 3); lia.
Qed.

Lemma take_setup_slot m :
  take_setup m
  = usb_setup (set_dev_req (ep0_setup_pkt m (setup_slot (DOEP0TSIZ (USB m))))
                           (emit (STORE R_DOEP0INT USB_DOEP0INT_SETUP) m)).
Proof. reflexivity. Qed.

Lemma configured_refl m : configured_by_SETUP m m.
Proof. split; [ reflexivity | left; reflexivity ]. Qed.

Lemma configured_quiet m0 m m' :
  configured_by_SETUP m0 m ->
  ep0_setup_pkt m' = ep0_setup_pkt m ->
  usb_configuration m' = usb_configuration m ->
  configured_by_SETUP m0 m'.
Proof. intros [Hp Hc] Hp' Hc'. split; [ congruence | rewrite Hc'; exact Hc ]. Qed.

Lemma configured_take_setup m0 m :
  configured_by_SETUP m0 m -> configured_by_SETUP m0 (take_setup m).
Proof.
  intros [Hp Hc]. rewrite take_setup_slot.
  split.
  - rewrite usb_setup_ep0_setup_pkt.
    destruct m as [u pkts cfg [st rq cd] ls rb ln ps pos off b t]. exact Hp.
  - rewrite usb_setup_usb_configuration.
    destruct m as [u pkts cfg [st rq cd] ls rb ln ps pos off b t].
    cbn in Hp, Hc |- *. subst pkts.
    destruct (Z.eqb_spec
      (wRequestAndType (ep0_setup_pkt m0 (setup_slot (DOEP0TSIZ u)))) 0x0900)
      as [E | _]; [ | exact Hc ].
    right. exists (setup_slot (DOEP0TSIZ u)).
    split; [ apply setup_slot_bounds | ]. split; [ exact E | reflexivity ].
Qed.

Lemma configured_emit m0 e m :
  configured_by_SETUP m0 m -> configured_by_SETUP m0 (emit e m).
Proof. intros H. eapply configured_quiet; [ exact H | reflexivity | reflexivity ]. Qed.

Lemma configured_handle_out0 m0 m :
  configured_by_SETUP m0 m -> configured_by_SETUP m0 (handle_out0 m).
Proof.
  intros H. eapply configured_quiet; [ exact H | | ].
  - apply handle_out0_ep0_setup_pkt.
  - apply handle_out0_usb_configuration.
Qed.

Lemma configured_in_ep m0 ep m :
  configured_by_SETUP m0 m -> configured_by_SETUP m0 (in_ep ep m).
Proof.
  intros H. unfold in_ep.
  destruct (tst _ _); [ | exact H ].
  destruct (ep =? 0).
  - eapply configured_quiet; [ exact H | | ].
    + rewrite handle_in0_ep0_setup_pkt. reflexivity.
    + rewrite handle_in0_usb_configuration. reflexivity.
  - eapply configured_quiet; [ exact H | reflexivity | reflexivity ].
Qed.

Lemma configured_in_loop m0 rounds : forall epint ep m,
  configured_by_SETUP m0 m -> configured_by_SETUP m0 (in_loop rounds epint ep m).
Proof.
  induction rounds as [| rounds IH]; intros epint ep m H; cbn [in_loop].
  - exact H.
  - destruct (epint =? 0); [ exact H | ].
    apply IH. destruct (tst epint 1); [ now apply configured_in_ep | exact H ].
Qed.

Lemma configured_out_ep m0 ep m :
  configured_by_SETUP m0 m -> configured_by_SETUP m0 (fst (out_ep ep m)).
Proof.
  intros H. unfold out_ep.
  repeat match goal with
  | |- context [if ?c then _ else _] =>
    lazymatch c with
    | context [if _ then _ else _] => fail
    | _ => destruct c
    end
  end; cbn [fst];
  repeat lazymatch goal with
         | |- configured_by_SETUP _ (emit _ _) => apply configured_emit
         | |- configured_by_SETUP _ (take_setup _) => apply configured_take_setup
         | |- configured_by_SETUP _ (handle_out0 _) => apply configured_handle_out0
         | |- configured_by_SETUP _ m => exact H
         end.
Qed.

Lemma configured_out_loop m0 rounds : forall epint ep m,
  configured_by_SETUP m0 m -> configured_by_SETUP m0 (out_loop rounds epint ep m).
Proof.
  induction rounds as [| rounds IH]; intros epint ep m H; cbn [out_loop].
  - exact H.
  - destruct (epint =? 0); [ exact H | ].
    destruct (tst epint 1); [ | now apply IH ].
    pose proof (configured_out_ep m0 ep m H) as H'.
    destruct (out_ep ep m) as [m' [|]]; cbn [fst] in H'; [ now apply IH | exact H' ].
Qed.

(** X2. Whatever interrupt is pending, bus reset and enumeration included,
    [USB_Handler] leaves [usb_configuration] as it was unless it dispatches
    a SET_CONFIGURATION: then the configuration is the low byte of wValue of
    a SETUP packet held in one of the three slots of [ep0_setup_pkt], the
    index stays within the array whatever DOEP0TSIZ shows. *)
Theorem configuration_changes_only_by_SET_CONFIGURATION m :
  usb_configuration (USB_Handler m) = usb_configuration m
  \/ exists i, 0 <= i <= 2
     /\ wRequestAndType (ep0_setup_pkt m i) = 0x0900
     /\ usb_configuration (USB_Handler m) = u8 (wValue (ep0_setup_pkt m i)).
Proof.
  enough (H : configured_by_SETUP m (USB_Handler m)) by exact (proj2 H).
  unfold USB_Handler.
  destruct (tst _ USB_GINTSTS_USBRST); [ apply configured_emit, configured_refl | ].
  set (m1 := if tst _ USB_GINTSTS_ENUMDONE then _ else m).
  assert (H1 : configured_by_SETUP m m1).
  { subst m1. destruct (tst _ USB_GINTSTS_ENUMDONE); [ | apply configured_refl ].
    eapply configured_quiet; [ apply configured_refl | reflexivity | reflexivity ]. }
  clearbody m1.
  set (m2 := if tst _ USB_GINTSTS_IEPINT then _ else m1).
  assert (H2 : configured_by_SETUP m m2).
  { subst m2. destruct (tst _ USB_GINTSTS_IEPINT);
      [ now apply configured_in_loop | exact H1 ]. }
  clearbody m2.
  destruct (tst _ USB_GINTSTS_OEPINT); [ now apply configured_out_loop | exact H2 ].
Qed.

Lemma deliver_usb_configuration e m :
  sets_configuration e = false ->
  usb_configuration (deliver e m) = usb_configuration m.
Proof.
  intros He. destruct e as [req | | tsiz]; cbn [deliver sets_configuration] in *.
  - rewrite usb_setup_usb_configuration.
    destruct m as [u pkts cfg [st rq cd] ls rb ln ps pos off b t].
    cbn. rewrite He. reflexivity.
  - apply handle_in0_usb_configuration.
  - match goal with |- context [if ?c then _ else _] => destruct c end;
      rewrite ?handle_out0_usb_configuration;
      destruct m as [u pkts cfg [st rq cd] ls rb ln ps pos off b t]; reflexivity.
Qed.

Lemma run_usb_configuration es : forall m,
  Forall (fun e => sets_configuration e = false) es ->
  usb_configuration (run es m) = usb_configuration m.
Proof.
  induction es as [| e es IH]; intros m H; [ reflexivity | ].
  rewrite run_cons. inversion H; subst.
  rewrite IH by assumption. now apply deliver_usb_configuration.
Qed.

Lemma pktsize_of_at_least_8 ctl : 8 <= pktsize_of ctl.
Proof.
  unfold pktsize_of.
  assert (H : 0 <= Z.land ctl 3 <= 3).
  { change 3 with (Z.ones 2) at 1 2. rewrite Z.land_ones by lia.
    pose proof (Z.mod_pos_bound ctl (2 ^ 2)). lia. }
  assert (C : Z.land ctl 3 = 0 \/ Z.land ctl 3 = 1 \/ Z.land ctl 3 = 2
              \/ Z.land ctl 3 = 3) by lia.
  destruct C as [-> | [-> | [-> | ->]]]; cbv; discriminate.
Qed.

(** X3. The configuration value set by SET_CONFIGURATION is what a later
    GET_CONFIGURATION replies with, whatever is received in between short of
    another SET_CONFIGURATION: one byte, the low byte of wValue, put at the
    start of the reply buffer. *)
Theorem configuration_round_trip v index count0 es get m :
  Forall (fun e => sets_configuration e = false) es ->
  wRequestAndType get = 0x0880 ->
  1 <= wLength get ->
  1 <= LEN_BITS ->
  reply_buffer_p <> NULL ->
  let set := {| wRequestAndType := 0x0900; wValue := v; wIndex := index;
                wLength := count0 |} in
  let m1 := run (SETUP set :: es) m in
  let m2 := deliver (SETUP get) m1 in
  usb_configuration m1 = u8 v
  /\ reply_buffer m2 = <[0%nat := u8 v]> (reply_buffer m1)
  /\ exists l, trace m2 = trace m1 ++ l /\ in_packets l = [1].
Proof.
  intros Hes Hcode Hlen Hbits Hrb set m1 m2.
  assert (H1 : usb_configuration m1 = u8 v).
  { subst m1. rewrite run_cons, run_usb_configuration by exact Hes.
    cbn [deliver]. rewrite usb_setup_usb_configuration.
    destruct m as [u pkts cfg [st rq cd] ls rb ln ps pos off b t]. reflexivity. }
  split; [ exact H1 | ].
  subst m2. clearbody m1. cbn [deliver].
  destruct get as [gcode gval gidx glng]. cbn in Hcode, Hlen. subst gcode.
  open_machine m1. subst cfg.
  assert (Hone : to_len 1 = 1).
  { unfold to_len, wrap. apply Z.mod_small. split; [ lia | ].
    change 1 with (2 ^ 0) at 1. apply Z.pow_lt_mono_r; lia. }
  pose proof (pktsize_of_at_least_8 (DIEP0CTL u)) as Hpk.
  exec. cbn [Z.eqb Pos.eqb negb andb orb].
  rewrite Hone.
  replace (glng <? 1) with false by (symmetry; apply Z.ltb_ge; lia).
  replace (1 <? pktsize_of (DIEP0CTL u)) with true
    by (symmetry; apply Z.ltb_lt; lia).
  replace (1 <=? pktsize_of (DIEP0CTL u)) with true
    by (symmetry; apply Z.leb_le; lia).
  rewrite (proj2 (Z.eqb_neq _ _) Hrb). cbn [negb andb].
  split_cases; (split; [ reflexivity | ]);
    cbn [trace]; rewrite <- ?app_assoc; eexists; (split; reflexivity).
Qed.

(** *** GET_DESCRIPTOR *)

Lemma find_descriptor_miss v table :
  Forall (fun e => d_wValue e <> v) (reachable_entries table) ->
  find_descriptor v table = None.
Proof.
  induction table as [| e table IH]; intros H; [ reflexivity | ].
  cbn [find_descriptor reachable_entries] in *.
  destruct (d_addr e =? NULL); [ reflexivity | ].
  inversion H as [| ? ? He Hrest]; subst.
  destruct (Z.eqb_spec v (d_wValue e)) as [-> | _]; [ now contradiction He | ].
  now apply IH.
Qed.

Lemma find_descriptor_hit v table before e after :
  reachable_entries table = before ++ e :: after ->
  Forall (fun e' => d_wValue e' <> v) before ->
  d_wValue e = v ->
  find_descriptor v table = Some (d_addr e, reply_length v e).
Proof.
  revert before. induction table as [| e0 table IH]; intros before Hr Hb He.
  - now destruct before.
  - cbn [find_descriptor reachable_entries] in *.
    destruct (d_addr e0 =? NULL); [ now destruct before | ].
    destruct before as [| e1 before]; cbn [app] in Hr.
    + injection Hr as -> Hr. rewrite He, Z.eqb_refl. reflexivity.
    + injection Hr as -> Hr. inversion Hb as [| ? ? H1 Hb']; subst.
      destruct (Z.eqb_spec (d_wValue e) (d_wValue e1)) as [E | _];
        [ now contradiction H1 | ].
      now apply (IH before).
Qed.

Lemma get_descriptor_dispatch m :
  wRequestAndType (dev_req (dev m)) = 0x0680
  \/ wRequestAndType (dev_req (dev m)) = 0x0681 ->
  usb_setup m
  = match find_descriptor (wValue (dev_req (dev m))) usb_descriptor_list with
    | Some (data, datalen) =>
      send data datalen (set_last_setup (dev_req (dev m)) m)
    | None => usb_lld_ctrl_error (set_last_setup (dev_req (dev m)) m)
    end.
Proof.
  intros H. open_machine m. destruct H as [-> | ->]; reflexivity.
Qed.

(** X4. GET_DESCRIPTOR for a wValue that no entry before the end of the
    table carries is refused: the dispatcher does what [usb_lld_ctrl_error]
    does, the stall and the re-arming with the pipe in WAIT_SETUP, and
    sends nothing. *)
Theorem GET_DESCRIPTOR_unknown_is_refused m :
  wRequestAndType (dev_req (dev m)) = 0x0680
  \/ wRequestAndType (dev_req (dev m)) = 0x0681 ->
  Forall (fun e => d_wValue e <> wValue (dev_req (dev m)))
         (reachable_entries usb_descriptor_list) ->
  usb_setup m = usb_lld_ctrl_error (set_last_setup (dev_req (dev m)) m)
  /\ trace (usb_setup m) = trace m ++ stall_and_rearm
  /\ state (dev (usb_setup m)) = WAIT_SETUP.
Proof.
  intros Hcode Hmiss. rewrite (get_descriptor_dispatch m Hcode).
  rewrite (find_descriptor_miss _ _ Hmiss).
  open_machine m. split; [ reflexivity | ]. exec.
  rewrite <- !app_assoc. split; reflexivity.
Qed.

(** X5. GET_DESCRIPTOR replies with the first entry of the table that
    carries the wValue asked for, entries behind the NULL entry apart; the
    length is the one the table gives, or for a string descriptor
    (wValue >> 8 == 3) the first byte of the descriptor. *)
Theorem GET_DESCRIPTOR_replies_with_the_first_match m before e after :
  wRequestAndType (dev_req (dev m)) = 0x0680
  \/ wRequestAndType (dev_req (dev m)) = 0x0681 ->
  reachable_entries usb_descriptor_list = before ++ e :: after ->
  Forall (fun e' => d_wValue e' <> wValue (dev_req (dev m))) before ->
  d_wValue e = wValue (dev_req (dev m)) ->
  usb_setup m
  = send (d_addr e) (reply_length (wValue (dev_req (dev m))) e)
         (set_last_setup (dev_req (dev m)) m).
Proof.
  intros Hcode Hr Hb He. rewrite (get_descriptor_dispatch m Hcode).
  now rewrite (find_descriptor_hit _ _ _ _ _ Hr Hb He).
Qed.

(** *** The interrupt handler, event by event *)

Lemma deliver_OUT_COMPLETE_as_read m :
  deliver (OUT_COMPLETE (DOEP0TSIZ (USB m))) m
  = if negb (CONTROL_STATE_eqb (state (dev m)) WAIT_SETUP) then handle_out0 m
    else m.
Proof.
  destruct m as [u pkts cfg [st rq cd] ls rb ln ps pos off b t].
  destruct u as [r0 r1 r2 r3 r4 r5 r6 r7 r8 r9 r10 r11]. reflexivity.
Qed.

(** X6. An interrupt of endpoint 0 is served as the event it stands for:
    after the stores that acknowledge the interrupt flags, an IN completion
    goes to [handle_in0], an OUT completion without SETUP goes to
    [handle_out0] unless the pipe waits for a SETUP, and a SETUP packet is
    copied from its slot to [dev->dev_req] and dispatched. *)
Theorem USB_Handler_serves_endpoint_0 m :
  (only_IN0_pending (USB m) ->
   tst (Z.land (USB_DINEPS_INT (USB m) 0) (DIEPMSK (USB m))) USB_DIEP_INT_XFERCOMPL = true ->
   USB_Handler m
   = deliver IN_COMPLETE (emit (STORE (R_DINEPS_INT 0) USB_DIEP_INT_XFERCOMPL) m))
  /\ (only_OUT0_pending (USB m) ->
      tst (Z.land (USB_DOUTEPS_INT (USB m) 0) (DOEPMSK (USB m))) USB_DOEP0INT_STUPPKTRCVD = false ->
      tst (Z.land (USB_DOUTEPS_INT (USB m) 0) (DOEPMSK (USB m))) USB_DOEP_INT_XFERCOMPL = true ->
      tst (Z.land (DOEP0INT (USB m)) (DOEPMSK (USB m))) USB_DOEP0INT_SETUP = false ->
      tst (Z.land (DOEP0INT (USB m)) (DOEPMSK (USB m))) USB_DOEP0INT_STSPHSERCVD = false ->
      USB_Handler m
      = deliver (OUT_COMPLETE (DOEP0TSIZ (USB m)))
          (emit (STORE (R_DOUTEPS_INT 0) USB_DOEP0INT_STUPPKTRCVD)
                (emit (STORE (R_DOUTEPS_INT 0) USB_DOEP_INT_XFERCOMPL) m)))
  /\ (only_OUT0_pending (USB m) ->
      tst (Z.land (USB_DOUTEPS_INT (USB m) 0) (DOEPMSK (USB m))) USB_DOEP0INT_STUPPKTRCVD = false ->
      tst (Z.land (USB_DOUTEPS_INT (USB m) 0) (DOEPMSK (USB m))) USB_DOEP_INT_XFERCOMPL = false ->
      tst (Z.land (USB_DOUTEPS_INT (USB m) 0) (DOEPMSK (USB m))) USB_DOEP0INT_SETUP = true ->
      tst (Z.land (USB_DOUTEPS_INT (USB m) 0) (DOEPMSK (USB m))) USB_DOEP0INT_STSPHSERCVD = false ->
      USB_Handler m
      = deliver (SETUP (ep0_setup_pkt m (setup_slot (DOEP0TSIZ (USB m)))))
          (emit (STORE R_DOEP0INT USB_DOEP0INT_SETUP) m)).
Proof.
  split; [ | split ].
  - intros Hp Hx. exact (USB_Handler_IN0 m Hp Hx).
  - intros (Hrst & Henum & Hin & Hout & Hep) Hstup Hx Hsetup Hsts.
    change (DOEP0TSIZ (USB m))
      with (DOEP0TSIZ (USB (emit (STORE (R_DOUTEPS_INT 0) USB_DOEP0INT_STUPPKTRCVD)
                (emit (STORE (R_DOUTEPS_INT 0) USB_DOEP_INT_XFERCOMPL) m)))).
    rewrite deliver_OUT_COMPLETE_as_read.
    unfold USB_Handler. rewrite Hrst, Henum, Hin, Hout, Hep.
    rewrite (out_loop_only_ep0 30 m). unfold out_ep.
    change (0 =? 0) with true. rewrite Hstup. cbn [andb]. rewrite Hx.
    change (USB (emit ?e ?x)) with (USB x). rewrite Hsetup, Hsts.
    reflexivity.
  - intros Hp Hstup Hx Hsetup Hsts.
    rewrite (USB_Handler_SETUP m Hp Hstup Hx Hsetup Hsts).
    apply take_setup_slot.
Qed.

(** *** Every packet armed fits *)

Lemma to_len_nonneg x : 0 <= LEN_BITS -> 0 <= to_len x.
Proof.
  intros H. unfold to_len, wrap. apply Z.mod_pos_bound.
  apply Z.pow_pos_nonneg; lia.
Qed.

Lemma pktsize_of_bounds ctl : 0 <= pktsize_of ctl <= 64.
Proof.
  unfold pktsize_of. split; [ apply Z.shiftr_nonneg; lia | ].
  rewrite Z.shiftr_div_pow2 by (apply Z.land_nonneg; lia).
  assert (0 < 2 ^ Z.land ctl 3).
  { apply Z.pow_pos_nonneg; [ lia | apply Z.land_nonneg; lia ]. }
  apply Z.div_le_upper_bound; [ lia | ]. nia.
Qed.

Ltac bounds :=
  repeat match goal with
         | |- Forall _ (_ ++ _) => apply Forall_app; split
         | |- Forall _ (_ :: _) => apply Forall_cons; split
         | |- Forall _ [] => constructor
         end;
  try exact I.

Ltac known_bounds Hbits :=
  repeat match goal with
         | |- context [to_len ?x] =>
           lazymatch goal with
           | _ : 0 <= to_len x |- _ => fail
           | _ => pose proof (to_len_nonneg x Hbits)
           end
         | |- context [pktsize_of ?x] =>
           lazymatch goal with
           | _ : 0 <= pktsize_of x <= 64 |- _ => fail
           | _ => pose proof (pktsize_of_bounds x)
           end
         | _ : context [pktsize_of ?x] |- _ =>
           lazymatch goal with
           | _ : 0 <= pktsize_of x <= 64 |- _ => fail
           | _ => pose proof (pktsize_of_bounds x)
           end
         end.

Ltac within Hbits := bounds; cbn [within_packet]; to_Z; known_bounds Hbits;
  first [ assumption | lia | (split; [ lia | reflexivity ]) ].

Lemma usb_setup_packets_sound m :
  0 <= LEN_BITS -> 0 <= wLength (dev_req (dev m)) ->
  packets_sound m -> packets_sound (usb_setup m).
Proof.
  intros Hbits Hw [Hlen Ht]. unfold packets_sound. open_machine m.
  exec. split_cases; cbn [len trace];
    (split; [ | rewrite <- ?app_assoc; apply Forall_app; split; [ exact Ht | ] ]).
  all: solve [ within Hbits ].
Qed.

Lemma handle_in0_packets_sound m :
  0 <= LEN_BITS -> packets_sound m -> packets_sound (handle_in0 m).
Proof.
  intros Hbits [Hlen Ht]. unfold packets_sound. open_machine m.
  destruct st; exec; split_cases; cbn [len trace];
    (split; [ | rewrite <- ?app_assoc; apply Forall_app; split; [ exact Ht | ] ]).
  all: solve [ within Hbits ].
Qed.

Lemma handle_out0_packets_sound m :
  0 <= LEN_BITS -> packets_sound m -> packets_sound (handle_out0 m).
Proof.
  intros Hbits [Hlen Ht]. unfold packets_sound. open_machine m.
  destruct st; exec; split_cases; cbn [len trace];
    (split; [ | rewrite <- ?app_assoc; apply Forall_app; split; [ exact Ht | ] ]).
  all: solve [ within Hbits ].
Qed.

Lemma deliver_packets_sound e m :
  0 <= LEN_BITS -> sized e -> packets_sound m -> packets_sound (deliver e m).
Proof.
  intros Hbits He Hm. destruct e as [req | | tsiz]; cbn [deliver sized] in *.
  - apply usb_setup_packets_sound; [ exact Hbits | | ].
    + destruct m as [u pkts cfg [st rq cd] ls rb ln ps pos off b t]. exact He.
    + destruct m as [u pkts cfg [st rq cd] ls rb ln ps pos off b t]. exact Hm.
  - apply handle_in0_packets_sound; assumption.
  - match goal with |- context [if ?c then _ else _] => destruct c end.
    + apply handle_out0_packets_sound; [ exact Hbits | ].
      destruct m as [u pkts cfg [st rq cd] ls rb ln ps pos off b t]. exact Hm.
    + destruct m as [u pkts cfg [st rq cd] ls rb ln ps pos off b t]. exact Hm.
Qed.

Lemma run_packets_sound es : forall m,
  0 <= LEN_BITS -> Forall sized es -> packets_sound m -> packets_sound (run es m).
Proof.
  induction es as [| e es IH]; intros m Hbits Hes Hm; [ exact Hm | ].
  rewrite run_cons. inversion Hes; subst.
  apply IH; [ exact Hbits | assumption | ].
  apply deliver_packets_sound; assumption.
Qed.

Lemma power_on_packets_sound u (b : B) : packets_sound (power_on u b).
Proof. split; [ change (0 <= 0); lia | constructor ]. Qed.

(** X7. From power-on, whatever SETUP packets, IN completions and OUT
    completions arrive and whatever the registers show, every call that arms
    endpoint 0 asks for 0 to 64 bytes and passes 0 for the packet size
    field. *)
Theorem every_armed_packet_fits es u b :
  0 <= LEN_BITS -> Forall sized es ->
  Forall within_packet (trace (run es (power_on u b))).
Proof.
  intros Hbits Hes.
  exact (proj2 (run_packets_sound es (power_on u b) Hbits Hes
                  (power_on_packets_sound u b))).
Qed.

(** *** A control READ, from the first packet to the status stage *)

Lemma run_app es1 es2 m : run (es1 ++ es2) m = run es2 (run es1 m).
Proof. unfold run. apply fold_left_app. Qed.

Lemma steps_left_positive m :
  in_data_phase_active m = true -> (1 <= steps_left m)%nat.
Proof.
  unfold in_data_phase_active, steps_left.
  destruct (len (ctrl_data (dev m)) =? 0); [ | lia ].
  destruct (state (dev m)); try discriminate; intros _;
    [ lia | destruct (require_zlp _); lia ].
Qed.

Lemma proceeded m m' l :
  outcome m m' -> trace m' = trace m ++ l -> state (dev m') <> WAIT_SETUP ->
  stalls l = false.
Proof.
  intros [l0 Ht Hs _ _ | l0 _ _ Hst] Ht' Hne; [ | contradiction ].
  rewrite Ht in Ht'. apply app_inv_head in Ht'. now subst l0.
Qed.

Lemma stalls_app l1 l2 : stalls (l1 ++ l2) = stalls l1 || stalls l2.
Proof. apply existsb_app. Qed.

(** The IN data phase as a run of IN completions: one per packet armed. *)
Lemma in_data_phase_as_run k : forall m,
  in_data_phase_active m = true ->
  Z.land (DOEP0CTL (USB m)) 3 = 0 ->
  0 <= LEN_BITS ->
  0 <= len (ctrl_data (dev m)) < 2 ^ LEN_BITS ->
  (steps_left m <= k)%nat ->
  exists l, trace (in_data_phase k m) = trace m ++ l
  /\ stalls l = false
  /\ in_data_phase k m
     = run (repeat IN_COMPLETE (S (length (in_packets l)))) m.
Proof.
  induction k as [| k IH]; intros m Hact Hmps Hbits Hlen Hk.
  - pose proof (steps_left_positive m Hact). lia.
  - rewrite in_data_phase_S by exact Hact.
    destruct (handle_in0_step m Hact Hmps Hbits Hlen)
      as (l & Ht & [(Hst & Hz & Hp) | (Hact' & Hu & Hlen' & Hp & Hsteps)]).
    + assert (Hs : stalls l = false).
      { apply (proceeded m (handle_in0 m) l (handle_in0_outcome m) Ht).
        rewrite Hst. discriminate. }
      rewrite in_data_phase_over
        by (unfold in_data_phase_active; rewrite Hst; reflexivity).
      exists l. split; [ exact Ht | ]. split; [ exact Hs | ].
      rewrite Hp. reflexivity.
    + assert (Hs : stalls l = false).
      { apply (proceeded m (handle_in0 m) l (handle_in0_outcome m) Ht).
        unfold in_data_phase_active in Hact'.
        destruct (state (dev (handle_in0 m))); discriminate. }
      destruct (IH (handle_in0 m)) as (l' & Ht' & Hs' & Hrun); trivial.
      * now rewrite Hu.
      * rewrite Hlen'. lia.
      * lia.
      * exists (l ++ l'). split; [ rewrite Ht', Ht, <- app_assoc; reflexivity | ].
        split; [ rewrite stalls_app, Hs, Hs'; reflexivity | ].
        rewrite Hrun, in_packets_app, Hp. reflexivity.
Qed.

(** X8. A control READ from its first packet to the end: after
    [usb_lld_ctrl_send], one IN completion per packet armed and the OUT
    completion of the status stage bring the pipe back to WAIT_SETUP,
    re-armed for SETUP, with the download cursor at 0; no stall is issued on
    the way, and the packets are those of [armed_in_packets]: the full
    packets, the rest, and for a multiple of 64 bytes the zero-length
    packet, twice when the total is 64. *)
Theorem control_read_round_trip m buf buflen tsiz :
  Z.land (DIEP0CTL (USB m)) 3 = 0 ->
  Z.land (DOEP0CTL (USB m)) 3 = 0 ->
  16 <= LEN_BITS ->
  0 <= wLength (dev_req (dev m)) < 2 ^ 16 ->
  0 <= buflen < 2 ^ LEN_BITS ->
  let total := Z.min buflen (wLength (dev_req (dev m))) in
  let m' := run (repeat IN_COMPLETE (length (armed_in_packets total))
                 ++ [OUT_COMPLETE tsiz])
                (usb_lld_ctrl_send buf buflen m) in
  state (dev m') = WAIT_SETUP
  /\ ep0_rx_offset m' = 0
  /\ exists l, trace m' = trace m ++ l ++ [EP0_SETUP]
     /\ in_packets l = armed_in_packets total
     /\ stalls l = false.
Proof.
  intros Hin Hout Hbits Hw Hbuf total m'.
  set (K := (Z.to_nat total + 3)%nat).
  destruct (in_data_phase_packets m buf buflen K Hin Hout Hbits Hw Hbuf (le_n _))
    as (l0 & Ht0 & Hst0 & Hp0).
  destruct (usb_lld_ctrl_send_starts m buf buflen Hin Hbits Hw Hbuf)
    as (lsend & Htsend & Hps & Hsts & Hus & Hlens & _).
  fold total in Hp0, Hps, Hsts, Hlens.
  set (ms := usb_lld_ctrl_send buf buflen m) in *.
  assert (Hact : in_data_phase_active ms = true).
  { unfold in_data_phase_active. rewrite Hsts. now destruct (total <? 64). }
  assert (Hss : stalls lsend = false).
  { apply (proceeded m ms lsend); [ | exact Htsend | ].
    - subst ms. eapply ctrl_send_outcome;
        [ symmetry; apply app_nil_r | reflexivity | reflexivity ].
    - rewrite Hsts. now destruct (total <? 64). }
  assert (Htot : 0 <= total < 2 ^ 16) by (subst total; lia).
  assert (H16 : 2 ^ 16 <= 2 ^ LEN_BITS) by (apply Z.pow_le_mono_r; lia).
  destruct (in_data_phase_as_run K ms) as (l1 & Ht1 & Hs1 & Hrun); trivial.
  - now rewrite Hus.
  - lia.
  - rewrite Hlens. lia.
  - unfold steps_left. rewrite Hlens.
    destruct (total - Z.min total 64 =? 0).
    + destruct (state (dev ms)); try destruct (require_zlp _); subst K; lia.
    + subst K. lia.
  - rewrite Ht1, Htsend, <- app_assoc in Ht0. apply app_inv_head in Ht0. subst l0.
    rewrite in_packets_app, Hps in Hp0.
    assert (Hcount : length (armed_in_packets total) = S (length (in_packets l1))).
    { rewrite <- Hp0. reflexivity. }
    subst m'. rewrite run_app, Hcount, <- Hrun.
    set (md := in_data_phase K ms) in *.
    cbn [run fold_left deliver].
    assert (Hd : forall x, handle_out0 (set_USB x md)
                 = set_state WAIT_SETUP (set_ep0_rx_offset 0
                     (efm32hg_prepare_ep0_setup (set_USB x md)))).
    { intros x. clearbody md. open_machine md. subst st. reflexivity. }
    replace (CONTROL_STATE_eqb (state (dev (set_USB _ md))) WAIT_SETUP) with false
      by (clearbody md; open_machine md; subst st; reflexivity).
    cbn [negb]. rewrite Hd.
    split; [ reflexivity | ]. split; [ reflexivity | ].
    exists (lsend ++ l1). split; [ | split ].
    + change (trace (set_state _ (set_ep0_rx_offset _ (efm32hg_prepare_ep0_setup
                (set_USB ?x md))))) with (trace md ++ [EP0_SETUP]).
      rewrite Ht1, Htsend, <- !app_assoc. reflexivity.
    + rewrite in_packets_app, Hps. exact Hp0.
    + rewrite stalls_app, Hss, Hs1. reflexivity.
Qed.

(** *** The chunks of a download: rejection, and the data pointer *)

(** X9. When the backend rejects the chunk at hand, whatever it does with
    other chunks, the OUT completion ends in the stall and the re-arming
    with the pipe in WAIT_SETUP, and the download cursor stays where it
    was.  The backend is called once, with that chunk, and only after the
    engine has armed what comes next: with data outstanding, the next
    reception, at the address it passes to the backend; with none
    outstanding the run has passed the breakpoint of
    [handle_datastage_out]. *)
Theorem rejected_chunk_keeps_the_cursor m :
  state (dev m) = OUT_DATA ->
  wRequestAndType (last_setup m) = 0x0121 ->
  wIndex (last_setup m) = 0 ->
  chunk_rejected m ->
  let left := to_len (len (ctrl_data (dev m)) - Z.land (DOEP0TSIZ (USB m)) 127) in
  let c := DFU_DOWNLOAD (wValue (last_setup m)) (wLength (last_setup m))
                        (ep0_rx_offset m) (chunk_size m) (chunk_pointer m) false in
  let m' := handle_out0 m in
  ep0_rx_offset m' = ep0_rx_offset m
  /\ state (dev m') = WAIT_SETUP
  /\ exists armed,
       trace m' = trace m ++ armed ++ [c] ++ stall_and_rearm
       /\ count is_chunk_call armed = 0%nat
       /\ (if left =? 0 then exists rest, armed = BKPT 93 :: rest
           else exists k, armed = [EP0_OUT (chunk_pointer m) k 0]).
Proof.
  intros Hst Hcode Hidx Hrej left c m'. subst left c m'.
  unfold chunk_rejected, chunk_size, chunk_pointer in *.
  open_machine m. destruct ls as [lcode lval lidx llng].
  cbn [wRequestAndType wValue wIndex wLength] in *. subst st lcode lidx.
  exec. cbn [Z.eqb Pos.eqb negb andb].
  destruct (to_len _ =? 0); exec; cbn [Z.eqb Pos.eqb negb andb].
  all: match goal with |- context [dfu_download ?a1 ?a2 ?a3 ?a4 ?a5 ?a6] =>
      destruct (dfu_download a1 a2 a3 a4 a5 a6) as [ok b'] end;
    cbn [fst] in Hrej; subst ok; exec;
    (split; [ reflexivity | ]); (split; [ reflexivity | ]);
    rewrite <- !app_assoc.
  - eexists [BKPT 93; EP0_SETUP; EP0_IN NULL 0 0].
    split; [ reflexivity | ]. split; [ reflexivity | ].
    eexists. reflexivity.
  - eexists [EP0_OUT _ _ 0].
    split; [ reflexivity | ]. split; [ reflexivity | ].
    eexists. reflexivity.
Qed.

Lemma packets_for_bounds n :
  1 <= n ->
  (1 <= packets_for n)%nat
  /\ 64 * (Z.of_nat (packets_for n) - 1) < n <= 64 * Z.of_nat (packets_for n).
Proof.
  intros Hn. unfold packets_for.
  assert (Hq : 1 <= (n + 63) / 64) by (apply Z.div_le_lower_bound; lia).
  pose proof (Z.mul_div_le (n + 63) 64 ltac:(lia)).
  pose proof (Z.mul_succ_div_gt (n + 63) 64 ltac:(lia)).
  rewrite Z2Nat.id by lia. split; lia.
Qed.


(** *** The debug arrays of the OUT data stage *)

Lemma store_at_ring (i : nat) (a : list Z) :
  length a = (if (33 <=? i)%nat then 33 else 32)%nat ->
  ((33 <= i)%nat -> a !! 32%nat = Some 64) ->
  let a' := store_at (Z.to_nat (Z.of_nat i mod 33)) 64 a in
  length a' = (if (33 <=? S i)%nat then 33 else 32)%nat
  /\ ((33 <= S i)%nat -> a' !! 32%nat = Some 64).
Proof.
  intros Hlen Hlast a'. subst a'.
  pose proof (Z.mod_pos_bound (Z.of_nat i) 33 ltac:(lia)) as Hp.
  set (p := Z.of_nat i mod 33) in *.
  assert (Hsmall : (i < 33)%nat -> p = Z.of_nat i)
    by (intros; subst p; apply Z.mod_small; lia).
  unfold store_at.
  destruct (Nat.leb_spec 33 i) as [Hi | Hi].
  - replace (33 <=? S i)%nat with true by (symmetry; apply Nat.leb_le; lia).
    replace (Z.to_nat p <? length a)%nat with true
      by (symmetry; apply Nat.ltb_lt; lia).
    rewrite length_insert. split; [ exact Hlen | intros _ ].
    destruct (Nat.eq_dec (Z.to_nat p) 32%nat) as [Heq | Hne].
    + rewrite Heq. apply list_lookup_insert_eq. lia.
    + rewrite list_lookup_insert_ne by exact Hne. now apply Hlast.
  - specialize (Hsmall Hi).
    destruct (Nat.eq_dec i 32%nat) as [-> | Hne].
    + replace (Z.to_nat p <? length a)%nat with false
        by (symmetry; apply Nat.ltb_ge; lia).
      replace (Z.to_nat p - length a)%nat with 0%nat by lia.
      cbn [repeat app Nat.leb]. rewrite length_app. cbn [length].
      split; [ lia | intros _ ].
      rewrite lookup_app_r by lia. rewrite Hlen. reflexivity.
    + replace (33 <=? S i)%nat with false by (symmetry; apply Nat.leb_gt; lia).
      replace (Z.to_nat p <? length a)%nat with true
        by (symmetry; apply Nat.ltb_lt; lia).
      rewrite length_insert. split; [ exact Hlen | lia ].
Qed.

Lemma succ_mod_33 (i : nat) :
  let p := Z.of_nat i mod 33 in
  Z.of_nat (S i) mod 33 = if 32 <? p + 1 then 0 else p + 1.
Proof.
  intros p. subst p.
  pose proof (Z.mod_pos_bound (Z.of_nat i) 33 ltac:(lia)) as Hp.
  pose proof (Z.div_mod (Z.of_nat i) 33 ltac:(lia)) as Hd.
  destruct (Z.ltb_spec 32 (Z.of_nat i mod 33 + 1)).
  - symmetry. apply (Z.mod_unique _ _ (Z.of_nat i / 33 + 1)); lia.
  - symmetry. apply (Z.mod_unique _ _ (Z.of_nat i / 33)); lia.
Qed.

(** What an OUT completion in OUT_DATA does to the debug arrays. *)
Lemma out_packet_debug m tsiz :
  state (dev m) = OUT_DATA ->
  let m' := deliver (OUT_COMPLETE tsiz) m in
  let pktsize := pktsize_of (DIEP0CTL (USB m)) in
  let left := to_len (len (ctrl_data (dev m)) - Z.land tsiz 127) in
  let pos1 := u8 (len_pos m + 1) in
  len_pos m' = (if 32 <? pos1 then 0 else pos1)
  /\ lens m' = store_at (Z.to_nat (len_pos m))
                        (if left <? pktsize then left else pktsize) (lens m)
  /\ pktsizes m' = store_at (Z.to_nat (len_pos m)) pktsize (pktsizes m).
Proof.
  intros Hst m' pktsize left pos1. subst m' pktsize left pos1.
  open_machine m. destruct u as [r0 r1 r2 r3 r4 r5 r6 r7 r8 r9 r10 r11].
  subst st. exec_hw. cbn [CONTROL_STATE_eqb negb].
  split_cases; repeat split.
Qed.

Lemma debug_ring_step (i : nat) m tsiz :
  accepts_chunks -> EP0_SIZE = 64 -> 16 <= LEN_BITS ->
  state (dev m) = OUT_DATA ->
  Z.land (DIEP0CTL (USB m)) 3 = 0 ->
  0 <= tsiz <= 64 ->
  64 + tsiz < len (ctrl_data (dev m)) < 2 ^ 16 ->
  debug_ring i m ->
  debug_ring (S i) (deliver (OUT_COMPLETE tsiz) m).
Proof.
  intros Hacc Hep0 Hbits Hst Hmps Hts Hlen (Hpos & Hl & Hp & Hlast).
  destruct (out_packet_debug m tsiz Hst) as (Hpos' & Hl' & Hp').
  assert (2 ^ 16 <= 2 ^ LEN_BITS) by (apply Z.pow_le_mono_r; lia).
  assert (H16 : 2 ^ 16 = 65536) by reflexivity.
  rewrite (pktsize_of_64 _ Hmps) in Hl', Hp'. rewrite land_127 in Hl' by lia.
  rewrite to_len_small in Hl' by lia.
  replace (len (ctrl_data (dev m)) - tsiz <? 64) with false in Hl'
    by (symmetry; apply Z.ltb_ge; lia).
  rewrite Hpos in Hpos', Hl', Hp'.
  pose proof (Z.mod_pos_bound (Z.of_nat i) 33 ltac:(lia)) as Hm.
  assert (Hu8 : u8 (Z.of_nat i mod 33 + 1) = Z.of_nat i mod 33 + 1)
    by (apply Z.mod_small; change (2 ^ 8) with 256; lia).
  rewrite Hu8 in Hpos'.
  destruct (store_at_ring i (lens m) Hl (fun H => proj1 (Hlast H))) as (Hl1 & Hl2).
  destruct (store_at_ring i (pktsizes m) Hp (fun H => proj2 (Hlast H))) as (Hp1 & Hp2).
  unfold debug_ring. rewrite Hpos', Hl', Hp', succ_mod_33.
  split; [ reflexivity | ]. split; [ exact Hl1 | ]. split; [ exact Hp1 | ].
  intros Hi. split; [ now apply Hl2 | now apply Hp2 ].
Qed.

Lemma usb_setup_debug m :
  len_pos (usb_setup m) = len_pos m
  /\ lens (usb_setup m) = lens m
  /\ pktsizes (usb_setup m) = pktsizes m.
Proof. open_machine m. exec. split_cases; repeat split. Qed.

(** The debug arrays along a download in progress of more than 128
    bytes. *)
Lemma download_debug_ring count0 : forall m (i : nat),
  accepts_chunks -> EP0_SIZE = 64 -> 16 <= LEN_BITS ->
  state (dev m) = OUT_DATA ->
  wRequestAndType (last_setup m) = 0x0121 ->
  wIndex (last_setup m) = 0 ->
  Z.land (DIEP0CTL (USB m)) 3 = 0 ->
  128 < wLength (last_setup m) < 2 ^ 16 ->
  ep0_rx_offset m = 64 * Z.of_nat i ->
  len (ctrl_data (dev m)) = wLength (last_setup m) ->
  armed_out 0 (trace m) = Z.min (wLength (last_setup m)) 64 ->
  64 * Z.of_nat i < wLength (last_setup m) ->
  count0 = packets_for (wLength (last_setup m) - 64 * Z.of_nat i) ->
  debug_ring i m ->
  debug_ring (i + count0)
    (receive_all (out_packets count0 (wLength (last_setup m) - 64 * Z.of_nat i)) m).
Proof.
  induction count0 as [| count0 IH];
    intros m i Hacc Hep0 Hbits Hst Hcode Hidx Hmps Hw Hoff Hlen Harm Hi Hcnt Hring.
  - exfalso. destruct (Z.leb_spec (wLength (last_setup m) - 64 * Z.of_nat i) 64).
    + rewrite packets_for_last in Hcnt by lia. discriminate.
    + rewrite packets_for_more in Hcnt by lia. discriminate.
  - cbn [out_packets]. rewrite receive_all_cons. unfold receive.
    rewrite Harm.
    set (n := wLength (last_setup m)) in *.
    set (tsiz := Z.min n 64 - Z.min (n - 64 * Z.of_nat i) 64).
    assert (Hts : 0 <= tsiz <= 64) by (subst tsiz; lia).
    pose proof (debug_ring_step i m tsiz Hacc Hep0 Hbits Hst Hmps Hts
                  ltac:(lia) Hring) as Hring1.
    destruct (out_packet_counts_down m tsiz Hacc Hep0 Hbits Hst Hcode Hidx Hmps)
      as (Hls & Hmps' & Hoff' & Hlen' & Haddr' & Hcase);
      try (fold n; lia).
    fold n in Hoff', Hcase. rewrite Hoff in Hoff', Hcase.
    set (m1 := deliver (OUT_COMPLETE tsiz) m) in *. clearbody m1.
    destruct (Z.leb_spec n (64 * Z.of_nat i + 64)) as [Hle | Hgt].
    + rewrite packets_for_last in Hcnt by lia. injection Hcnt as ->.
      cbn [out_packets receive_all fold_left].
      replace (i + 1)%nat with (S i) by lia. exact Hring1.
    + destruct Hcase as (Hst1 & Ht1).
      rewrite packets_for_more in Hcnt by lia. injection Hcnt as Hcnt.
      assert (Hts0 : tsiz = 0) by (subst tsiz; lia).
      rewrite Hts0, Z.sub_0_r in *.
      rewrite (Z.min_r (n - 64 * Z.of_nat i) 64) in * by lia.
      replace (n - 64 * Z.of_nat i - 64) with (n - 64 * Z.of_nat (S i)) by lia.
      replace (i + S count0)%nat with (S i + count0)%nat by lia.
      pose proof (IH m1 (S i)) as Hrec. rewrite Hls in Hrec. fold n in Hrec.
      apply Hrec; trivial; try lia.
      * rewrite Ht1, armed_out_app. cbn [armed_out]. rewrite Hlen. reflexivity.
      * rewrite Hcnt. f_equal. lia.
Qed.

(** X20. A download of more than 2048 bytes, 33 packets or more, makes
    [handle_datastage_out] store to lens[32] and pktsizes[32], one past the
    32 entries of each array: [len_pos] is set back to 0 only when it
    exceeds 32, so it goes from 0 to 32. *)
Theorem download_overruns_the_debug_arrays m blockNum n :
  accepts_chunks -> EP0_SIZE = 64 -> 16 <= LEN_BITS ->
  Z.land (DIEP0CTL (USB m)) 3 = 0 ->
  ep0_rx_offset m = 0 ->
  2048 < n < 2 ^ 16 ->
  len_pos m = 0 ->
  length (lens m) = 32%nat -> length (pktsizes m) = 32%nat ->
  let req := {| wRequestAndType := 0x0121; wValue := blockNum;
                wIndex := 0; wLength := n |} in
  let m' := receive_all (out_packets (packets_for n) n) (deliver (SETUP req) m) in
  lens m' !! 32%nat = Some 64 /\ pktsizes m' !! 32%nat = Some 64.
Proof.
  intros Hacc Hep0 Hbits Hmps Hoff Hn Hpos Hl Hp req m'. subst m'.
  destruct (dnload_setup_arms m blockNum n Hbits ltac:(lia) Hmps)
    as (Hst & Hls & Hlen & Haddr & Hoff1 & Hu & Ht).
  fold req in Hst, Hls, Hlen, Haddr, Hoff1, Hu, Ht.
  assert (Hring : debug_ring 0 (deliver (SETUP req) m)).
  { cbn [deliver].
    destruct (usb_setup_debug (set_dev_req req m)) as (H1 & H2 & H3).
    unfold debug_ring. rewrite H1, H2, H3.
    destruct m as [u pkts cfg [st rq cd] ls rb ln ps pos off b t].
    cbn in Hpos, Hl, Hp |- *. subst pos. rewrite Hl, Hp.
    repeat split; lia. }
  set (m1 := deliver (SETUP req) m) in *. clearbody m1.
  pose proof (download_debug_ring (packets_for n) m1 0) as Hrun.
  rewrite Hls, Hlen, Hu, Hoff1, Ht, armed_out_app in Hrun.
  cbn [wRequestAndType wValue wIndex wLength req armed_out Z.of_nat] in Hrun.
  rewrite Z.mul_0_r, Z.sub_0_r in Hrun.
  destruct Hrun as (_ & _ & _ & Hlast); trivial; try lia.
  apply Hlast. destruct (packets_for_bounds n) as (_ & _ & Hhigh); lia.
Qed.

End Properties.

(** ** The driver at the registers *)

Section DriverProperties.

Context {MCU : mcu_h} {DRV : Driver.mcu_h_driver}.
Import Driver.

(** *** Running a computation: inversion and composition *)

Lemma bind_runs {A C} (c : mmio A) (f : A -> mmio C) answers r t rest :
  (c ≫= f) answers = Some (r, t, rest) <->
  exists a t1 mid t2,
    c answers = Some (a, t1, mid) /\ f a mid = Some (r, t2, rest) /\ t = t1 ++ t2.
Proof.
  unfold mbind, mmio_bind. split.
  - destruct (c answers) as [[[a t1] mid] |]; [ | discriminate ].
    destruct (f a mid) as [[[r' t2] rest'] |] eqn:Hf; [ | discriminate ].
    intros H. injection H as <- <- <-. exists a, t1, mid, t2. auto.
  - intros (a & t1 & mid & t2 & -> & -> & ->). reflexivity.
Qed.

Lemma load_runs p answers r t rest :
  load p answers = Some (r, t, rest) <->
  exists v, answers = v :: rest /\ r = u32 v /\ t = [LOAD p (u32 v)].
Proof.
  unfold load. split.
  - destruct answers as [| v answers]; [ discriminate | ].
    intros [= <- <- <-]. now exists v.
  - intros (v & -> & -> & ->). reflexivity.
Qed.

Lemma store_runs p v answers r t rest :
  store p v answers = Some (r, t, rest) <->
  t = [STORE p (u32 v)] /\ rest = answers.
Proof.
  unfold store. split.
  - intros [= <- <- <-]. now split.
  - intros (-> & ->). now destruct r.
Qed.

Lemma ret_runs {A} (a : A) answers r t rest :
  (mret a : mmio A) answers = Some (r, t, rest) <-> r = a /\ t = [] /\ rest = answers.
Proof.
  unfold mret, mmio_ret. split.
  - intros [= <- <- <-]. now repeat split.
  - intros (-> & -> & ->). reflexivity.
Qed.

Lemma while_set_ends p mask busy v rest :
  Forall (fun w => tst (u32 w) mask = true) busy ->
  tst (u32 v) mask = false ->
  while_set p mask (busy ++ v :: rest)
  = Some (tt, map (fun w => LOAD p (u32 w)) (busy ++ [v]), rest).
Proof.
  intros Hb Hv. induction Hb as [| w busy Hw Hb IH]; cbn [app while_set map].
  - now rewrite Hv.
  - now rewrite Hw, IH.
Qed.

Lemma while_set_ended p mask answers : forall r t rest,
  while_set p mask answers = Some (r, t, rest) ->
  exists busy v,
    answers = busy ++ v :: rest
    /\ Forall (fun w => tst (u32 w) mask = true) busy
    /\ tst (u32 v) mask = false.
Proof.
  induction answers as [| w answers IH]; intros r t rest; cbn [while_set].
  - discriminate.
  - destruct (tst (u32 w) mask) eqn:Hw.
    + destruct (while_set p mask answers) as [[[r' t'] rest'] |] eqn:Hrec;
        [ | discriminate ].
      intros H. injection H as <- <- <-.
      destruct (IH _ _ _ eq_refl) as (busy & v & -> & Hb & Hv).
      exists (w :: busy), v. repeat split; trivial. now constructor.
    + intros H. injection H as <- <- <-. exists [], w. now repeat split.
Qed.

Lemma while_clear_ends p mask busy v rest :
  Forall (fun w => tst (u32 w) mask = false) busy ->
  tst (u32 v) mask = true ->
  while_clear p mask (busy ++ v :: rest)
  = Some (tt, map (fun w => LOAD p (u32 w)) (busy ++ [v]), rest).
Proof.
  intros Hb Hv. induction Hb as [| w busy Hw Hb IH]; cbn [app while_clear map].
  - now rewrite Hv.
  - now rewrite Hw, IH.
Qed.

Lemma while_clear_ended p mask answers : forall r t rest,
  while_clear p mask answers = Some (r, t, rest) ->
  exists busy v,
    answers = busy ++ v :: rest
    /\ Forall (fun w => tst (u32 w) mask = false) busy
    /\ tst (u32 v) mask = true.
Proof.
  induction answers as [| w answers IH]; intros r t rest; cbn [while_clear].
  - discriminate.
  - destruct (tst (u32 w) mask) eqn:Hw; cbn [negb].
    + intros H. injection H as <- <- <-. exists [], w. now repeat split.
    + destruct (while_clear p mask answers) as [[[r' t'] rest'] |] eqn:Hrec;
        [ | discriminate ].
      intros H. injection H as <- <- <-.
      destruct (IH _ _ _ eq_refl) as (busy & v & -> & Hb & Hv).
      exists (w :: busy), v. repeat split; trivial. now constructor.
Qed.

(** X12. [efm32hg_flush_rx_fifo] stores the flush command once and then only
    loads GRSTCTL, once per round; it returns at the first answer that shows
    RXFFLSH clear, and does not return as long as every answer shows it
    set. *)
Theorem flush_rx_fifo_waits_for_the_hardware answers t rest :
  efm32hg_flush_rx_fifo answers = Some (tt, t, rest) <->
  exists busy v,
    answers = busy ++ v :: rest
    /\ Forall (fun w => tst (u32 w) USB_GRSTCTL_RXFFLSH = true) busy
    /\ tst (u32 v) USB_GRSTCTL_RXFFLSH = false
    /\ t = STORE USB_GRSTCTL (u32 USB_GRSTCTL_RXFFLSH)
           :: map (fun w => LOAD USB_GRSTCTL (u32 w)) (busy ++ [v]).
Proof.
  unfold efm32hg_flush_rx_fifo. rewrite bind_runs. split.
  - intros (a & t1 & mid & t2 & Hs & Hw & ->).
    apply store_runs in Hs as (-> & ->).
    destruct (while_set_ended _ _ _ _ _ _ Hw) as (busy & v & -> & Hb & Hv).
    rewrite (while_set_ends _ _ _ _ _ Hb Hv) in Hw. injection Hw as <-.
    exists busy, v. now repeat split.
  - intros (busy & v & -> & Hb & Hv & ->).
    eexists tt, [STORE USB_GRSTCTL (u32 USB_GRSTCTL_RXFFLSH)], (busy ++ v :: rest), _.
    split; [ reflexivity | ]. split; [ apply (while_set_ends _ _ _ _ _ Hb Hv) | ].
    reflexivity.
Qed.

(** *** Bits of the control registers *)

Lemma wrap_bit bits x i :
  0 <= bits -> 0 <= i ->
  Z.testbit (wrap bits x) i = (i <? bits) && Z.testbit x i.
Proof.
  intros Hb Hi. unfold wrap. destruct (Z.ltb_spec i bits).
  - now rewrite Z.mod_pow2_bits_low.
  - now rewrite Z.mod_pow2_bits_high.
Qed.

Lemma u32_bit x i : 0 <= i -> Z.testbit (u32 x) i = (i <? 32) && Z.testbit x i.
Proof. intros. now apply wrap_bit. Qed.

Lemma small_bit x bits i :
  0 <= x < 2 ^ bits -> 0 <= bits <= i -> Z.testbit x i = false.
Proof.
  intros Hx Hi. rewrite <- (Z.mod_small x (2 ^ bits)) by exact Hx.
  now apply Z.mod_pow2_bits_high.
Qed.

Lemma mask_7F0_bit i : 0 <= i -> Z.testbit 0x7F0 i = (4 <=? i) && (i <? 11).
Proof.
  intros Hi. change 0x7F0 with (Z.shiftl (Z.ones 7) 4).
  rewrite Z.shiftl_spec by exact Hi.
  rewrite Z.testbit_ones by lia.
  destruct (Z.leb_spec 0 (i - 4)), (Z.leb_spec 4 i), (Z.ltb_spec (i - 4) 7),
    (Z.ltb_spec i 11); try reflexivity; lia.
Qed.

Lemma disjoint_bits a b i : Z.land a b = 0 -> Z.testbit a i = true -> Z.testbit b i = false.
Proof.
  intros H Ha. destruct (Z.testbit b i) eqn:Hb; [ | reflexivity ].
  assert (Hab : Z.testbit (Z.land a b) i = true) by (rewrite Z.land_spec, Ha, Hb; reflexivity).
  rewrite H, Z.bits_0 in Hab. discriminate.
Qed.

(** X13. [efm32hg_set_daddr] loads DCFG once and stores it once.  For an
    address below 128 the stored value carries the address in the field
    DEVADDR (bits 4 to 10) and, outside that field, the bits that were
    loaded.  An argument from 128 to 255, which the uint8_t parameter
    allows, sets bit 11 of DCFG, above the field. *)
Theorem set_daddr_writes_the_address_field daddr v answers :
  _USB_DCFG_DEVADDR_MASK = 0x7F0 ->
  0 <= daddr < 256 ->
  exists s,
    efm32hg_set_daddr daddr (v :: answers)
    = Some (tt, [LOAD USB_DCFG (u32 v); STORE USB_DCFG s], answers)
    /\ (daddr < 128 ->
        Z.land s 0x7F0 = Z.shiftl daddr 4
        /\ andn s 0x7F0 = andn (u32 v) 0x7F0)
    /\ (128 <= daddr -> Z.testbit s 11 = true).
Proof.
  intros Hmask Hd.
  assert (Hu8 : u8 daddr = daddr) by (apply Z.mod_small; change (2 ^ 8) with 256; lia).
  eexists. split; [ unfold efm32hg_set_daddr; rewrite Hmask, Hu8; reflexivity | ].
  split.
  - intros Hlt. split; apply Z.bits_inj'; intros i Hi; unfold andn.
    all: rewrite ?Z.land_spec.
    all: rewrite ?Z.lnot_spec by exact Hi.
    all: rewrite ?u32_bit by exact Hi.
    all: rewrite ?Z.lor_spec, ?Z.land_spec.
    all: rewrite ?Z.lnot_spec by exact Hi.
    all: rewrite ?u32_bit by exact Hi.
    all: rewrite ?Z.shiftl_spec by exact Hi.
    all: rewrite ?mask_7F0_bit by exact Hi.
    all: rewrite ?Z.land_spec.
    all: assert (Hlow : i < 4 -> Z.testbit daddr (i - 4) = false)
      by (intros; apply Z.testbit_neg_r; lia).
    all: assert (Hhigh : 11 <= i -> Z.testbit daddr (i - 4) = false)
      by (intros; apply (small_bit daddr 7); [ change (2 ^ 7) with 128 | ]; lia).
    all: destruct (Z.leb_spec 4 i), (Z.ltb_spec i 11), (Z.ltb_spec i 32);
      try lia; rewrite ?Hlow, ?Hhigh by lia;
      destruct (Z.testbit v i), (Z.testbit daddr (i - 4)); reflexivity.
  - intros Hge. rewrite u32_bit, Z.lor_spec, Z.shiftl_spec by lia.
    change (11 - 4) with 7. change (11 <? 32) with true. cbn [andb].
    assert (H7 : Z.testbit daddr 7 = true).
    { apply Z.testbit_true; [ lia | ]. change (2 ^ 7) with 128.
      replace (daddr / 128) with 1
        by (apply Z.div_unique with (r := daddr - 128); lia).
      reflexivity. }
    rewrite H7. apply orb_true_r.
Qed.

Lemma in_stall_bits r_out :
  0 <= USB_DIEP_CTL_STALL < 2 ^ 32 ->
  Z.land USB_DIEP_CTL_STALL DEPCTL_WO_BITMASK = 0 ->
  Z.land USB_DIEP_CTL_STALL USB_DIEP_CTL_EPDIS = 0 ->
  let c := andn (u32 r_out) DEPCTL_WO_BITMASK in
  Z.land (u32 (if tst c USB_DIEP_CTL_EPENA then Z.lor c USB_DIEP_CTL_EPDIS else c))
         USB_DIEP_CTL_STALL
  = Z.land (u32 r_out) USB_DIEP_CTL_STALL.
Proof.
  intros Hs Hwo Hdis c. subst c.
  apply Z.bits_inj'. intros i Hi.
  rewrite !Z.land_spec, u32_bit by exact Hi.
  destruct (Z.testbit USB_DIEP_CTL_STALL i) eqn:Hsi;
    [ | now rewrite !andb_false_r ].
  rewrite !andb_true_r.
  assert (Hi32 : i < 32).
  { destruct (Z.ltb_spec i 32); [ assumption | ].
    rewrite (small_bit USB_DIEP_CTL_STALL 32) in Hsi by lia. discriminate. }
  replace (i <? 32) with true by (symmetry; apply Z.ltb_lt; exact Hi32).
  pose proof (disjoint_bits _ _ i Hwo Hsi) as Hw.
  pose proof (disjoint_bits _ _ i Hdis Hsi) as Hd.
  cbn [andb].
  destruct (tst _ USB_DIEP_CTL_EPENA); unfold andn;
    rewrite ?Z.lor_spec, Z.land_spec, Z.lnot_spec, ?Hd, Hw by exact Hi;
    cbn [negb]; rewrite ?orb_false_r, andb_true_r; reflexivity.
Qed.

(** X14. [efm32hg_ep_in_stall] computes what it leaves in the IN control
    register from the OUT control register: it loads USB_DOUTEPS[n].CTL,
    sets STALL in USB_DINEPS[n].CTL by a load and a store, and then stores
    to USB_DINEPS[n].CTL the value derived from the OUT register.  In that
    last store the STALL bit is the one loaded from the OUT register;
    what the IN register held does not enter it. *)
Theorem ep_in_stall_stores_the_OUT_register n v_out v_in answers :
  0 <= USB_DIEP_CTL_STALL < 2 ^ 32 ->
  Z.land USB_DIEP_CTL_STALL DEPCTL_WO_BITMASK = 0 ->
  Z.land USB_DIEP_CTL_STALL USB_DIEP_CTL_EPDIS = 0 ->
  Z.land (andn (u32 v_out) DEPCTL_WO_BITMASK) 0xC0000 <> USB_DIEP_CTL_EPTYPE_ISO ->
  exists ctl,
    efm32hg_ep_in_stall n (v_out :: v_in :: answers)
    = Some (tt, [LOAD (USB_DOUTEPS_CTL n) (u32 v_out);
                 LOAD (USB_DINEPS_CTL n) (u32 v_in);
                 STORE (USB_DINEPS_CTL n) (u32 (Z.lor (u32 v_in) USB_DIEP_CTL_STALL));
                 STORE (USB_DINEPS_CTL n) ctl],
            answers)
    /\ Z.land ctl USB_DIEP_CTL_STALL = Z.land (u32 v_out) USB_DIEP_CTL_STALL.
Proof.
  intros Hs Hwo Hdis Hiso.
  eexists. split.
  - cbv beta iota zeta delta [efm32hg_ep_in_stall mbind mmio_bind load].
    rewrite (proj2 (Z.eqb_neq _ _) Hiso). reflexivity.
  - now apply in_stall_bits.
Qed.

(** *** The layout of the FIFO memory *)

Lemma bind_Some {A C} (c : mmio A) (f : A -> mmio C) answers a t1 mid :
  c answers = Some (a, t1, mid) ->
  (c ≫= f) answers
  = match f a mid with
    | None => None
    | Some (r, t2, rest) => Some (r, t1 ++ t2, rest)
    end.
Proof. intros H. unfold mbind, mmio_bind. now rewrite H. Qed.

Lemma fifo_word_lor depth start :
  0 <= depth < 65536 -> 0 <= start < 65536 ->
  u32 (Z.lor (Z.shiftl depth 16) start) = fifo_word depth start.
Proof.
  intros Hd Hs. unfold fifo_word.
  rewrite Z.shiftl_mul_pow2 by lia. change (2 ^ 16) with 65536.
  rewrite <- Z.add_nocarry_lor.
  - apply Z.mod_small. change (2 ^ 32) with 4294967296. lia.
  - apply Z.bits_inj'. intros i Hi. rewrite Z.land_spec, Z.bits_0.
    destruct (Z.ltb_spec i 16).
    + change 65536 with (2 ^ 16). rewrite Z.mul_pow2_bits_low by lia. reflexivity.
    + replace (Z.testbit start i) with false; [ apply andb_false_r | ].
      symmetry. rewrite <- (Z.mod_small start (2 ^ 16)) by (change (2 ^ 16) with 65536; lia).
      apply Z.mod_pow2_bits_high. lia.
Qed.

Lemma land_7FF x : 0 <= x < 2048 -> Z.land x 0x7FF = x.
Proof.
  intros H. change 0x7FF with (Z.ones 11). rewrite Z.land_ones by lia.
  apply Z.mod_small. change (2 ^ 11) with 2048. lia.
Qed.

Lemma tx_fifo_sizes_spec (j : nat) : forall rounds ep address answers,
  Z.of_nat j = MAX_NUM_IN_EPS + 1 - ep ->
  1 <= ep -> MAX_NUM_IN_EPS < 255 ->
  (j < rounds)%nat ->
  0 <= address -> address + 64 * Z.of_nat j < 2048 ->
  tx_fifo_sizes rounds ep address 64 answers
  = Some ((address + 64 * Z.of_nat j, 64),
          map (fun i => STORE (USB_DIEPTXFS (ep - 1 + Z.of_nat i))
                              (fifo_word 64 (address + 64 * (Z.of_nat i + 1))))
              (seq 0 j),
          answers).
Proof.
  induction j as [| j IH]; intros rounds ep address answers Hj Hep Hmax Hr Ha Htop;
    (destruct rounds as [| rounds]; [ lia | ]); cbn [tx_fifo_sizes].
  - replace (ep <=? MAX_NUM_IN_EPS) with false by (symmetry; apply Z.leb_gt; lia).
    cbn [seq map]. replace (address + 64 * Z.of_nat 0) with address by lia.
    reflexivity.
  - replace (ep <=? MAX_NUM_IN_EPS) with true by (symmetry; apply Z.leb_le; lia).
    assert (Hu8 : u8 (ep + 1) = ep + 1)
      by (apply Z.mod_small; change (2 ^ 8) with 256; lia).
    assert (Hu32 : u32 (address + 64) = address + 64)
      by (apply Z.mod_small; change (2 ^ 32) with 4294967296; lia).
    rewrite Hu8, Hu32.
    erewrite bind_Some by reflexivity.
    rewrite (IH rounds (ep + 1) (address + 64) answers) by lia.
    rewrite land_7FF by lia. rewrite fifo_word_lor by lia.
    cbn [seq map app]. rewrite <- seq_shift, map_map.
    replace (address + 64 + 64 * Z.of_nat j) with (address + 64 * Z.of_nat (S j)) by lia.
    replace (ep - 1 + Z.of_nat 0) with (ep - 1) by lia.
    replace (address + 64 * (Z.of_nat 0 + 1)) with (address + 64) by lia.
    do 3 f_equal. f_equal. apply map_ext. intros i.
    replace (ep + 1 - 1 + Z.of_nat i) with (ep - 1 + Z.of_nat (S i)) by lia.
    replace (address + 64 + 64 * (Z.of_nat i + 1))
      with (address + 64 * (Z.of_nat (S i) + 1)) by lia.
    reflexivity.
Qed.

Ltac invert_runs :=
  repeat match goal with
         | H : (_ ≫= _) _ = Some _ |- _ =>
           apply bind_runs in H as (? & ? & ? & ? & ? & H & ->)
         | H : load _ _ = Some _ |- _ =>
           apply load_runs in H as (? & -> & -> & ->)
         | H : store _ _ _ = Some _ |- _ =>
           let E := fresh "E" in
           apply store_runs in H as (-> & E);
           first [ subst | injection E as ? ?; subst ]
         | H : mret _ _ = Some _ |- _ =>
           let E := fresh "E" in
           apply ret_runs in H as (-> & -> & E);
           first [ subst | injection E as ? ?; subst ]
         end.

Lemma while_set_quiet p mask answers : forall r t rest,
  while_set p mask answers = Some (r, t, rest) -> List.filter fifo_store t = [].
Proof.
  induction answers as [| w answers IH]; intros r t rest; cbn [while_set].
  - discriminate.
  - destruct (tst (u32 w) mask).
    + destruct (while_set p mask answers) as [[[r' t'] rest'] |] eqn:Hrec;
        [ | discriminate ].
      intros H. injection H as <- <- <-. cbn [List.filter fifo_store].
      eapply IH. reflexivity.
    + intros H. injection H as <- <- <-. reflexivity.
Qed.

Lemma while_clear_quiet p mask answers : forall r t rest,
  while_clear p mask answers = Some (r, t, rest) -> List.filter fifo_store t = [].
Proof.
  induction answers as [| w answers IH]; intros r t rest; cbn [while_clear].
  - discriminate.
  - destruct (negb (tst (u32 w) mask)).
    + destruct (while_clear p mask answers) as [[[r' t'] rest'] |] eqn:Hrec;
        [ | discriminate ].
      intros H. injection H as <- <- <-. cbn [List.filter fifo_store].
      eapply IH. reflexivity.
    + intros H. injection H as <- <- <-. reflexivity.
Qed.

Lemma disable_in_eps_quiet rounds : forall ep answers r t rest,
  disable_in_eps rounds ep answers = Some (r, t, rest) ->
  List.filter fifo_store t = [].
Proof.
  induction rounds as [| rounds IH]; intros ep answers r t rest H;
    cbn [disable_in_eps] in H; [ discriminate | ].
  destruct (ep <=? MAX_NUM_IN_EPS); invert_runs; [ | reflexivity ].
  cbn [app List.filter fifo_store]. eapply IH. eassumption.
Qed.

Lemma disable_out_eps_quiet rounds : forall ep answers r t rest,
  disable_out_eps rounds ep answers = Some (r, t, rest) ->
  List.filter fifo_store t = [].
Proof.
  induction rounds as [| rounds IH]; intros ep answers r t rest H;
    cbn [disable_out_eps] in H; [ discriminate | ].
  destruct (ep <=? MAX_NUM_OUT_EPS); invert_runs; [ | reflexivity ].
  cbn [app List.filter fifo_store]. eapply IH. eassumption.
Qed.

Lemma filter_fifo_stores (f : nat -> Z) (g : nat -> Z) l :
  List.filter fifo_store (map (fun i => STORE (USB_DIEPTXFS (f i)) (g i)) l)
  = map (fun i => STORE (USB_DIEPTXFS (f i)) (g i)) l.
Proof.
  induction l as [| i l IH]; [ reflexivity | ].
  cbn [map List.filter fifo_store]. now rewrite IH.
Qed.

Lemma ends_with_refl {A} (l : list A) : exists before, l = before ++ l.
Proof. now exists []. Qed.

Lemma ends_with_app {A} (l0 l s : list A) :
  (exists before, l = before ++ s) -> exists before, l0 ++ l = before ++ s.
Proof. intros [b ->]. exists (l0 ++ b). apply app_assoc. Qed.

Ltac ends_with :=
  repeat first [ exact (ends_with_refl _) | apply ends_with_app ].

(** X17. The FIFO memory as [usb_core_init] lays it out, and what the
    function returns.  With at most 29 IN endpoints besides endpoint 0, a
    call that returns has stored 128 words for reception at address 0 and
    64 words for each transmit FIFO, one behind the other from address 128
    on, and has stored no FIFO size register a second time.  It returns 0
    if the device FIFO holds 384 words and the start of the last transmit
    FIFO lies within it, and then the last thing it did was to connect;
    else it returns -1 right after the FIFO registers are stored, without
    flushing, masking, disabling the endpoints or connecting. *)
Theorem usb_core_init_lays_out_the_FIFOs answers r t rest :
  0 <= MAX_NUM_IN_EPS <= 29 ->
  usb_core_init answers = Some (r, t, rest) ->
  List.filter fifo_store t = fifo_map (Z.to_nat MAX_NUM_IN_EPS)
  /\ if (384 <=? u32 MAX_DEVICE_FIFO_SIZE_INWORDS)
        && (128 + 64 * MAX_NUM_IN_EPS <=? u32 MAX_DEVICE_FIFO_SIZE_INWORDS)
     then r = 0
          /\ exists before v,
               t = before
                   ++ [LOAD USB_DCTL v;
                       STORE USB_DCTL
                         (u32 (andn v (Z.lor DCTL_WO_BITMASK USB_DCTL_SFTDISCON)))]
     else r = -1
          /\ exists before, t = before ++ fifo_map (Z.to_nat MAX_NUM_IN_EPS).
Proof.
  intros Hmax H. unfold usb_core_init in H.
  invert_runs.
  rewrite (tx_fifo_sizes_spec (Z.to_nat MAX_NUM_IN_EPS) 256 1 128) in H21 by lia.
  injection H21 as <- <- <-.
  rewrite Z2Nat.id in H by lia.
  assert (Hw1 := while_set_quiet _ _ _ _ _ _ H7).
  assert (Hw2 := while_clear_quiet _ _ _ _ _ _ H8).
  assert (Hmap : map (fun i => STORE (USB_DIEPTXFS (1 - 1 + Z.of_nat i))
                                     (fifo_word 64 (128 + 64 * (Z.of_nat i + 1))))
                     (seq 0 (Z.to_nat MAX_NUM_IN_EPS))
                 = map (fun k => STORE (USB_DIEPTXFS (Z.of_nat k))
                                       (fifo_word 64 (192 + 64 * Z.of_nat k)))
                       (seq 0 (Z.to_nat MAX_NUM_IN_EPS))).
  { apply map_ext. intros i. f_equal; f_equal; lia. }
  rewrite Hmap in *. clear Hmap.
  change (128 + 256) with 384 in H.
  destruct (Z.ltb_spec (u32 MAX_DEVICE_FIFO_SIZE_INWORDS) 384) as [Hsmall | Hbig].
  - replace (384 <=? u32 MAX_DEVICE_FIFO_SIZE_INWORDS) with false
      by (symmetry; apply Z.leb_gt; lia).
    cbn [andb]. invert_runs.
    split; [ | split; [ reflexivity | ] ].
    + rewrite ?List.filter_app, Hw1, Hw2. cbn [app List.filter fifo_store].
      rewrite filter_fifo_stores, app_nil_r. change (u32 128) with 128.
      rewrite fifo_word_lor by lia. reflexivity.
    + change (u32 128) with 128. rewrite fifo_word_lor by lia.
      rewrite app_nil_r. unfold fifo_map. ends_with.
  - replace (384 <=? u32 MAX_DEVICE_FIFO_SIZE_INWORDS) with true
      by (symmetry; apply Z.leb_le; lia).
    cbn [andb].
    destruct (Z.ltb_spec (u32 MAX_DEVICE_FIFO_SIZE_INWORDS) (128 + 64 * MAX_NUM_IN_EPS))
      as [Hsmall | Hfits].
    + replace (128 + 64 * MAX_NUM_IN_EPS <=? u32 MAX_DEVICE_FIFO_SIZE_INWORDS) with false
        by (symmetry; apply Z.leb_gt; lia).
      invert_runs.
      split; [ | split; [ reflexivity | ] ].
      * rewrite ?List.filter_app, Hw1, Hw2. cbn [app List.filter fifo_store].
        rewrite filter_fifo_stores, app_nil_r. change (u32 128) with 128.
        rewrite fifo_word_lor by lia. reflexivity.
      * change (u32 128) with 128. rewrite fifo_word_lor by lia.
        rewrite app_nil_r. unfold fifo_map. ends_with.
    + replace (128 + 64 * MAX_NUM_IN_EPS <=? u32 MAX_DEVICE_FIFO_SIZE_INWORDS) with true
        by (symmetry; apply Z.leb_le; lia).
      unfold efm32hg_flush_tx_fifo, efm32hg_flush_rx_fifo, efm32hg_connect in H.
      invert_runs.
      repeat match goal with
             | H : while_set _ _ _ = Some _ |- _ => apply while_set_quiet in H
             | H : while_clear _ _ _ = Some _ |- _ => apply while_clear_quiet in H
             | H : disable_in_eps _ _ _ = Some _ |- _ => apply disable_in_eps_quiet in H
             | H : disable_out_eps _ _ _ = Some _ |- _ => apply disable_out_eps_quiet in H
             end.
      split; [ | split; [ reflexivity | ] ].
      * rewrite ?List.filter_app.
        repeat match goal with
               | H : List.filter fifo_store _ = [] |- _ => rewrite H; clear H
               end.
        cbn [app List.filter fifo_store].
        rewrite filter_fifo_stores, app_nil_r. change (u32 128) with 128.
        rewrite fifo_word_lor by lia. reflexivity.
      * rewrite <- ?app_assoc.
        match goal with
        | |- exists before v, ?t = _ =>
          match t with
          | context [[LOAD USB_DCTL ?v]
                     ++ [STORE USB_DCTL (u32 (andn ?v (Z.lor _ _)))] ++ _] =>
            cut (exists before,
                    t = before
                        ++ [LOAD USB_DCTL v;
                            STORE USB_DCTL
                              (u32 (andn v (Z.lor DCTL_WO_BITMASK USB_DCTL_SFTDISCON)))]);
              [ intros [before Hb]; exists before, v; exact Hb | ]
          end
        end.
        rewrite app_nil_r. ends_with.
Qed.

(** *** The core initialisation returns, and what [usb_init] makes of it *)

Lemma tx_fifo_sizes_returns (j : nat) : forall rounds ep address depth answers,
  Z.of_nat j = MAX_NUM_IN_EPS + 1 - ep ->
  0 <= ep -> MAX_NUM_IN_EPS < 255 ->
  (j < rounds)%nat ->
  exists r t, tx_fifo_sizes rounds ep address depth answers = Some (r, t, answers).
Proof.
  induction j as [| j IH]; intros rounds ep address depth answers Hj Hep Hmax Hr;
    (destruct rounds as [| rounds]; [ lia | ]); cbn [tx_fifo_sizes].
  - replace (ep <=? MAX_NUM_IN_EPS) with false by (symmetry; apply Z.leb_gt; lia).
    now eexists _, _.
  - replace (ep <=? MAX_NUM_IN_EPS) with true by (symmetry; apply Z.leb_le; lia).
    assert (Hu8 : u8 (ep + 1) = ep + 1)
      by (apply Z.mod_small; change (2 ^ 8) with 256; lia).
    rewrite Hu8.
    destruct (IH rounds (ep + 1) (u32 (address + depth)) 64 answers)
      as (r & t & Hrec); try lia.
    erewrite bind_Some by reflexivity. rewrite Hrec. now eexists _, _.
Qed.

Lemma disable_in_eps_returns (j : nat) : forall rounds ep answers,
  Z.of_nat j = MAX_NUM_IN_EPS + 1 - ep ->
  0 <= ep -> MAX_NUM_IN_EPS < 255 ->
  (j < rounds)%nat ->
  exists t, disable_in_eps rounds ep answers = Some (tt, t, answers).
Proof.
  induction j as [| j IH]; intros rounds ep answers Hj Hep Hmax Hr;
    (destruct rounds as [| rounds]; [ lia | ]); cbn [disable_in_eps].
  - replace (ep <=? MAX_NUM_IN_EPS) with false by (symmetry; apply Z.leb_gt; lia).
    now eexists.
  - replace (ep <=? MAX_NUM_IN_EPS) with true by (symmetry; apply Z.leb_le; lia).
    assert (Hu8 : u8 (ep + 1) = ep + 1)
      by (apply Z.mod_small; change (2 ^ 8) with 256; lia).
    rewrite Hu8.
    destruct (IH rounds (ep + 1) answers) as (t & Hrec); try lia.
    do 3 (erewrite bind_Some by reflexivity). rewrite Hrec. now eexists.
Qed.

Lemma disable_out_eps_returns (j : nat) : forall rounds ep answers,
  Z.of_nat j = MAX_NUM_OUT_EPS + 1 - ep ->
  0 <= ep -> MAX_NUM_OUT_EPS < 255 ->
  (j < rounds)%nat ->
  exists t, disable_out_eps rounds ep answers = Some (tt, t, answers).
Proof.
  induction j as [| j IH]; intros rounds ep answers Hj Hep Hmax Hr;
    (destruct rounds as [| rounds]; [ lia | ]); cbn [disable_out_eps].
  - replace (ep <=? MAX_NUM_OUT_EPS) with false by (symmetry; apply Z.leb_gt; lia).
    now eexists.
  - replace (ep <=? MAX_NUM_OUT_EPS) with true by (symmetry; apply Z.leb_le; lia).
    assert (Hu8 : u8 (ep + 1) = ep + 1)
      by (apply Z.mod_small; change (2 ^ 8) with 256; lia).
    rewrite Hu8.
    destruct (IH rounds (ep + 1) answers) as (t & Hrec); try lia.
    do 3 (erewrite bind_Some by reflexivity). rewrite Hrec. now eexists.
Qed.

(** X18. On hardware that is ready at once [usb_core_init] returns: with
    fewer than 255 IN and OUT endpoints besides endpoint 0, it makes 13
    loads when it goes through to the connection and returns 0, and 10
    loads when the FIFO check fails and it returns -1. *)
Theorem usb_core_init_returns answers :
  Forall ready answers -> (13 <= length answers)%nat ->
  0 <= MAX_NUM_IN_EPS < 255 -> 0 <= MAX_NUM_OUT_EPS < 255 ->
  exists r t,
    usb_core_init answers
    = Some (r, t, skipn (if r =? 0 then 13 else 10) answers)
    /\ (r = 0 \/ r = -1).
Proof.
  intros Hready Hlen Hin Hout.
  do 13 (destruct answers as [| ? answers]; [ cbn in Hlen; lia | ]).
  clear Hlen.
  repeat match goal with
         | H : Forall ready (_ :: _) |- _ =>
           let R := fresh "R" in
           apply Forall_cons in H as [R H]; destruct R as (? & ? & ? & ?)
         end.
  destruct (tx_fifo_sizes_returns (Z.to_nat MAX_NUM_IN_EPS) 256 1 128 64
              (z9 :: z10 :: z11 :: answers)) as ([a d] & tf & Hf); try lia.
  destruct (disable_in_eps_returns (Z.to_nat (MAX_NUM_IN_EPS + 1)) 256 0
              (z11 :: answers)) as (ti & Hi); try lia.
  destruct (disable_out_eps_returns (Z.to_nat (MAX_NUM_OUT_EPS + 1)) 256 0
              (z11 :: answers)) as (to & Ho); try lia.
  cbv beta iota zeta delta
    [usb_core_init mbind mmio_bind load store while_set while_clear].
  repeat match goal with
         | H : tst _ _ = _ |- _ => rewrite H
         end.
  cbv beta iota zeta delta [negb mbind mmio_bind load store].
  rewrite Hf.
  destruct (u32 MAX_DEVICE_FIFO_SIZE_INWORDS <? 128 + 256).
  { eexists (-1), _. split; [ reflexivity | now right ]. }
  destruct (u32 MAX_DEVICE_FIFO_SIZE_INWORDS <? a).
  { eexists (-1), _. split; [ reflexivity | now right ]. }
  cbv beta iota zeta delta
    [efm32hg_flush_tx_fifo efm32hg_flush_rx_fifo efm32hg_connect
     mbind mmio_bind load store while_set while_clear].
  repeat match goal with
         | H : tst _ _ = _ |- _ => rewrite H
         end.
  cbv beta iota zeta delta [negb mbind mmio_bind load store].
  rewrite Hi. cbv beta iota zeta delta [negb mbind mmio_bind load store].
  rewrite Ho.
  eexists 0, _. split; [ reflexivity | now left ].
Qed.

Lemma usb_core_init_fails answers r t rest :
  u32 MAX_DEVICE_FIFO_SIZE_INWORDS < 384 ->
  usb_core_init answers = Some (r, t, rest) -> r = -1.
Proof.
  intros Hsmall H. unfold usb_core_init in H. invert_runs.
  match goal with H : (let '(_, _) := ?x in _) _ = Some _ |- _ => destruct x end.
  change (128 + 256) with 384 in H.
  replace (u32 MAX_DEVICE_FIFO_SIZE_INWORDS <? 384) with true in H
    by (symmetry; apply Z.ltb_lt; exact Hsmall).
  now invert_runs.
Qed.

(** X19. [usb_init] does not look at what [usb_core_init] returns.  When the
    device FIFO is too small for the layout, [usb_core_init] returns -1
    before it flushes, masks or connects, and [usb_init] goes on all the
    same: it sets the address 0 and unmasks the interrupts. *)
Theorem usb_init_goes_on_after_a_failed_core_init answers t rest :
  u32 MAX_DEVICE_FIFO_SIZE_INWORDS < 384 ->
  usb_init answers = Some (tt, t, rest) ->
  exists before core mid mid' v w,
    usb_core_init mid = Some (-1, core, mid')
    /\ t = before ++ [NVIC_EnableIRQ USB_IRQn] ++ core
           ++ [LOAD USB_DCFG v;
               STORE USB_DCFG
                 (u32 (Z.lor (andn v _USB_DCFG_DEVADDR_MASK) (Z.shiftl (u8 0) 4)));
               LOAD USB_GAHBCFG w;
               STORE USB_GAHBCFG (u32 (Z.lor w USB_GAHBCFG_GLBLINTRMSK));
               STORE USB_GINTMSK
                 (u32 (Z.lor (Z.lor (Z.lor USB_GINTMSK_USBRSTMSK
                                           USB_GINTMSK_ENUMDONEMSK)
                                    USB_GINTMSK_IEPINTMSK)
                             USB_GINTMSK_OEPINTMSK));
               STORE USB_DAINTMSK
                 (u32 (Z.lor USB_DAINTMSK_INEPMSK0 USB_DAINTMSK_OUTEPMSK0));
               STORE USB_DOEPMSK
                 (u32 (Z.lor (Z.lor USB_DOEPMSK_SETUPMSK USB_DOEPMSK_XFERCOMPLMSK)
                             USB_DOEPMSK_STSPHSERCVDMSK));
               STORE USB_DIEPMSK (u32 USB_DIEPMSK_XFERCOMPLMSK)].
Proof.
  intros Hsmall H. unfold usb_init, efm32hg_set_daddr, call_NVIC_EnableIRQ in H.
  invert_runs.
  match goal with
  | H : Some (_, [NVIC_EnableIRQ _], _) = Some _ |- _ => injection H as <- <- <-
  end.
  match goal with
  | H : usb_core_init _ = Some _ |- _ =>
    pose proof (usb_core_init_fails _ _ _ _ Hsmall H) as ->
  end.
  rewrite <- ?app_assoc.
  match goal with
  | H : usb_core_init ?mid = Some (-1, ?core, ?v :: ?w :: ?r) |- exists _, _ =>
    match goal with
    | |- exists before core' mid0 mid' v' w', _ /\ ?t = _ =>
      cut (exists before,
              t = before ++ [NVIC_EnableIRQ USB_IRQn] ++ core
                  ++ [LOAD USB_DCFG (u32 v);
                      STORE USB_DCFG
                        (u32 (Z.lor (andn (u32 v) _USB_DCFG_DEVADDR_MASK)
                                    (Z.shiftl (u8 0) 4)));
                      LOAD USB_GAHBCFG (u32 w);
                      STORE USB_GAHBCFG (u32 (Z.lor (u32 w) USB_GAHBCFG_GLBLINTRMSK));
                      STORE USB_GINTMSK
                        (u32 (Z.lor (Z.lor (Z.lor USB_GINTMSK_USBRSTMSK
                                                  USB_GINTMSK_ENUMDONEMSK)
                                           USB_GINTMSK_IEPINTMSK)
                                    USB_GINTMSK_OEPINTMSK));
                      STORE USB_DAINTMSK
                        (u32 (Z.lor USB_DAINTMSK_INEPMSK0 USB_DAINTMSK_OUTEPMSK0));
                      STORE USB_DOEPMSK
                        (u32 (Z.lor (Z.lor USB_DOEPMSK_SETUPMSK
                                           USB_DOEPMSK_XFERCOMPLMSK)
                                    USB_DOEPMSK_STSPHSERCVDMSK));
                      STORE USB_DIEPMSK (u32 USB_DIEPMSK_XFERCOMPLMSK)]);
        [ intros [before Hb];
          exists before, core, mid, (v :: w :: r), (u32 v), (u32 w);
          split; [ exact H | exact Hb ]
        | ]
    end
  end.
  ends_with.
Qed.

(** *** The stall of the engine, register by register *)

Lemma tsiz_word n : 0 <= n <= 64 ->
  u32 (Z.lor (Z.shiftl (u32 n) 0) (Z.shiftl 1 19)) = 524288 + n
  /\ Z.land (524288 + n) 127 = n
  /\ Z.shiftr (524288 + n) 19 = 1.
Proof.
  intros Hn.
  assert (Hu : u32 n = n) by (apply Z.mod_small; change (2 ^ 32) with 4294967296; lia).
  rewrite Hu, Z.shiftl_0_r. change (Z.shiftl 1 19) with 524288.
  assert (Hlor : Z.lor n 524288 = 524288 + n).
  { rewrite Z.add_comm, Z.add_nocarry_lor; [ reflexivity | ].
    apply Z.bits_inj'. intros i Hi. rewrite Z.land_spec, Z.bits_0.
    destruct (Z.ltb_spec i 7).
    - change 524288 with (1 * 2 ^ 19). rewrite Z.mul_pow2_bits_low by lia.
      apply andb_false_r.
    - rewrite (small_bit n 7) by (change (2 ^ 7) with 128; lia). reflexivity. }
  rewrite Hlor. split; [ apply Z.mod_small; change (2 ^ 32) with 4294967296; lia | ].
  split.
  - change 127 with (Z.ones 7). rewrite Z.land_ones by lia.
    change (2 ^ 7) with 128.
    replace (524288 + n) with (n + 4096 * 128) by lia.
    rewrite Z.mod_add by lia. apply Z.mod_small. lia.
  - rewrite Z.shiftr_div_pow2 by lia. change (2 ^ 19) with 524288.
    symmetry. apply Z.div_unique with (r := n); lia.
Qed.

Lemma stall_set_bits x :
  0 <= USB_DIEP_CTL_STALL < 2 ^ 32 ->
  Z.land (u32 (u32 (Z.lor x USB_DIEP_CTL_STALL))) USB_DIEP_CTL_STALL
  = USB_DIEP_CTL_STALL.
Proof.
  intros Hs. apply Z.bits_inj'. intros i Hi.
  rewrite Z.land_spec, !u32_bit, Z.lor_spec by exact Hi.
  destruct (Z.testbit USB_DIEP_CTL_STALL i) eqn:Hsi;
    [ | apply andb_false_r ].
  assert (Hi32 : i < 32).
  { destruct (Z.ltb_spec i 32); [ assumption | ].
    rewrite (small_bit USB_DIEP_CTL_STALL 32) in Hsi by lia. discriminate. }
  replace (i <? 32) with true by (symmetry; apply Z.ltb_lt; exact Hi32).
  now rewrite orb_true_r.
Qed.

(** X15. The stall of [usb_lld_ctrl_error] at the registers: the OUT stall,
    the IN stall and the re-arming take four loads.  The OUT control
    register is stored with STALL set.  The value left in the IN control
    register is derived from the second load of the OUT control register:
    it has STALL set if the hardware gives back what the OUT stall stored,
    and clear if the hardware gives back a value without STALL. *)
Theorem ctrl_error_at_the_registers v_out r_out v_in v_ctl answers :
  0 <= USB_DIEP_CTL_STALL < 2 ^ 32 ->
  Z.land USB_DIEP_CTL_STALL DEPCTL_WO_BITMASK = 0 ->
  Z.land USB_DIEP_CTL_STALL USB_DIEP_CTL_EPDIS = 0 ->
  Z.land (andn (u32 v_out) DEPCTL_WO_BITMASK) 0xC0000 <> USB_DOEP_CTL_EPTYPE_ISO ->
  Z.land (andn (u32 r_out) DEPCTL_WO_BITMASK) 0xC0000 <> USB_DIEP_CTL_EPTYPE_ISO ->
  let s_out := u32 (Z.lor (andn (u32 v_out) DEPCTL_WO_BITMASK) USB_DIEP_CTL_STALL) in
  exists ctl,
    driver_calls stall_and_rearm (v_out :: r_out :: v_in :: v_ctl :: answers)
    = Some (tt,
            [LOAD (USB_DOUTEPS_CTL 0) (u32 v_out);
             STORE (USB_DOUTEPS_CTL 0) s_out;
             LOAD (USB_DOUTEPS_CTL 0) (u32 r_out);
             LOAD (USB_DINEPS_CTL 0) (u32 v_in);
             STORE (USB_DINEPS_CTL 0) (u32 (Z.lor (u32 v_in) USB_DIEP_CTL_STALL));
             STORE (USB_DINEPS_CTL 0) ctl;
             STORE USB_DOEP0TSIZ 0x60080018;
             STORE USB_DOEP0DMAADDR (u32 ep0_setup_pkt_p);
             LOAD USB_DOEP0CTL (u32 v_ctl);
             STORE USB_DOEP0CTL
               (u32 (Z.lor (andn (u32 v_ctl) DEPCTL_WO_BITMASK) USB_DOEP0CTL_EPENA))],
            answers)
    /\ (r_out = s_out -> Z.land ctl USB_DIEP_CTL_STALL = USB_DIEP_CTL_STALL)
    /\ (Z.land (u32 r_out) USB_DIEP_CTL_STALL = 0 ->
        Z.land ctl USB_DIEP_CTL_STALL = 0).
Proof.
  intros Hs Hwo Hdis Hiso1 Hiso2 s_out.
  eexists. split; [ | split ].
  - cbv beta iota zeta delta
      [driver_calls driver_call stall_and_rearm ENDP0 efm32hg_ep_out_stall
       efm32hg_ep_in_stall efm32hg_prepare_ep0_setup mbind mmio_bind load].
    rewrite (proj2 (Z.eqb_neq _ _) Hiso1).
    cbv beta iota zeta delta [negb store mbind mmio_bind load].
    rewrite (proj2 (Z.eqb_neq _ _) Hiso2).
    reflexivity.
  - intros ->. rewrite in_stall_bits by assumption. subst s_out.
    now apply stall_set_bits.
  - intros H0. rewrite in_stall_bits by assumption. exact H0.
Qed.

End DriverProperties.

(** ** The engine's calls at the registers *)

Section EngineAtTheRegisters.

Context {DEVH : usb_dev_h} {MCU : mcu_h} {DESC : usb_desc_h}.
Context {B : Type} {DFU : dfu_h B}.
Context {DRV : Driver.mcu_h_driver}.
Import Driver.

(** X16. What the engine asks of the driver fits the transfer size
    registers: for every call that arms endpoint 0 in a run from power-on,
    the driver stores the transfer size register with the length in
    XFERSIZE, where [handle_datastage_out] reads it back with the mask
    0x7F, and a packet count of 1. *)
Theorem armed_lengths_fit_the_size_register es u b e v answers :
  0 <= LEN_BITS -> Forall sized es ->
  In e (trace (run es (power_on u b))) ->
  match e with
  | EP0_OUT buf n ep0mps =>
    exists ctl,
      driver_call e (v :: answers)
      = Some (tt, [STORE USB_DOEP0DMAADDR (u32 buf);
                   STORE USB_DOEP0TSIZ (524288 + n);
                   LOAD USB_DOEP0CTL (u32 v);
                   STORE USB_DOEP0CTL ctl], answers)
      /\ Z.land (524288 + n) 127 = n /\ Z.shiftr (524288 + n) 19 = 1
  | EP0_IN buf n ep0mps =>
    exists ctl,
      driver_call e (v :: answers)
      = Some (tt, [STORE USB_DIEP0DMAADDR (u32 buf);
                   STORE USB_DIEP0TSIZ (524288 + n);
                   LOAD USB_DIEP0CTL (u32 v);
                   STORE USB_DIEP0CTL ctl], answers)
      /\ Z.land (524288 + n) 127 = n /\ Z.shiftr (524288 + n) 19 = 1
  | _ => True
  end.
Proof.
  intros Hbits Hes Hin.
  pose proof (proj2 (run_packets_sound es (power_on u b) Hbits Hes
                      (power_on_packets_sound u b))) as Hall.
  rewrite List.Forall_forall in Hall. specialize (Hall e Hin).
  destruct e; try exact I; cbn [within_packet] in Hall;
    destruct Hall as [Hn _];
    destruct (tsiz_word _ Hn) as (Hw & Hx & Hp);
    eexists; (split; [ | split; [ exact Hx | exact Hp ] ]);
    cbv beta iota zeta delta
      [driver_call efm32hg_prepare_ep0_out efm32hg_prepare_ep0_in
       mbind mmio_bind load store];
    rewrite Hw; reflexivity.
Qed.

End EngineAtTheRegisters.

(** ** On the board: the properties at concrete inputs *)

Section OnTheBoard.

Import Board.

Local Existing Instance Board.usb_dev.
Local Existing Instance Board.mcu.
Local Existing Instance Board.usb_desc.
Local Existing Instance Board.accepting.

Lemma wIndex_nonzero_stalls_only_witness :
  index0_only 0x0082 /\ 0 < 1
  /\ state (dev (usb_setup (asked (request 0x0082 0 1 2)))) = WAIT_SETUP
  /\ trace (usb_setup (asked (request 0x0082 0 1 2)))
     = [OUT_STALL 0; IN_STALL 0; EP0_SETUP].
Proof.
  assert (H1 : index0_only 0x0082) by (left; reflexivity).
  assert (H2 : 0 < 1) by reflexivity.
  split; [ exact H1 | split; [ exact H2 | ] ].
  rewrite (wIndex_nonzero_stalls_only (asked (request 0x0082 0 1 2)) H1 H2).
  split; reflexivity.
Defined.

(** C1, against the code: a SETUP that is not a DFU_DNLOAD, arriving in the
    middle of a download (the pipe in OUT_DATA, the cursor at 64), leaves the
    cursor at 64; and after a 64-byte download, SET_CONFIGURATION, a no-data
    transfer, runs to its end (the pipe back in WAIT_SETUP) with the cursor
    still at 64. *)
Lemma ep0_rx_offset_survives_SETUP_and_no_data_transfer :
  state (dev (go [SETUP (download 0 200); OUT_COMPLETE 64] boot))
  = OUT_DATA
  /\ ep0_rx_offset
       (go [SETUP (download 0 200); OUT_COMPLETE 64;
                  SETUP (request 0x0080 0 0 2)] boot) = 64
  /\ state (dev (go [SETUP (download 0 64); OUT_COMPLETE 64; IN_COMPLETE;
                           SETUP (request 0x0900 1 0 0); IN_COMPLETE]
                          boot)) = WAIT_SETUP
  /\ ep0_rx_offset
       (go [SETUP (download 0 64); OUT_COMPLETE 64; IN_COMPLETE;
                  SETUP (request 0x0900 1 0 0); IN_COMPLETE]
                 boot) = 64.
Proof. vm_compute. repeat split. Qed.

Lemma ep0_rx_offset_reset_witness :
  state (dev (go download_then_read boot)) = WAIT_STATUS_OUT
  /\ ep0_rx_offset (go download_then_read boot) = 64
  /\ ep0_rx_offset (handle_out0 (go download_then_read boot)) = 0
  /\ state (dev (handle_out0 (go download_then_read boot))) = WAIT_SETUP.
Proof.
  assert (H : state (dev (go download_then_read boot)) = WAIT_STATUS_OUT)
    by (vm_compute; reflexivity).
  destruct (ep0_rx_offset_reset_only_after_control_read
              (go download_then_read boot)) as [Hreset _].
  destruct (Hreset H) as [H0 H1].
  split; [ exact H | split; [ vm_compute; reflexivity | split; [ exact H0 | exact H1 ] ] ].
Defined.

(** C2, at a failing input. Scenario B leaves the cursor at 200; the next
    block, 64 bytes, is set up without a control READ in between. When its
    OUT packet completes the cursor is beyond wLength, yet the pipe is not
    stalled: the backend is called with offset 200 and length 64, and the
    cursor moves on to 264. *)
Lemma stale_cursor_beyond_wLength_is_not_refused :
  state (dev (go next_block boot)) = OUT_DATA
  /\ ep0_rx_offset (go next_block boot) = 200
  /\ wLength (last_setup (go next_block boot)) = 64
  /\ trace (go (next_block ++ [OUT_COMPLETE 64]) boot)
     = trace (go next_block boot)
       ++ [BKPT 93; EP0_SETUP; EP0_IN NULL 0 0;
           DFU_DOWNLOAD 1 64 200 64 (rx_buffer + 64) true;
           EP0_SETUP; EP0_IN NULL 0 0]
  /\ ep0_rx_offset (go (next_block ++ [OUT_COMPLETE 64]) boot) = 264.
Proof. vm_compute. repeat split. Qed.

Lemma exactly_64_bytes_witness :
  Z.land (DIEP0CTL (USB (asked (request 0x0680 0x0300 0 255)))) 3 = 0
  /\ Z.land (DOEP0CTL (USB (asked (request 0x0680 0x0300 0 255)))) 3 = 0
  /\ 16 <= LEN_BITS
  /\ 64 <= wLength (dev_req (dev (asked (request 0x0680 0x0300 0 255)))) < 2 ^ 16
  /\ (3 <= 3)%nat
  /\ exists l,
       trace (in_data_phase 3
                (usb_lld_ctrl_send 0x4000 64 (asked (request 0x0680 0x0300 0 255))))
       = trace (asked (request 0x0680 0x0300 0 255)) ++ l
       /\ state (dev (in_data_phase 3
                (usb_lld_ctrl_send 0x4000 64 (asked (request 0x0680 0x0300 0 255)))))
          = WAIT_STATUS_OUT
       /\ in_packets l = [64; 0; 0].
Proof.
  assert (H1 : Z.land (DIEP0CTL (USB (asked (request 0x0680 0x0300 0 255)))) 3 = 0)
    by reflexivity.
  assert (H2 : Z.land (DOEP0CTL (USB (asked (request 0x0680 0x0300 0 255)))) 3 = 0)
    by reflexivity.
  assert (H3 : 16 <= LEN_BITS) by (vm_compute; discriminate).
  assert (H4 : 64 <= wLength (dev_req (dev (asked (request 0x0680 0x0300 0 255)))) < 2 ^ 16)
    by (vm_compute; split; [ discriminate | reflexivity ]).
  assert (H5 : (3 <= 3)%nat) by apply le_n.
  repeat (split; [ assumption | ]).
  exact (exactly_64_bytes_arm_two_zero_length_packets _ 0x4000 3 H1 H2 H3 H4 H5).
Defined.

Lemma control_send_packets_witness :
  Z.land (DIEP0CTL (USB (asked (request 0x0680 0x0100 0 64)))) 3 = 0
  /\ Z.land (DOEP0CTL (USB (asked (request 0x0680 0x0100 0 64)))) 3 = 0
  /\ 16 <= LEN_BITS
  /\ 0 <= wLength (dev_req (dev (asked (request 0x0680 0x0100 0 64)))) < 2 ^ 16
  /\ 0 <= 18 < 2 ^ LEN_BITS
  /\ (Z.to_nat (Z.min 18 (wLength (dev_req (dev (asked (request 0x0680 0x0100 0 64))))))
      + 3 <= 21)%nat
  /\ exists l,
       trace (in_data_phase 21
                (usb_lld_ctrl_send 0x4000 18 (asked (request 0x0680 0x0100 0 64))))
       = trace (asked (request 0x0680 0x0100 0 64)) ++ l
       /\ state (dev (in_data_phase 21
                (usb_lld_ctrl_send 0x4000 18 (asked (request 0x0680 0x0100 0 64)))))
          = WAIT_STATUS_OUT
       /\ sum_of (in_packets l) = 18
       /\ chunked 18 (in_packets l).
Proof.
  assert (H1 : Z.land (DIEP0CTL (USB (asked (request 0x0680 0x0100 0 64)))) 3 = 0)
    by reflexivity.
  assert (H2 : Z.land (DOEP0CTL (USB (asked (request 0x0680 0x0100 0 64)))) 3 = 0)
    by reflexivity.
  assert (H3 : 16 <= LEN_BITS) by (vm_compute; discriminate).
  assert (H4 : 0 <= wLength (dev_req (dev (asked (request 0x0680 0x0100 0 64)))) < 2 ^ 16)
    by (vm_compute; split; [ discriminate | reflexivity ]).
  assert (H5 : 0 <= 18 < 2 ^ LEN_BITS)
    by (vm_compute; split; [ discriminate | reflexivity ]).
  assert (H6 : (Z.to_nat (Z.min 18 (wLength (dev_req (dev (asked (request 0x0680 0x0100 0 64))))))
                + 3 <= 21)%nat) by (vm_compute; apply le_n).
  repeat (split; [ assumption | ]).
  exact (control_send_packets_sum_to_min _ 0x4000 18 21 H1 H2 H3 H4 H5 H6).
Defined.


(** C6, at a failing input. DFU_DNLOAD with wLength = 0 and wIndex = 0, the
    backend accepting: the zero-byte block is passed to the backend, and
    then, instead of the acknowledgement, an OUT reception of 0 bytes is
    armed and the pipe is left in OUT_DATA; no zero-length IN is armed. With
    a backend that rejects, the dispatcher stalls. *)
Lemma zero_length_DNLOAD_arms_OUT :
  trace (usb_setup (asked (download 0 0)))
  = [DFU_DOWNLOAD 0 0 0 0 NULL true; EP0_OUT rx_buffer 0 0]
  /\ state (dev (usb_setup (asked (download 0 0)))) = OUT_DATA
  /\ count is_zero_in (trace (usb_setup (asked (download 0 0)))) = 0%nat
  /\ trace (usb_setup (DFU := rejecting) (asked (download 0 0)))
     = [DFU_DOWNLOAD 0 0 0 0 NULL false; OUT_STALL 0; IN_STALL 0; EP0_SETUP]
  /\ state (dev (usb_setup (DFU := rejecting) (asked (download 0 0))))
     = WAIT_SETUP.
Proof. vm_compute. repeat split. Qed.

Lemma error_paths_witness :
  supported_request (wRequestAndType (dev_req (dev (asked (request 0x1234 0 0 0)))))
  = false
  /\ trace (usb_setup (asked (request 0x1234 0 0 0))) = stall_and_rearm
  /\ state (dev (usb_setup (asked (request 0x1234 0 0 0)))) = WAIT_SETUP.
Proof.
  assert (Hu : supported_request
                 (wRequestAndType (dev_req (dev (asked (request 0x1234 0 0 0)))))
               = false) by (vm_compute; reflexivity).
  destruct (error_paths_rest_in_WAIT_SETUP (asked (request 0x1234 0 0 0)))
    as (_ & Hh & Hunknown & _).
  split; [ exact Hu | ]. split; [ exact (Hunknown Hu) | ].
  destruct (Hh usb_setup (or_introl eq_refl)) as (_ & l & Ht & _ & Hl).
  rewrite (Hunknown Hu) in Ht. apply app_inv_head in Ht. subst l.
  exact (proj1 (Hl eq_refl)).
Defined.

(** C8, against the code: a block of 200 bytes set up when the cursor has
    not been reset.  Block 0 runs as Scenario B says: four chunk calls at
    offsets 0, 64, 128, 192 and one zero-length IN.  It leaves the cursor
    at 200, and no control READ follows.  Of the four packets of block 1
    the first gives the only chunk call, at offset 200 with length 0, and
    the acknowledgement; the others, whatever DOEP0TSIZ shows for them,
    find the pipe past its data stage and get the stall. *)
Lemma round_trip_fails_on_a_stale_cursor :
  chunk_calls (trace (take [64; 64; 64; 8] (go [SETUP (download 0 200)] boot)))
  = [(0, 200, 0, 64); (0, 200, 64, 64); (0, 200, 128, 64); (0, 200, 192, 8)]
  /\ count is_zero_in
       (trace (take [64; 64; 64; 8] (go [SETUP (download 0 200)] boot))) = 1%nat
  /\ state (dev block_1_set_up) = OUT_DATA
  /\ ep0_rx_offset block_1_set_up = 200
  /\ trace (take [64] block_1_set_up)
     = trace block_1_set_up
       ++ [EP0_OUT rx_buffer 64 0;
           DFU_DOWNLOAD 1 200 200 0 rx_buffer true;
           EP0_SETUP; EP0_IN NULL 0 0]
  /\ state (dev (take [64] block_1_set_up)) = WAIT_STATUS_IN
  /\ forall tsiz2 tsiz3 tsiz4,
       trace (go [OUT_COMPLETE tsiz2; OUT_COMPLETE tsiz3; OUT_COMPLETE tsiz4]
                 (take [64] block_1_set_up))
       = trace (take [64] block_1_set_up) ++ [OUT_STALL 0; IN_STALL 0; EP0_SETUP].
Proof.
  do 6 (split; [ vm_compute; reflexivity | ]).
  intros tsiz2 tsiz3 tsiz4. vm_compute. reflexivity.
Qed.

Lemma dnload_round_trip_witness :
  accepts_chunks /\ EP0_SIZE = 64 /\ 16 <= LEN_BITS
  /\ Z.land (DIEP0CTL (USB boot)) 3 = 0
  /\ ep0_rx_offset boot = 0
  /\ 1 <= 200 < 2 ^ 16
  /\ exists l,
       trace (receive_all (out_packets (packets_for 200) 200)
                (deliver (SETUP (download 0 200)) boot))
       = trace boot ++ l
       /\ chunk_calls l = expected_chunks 0 200 0 (packets_for 200)
       /\ length (chunk_calls l) = packets_for 200
       /\ sum_of (map chunk_length (chunk_calls l)) = 200
       /\ state (dev (receive_all (out_packets (packets_for 200) 200)
                        (deliver (SETUP (download 0 200)) boot)))
          = WAIT_STATUS_IN
       /\ ep0_rx_offset (receive_all (out_packets (packets_for 200) 200)
                           (deliver (SETUP (download 0 200)) boot)) = 200
       /\ count is_zero_in l = 1%nat
       /\ count is_bkpt l = 0%nat
       /\ exists l1 c, l = l1 ++ [c; EP0_SETUP; EP0_IN NULL 0 0]
                       /\ is_chunk_call c = true.
Proof.
  assert (H1 : accepts_chunks) by (intros ? ? ? ? ? ?; reflexivity).
  assert (H2 : EP0_SIZE = 64) by reflexivity.
  assert (H3 : 16 <= LEN_BITS) by (vm_compute; discriminate).
  assert (H4 : Z.land (DIEP0CTL (USB boot)) 3 = 0) by reflexivity.
  assert (H5 : ep0_rx_offset boot = 0) by reflexivity.
  assert (H6 : 1 <= 200 < 2 ^ 16)
    by (vm_compute; split; [ discriminate | reflexivity ]).
  split; [ exact H1 | ]. split; [ exact H2 | ]. split; [ exact H3 | ].
  split; [ exact H4 | ]. split; [ exact H5 | ]. split; [ exact H6 | ].
  exact (dnload_round_trip boot 0 200 H1 H2 H3 H4 H5 H6).
Defined.

(** C9, at two failing inputs. A reply of 100 bytes at an address that is not
    4-byte aligned, for a request of 8 bytes: the length to send is clamped
    to 8, which lets the reply through to the 64-byte staging buffer, and
    the copy is of the caller's 100 bytes. A download of 128 bytes: after
    the first 64 bytes the next reception of 64 bytes is armed at
    rx_buffer + 64, the end of the 64-byte receive buffer. *)
Lemma writes_beyond_the_static_buffers :
  trace (usb_lld_ctrl_send 0x4001 100 (asked (request 0x0680 0x0300 0 8)))
  = [MEMCPY ctrl_send_buf 0x4001 100; EP0_IN ctrl_send_buf 8 0]
  /\ USB_MAX_PACKET_SIZE < 100
  /\ trace (go [SETUP (download 0 128); OUT_COMPLETE 64] boot)
     = [EP0_OUT rx_buffer 64 0;
        EP0_OUT (rx_buffer + 64) 64 0;
        DFU_DOWNLOAD 0 128 0 64 (rx_buffer + 64) true].
Proof. vm_compute. repeat split. Qed.

Lemma OUT0_ignored_witness :
  state (dev stray_out0) = WAIT_SETUP
  /\ tst (Z.land (GINTSTS (USB stray_out0)) (GINTMSK (USB stray_out0)))
         USB_GINTSTS_OEPINT = true
  /\ tst (Z.land (USB_DOUTEPS_INT (USB stray_out0) 0) (DOEPMSK (USB stray_out0)))
         USB_DOEP_INT_XFERCOMPL = true
  /\ tst (Z.land (USB_DOUTEPS_INT (USB stray_out0) 0) (DOEPMSK (USB stray_out0)))
         USB_DOEP0INT_SETUP = false
  /\ exists l,
       only_emits stray_out0 (USB_Handler stray_out0) l
       /\ forallb acknowledges_OUT0 l = true.
Proof.
  repeat (split; [ reflexivity | ]).
  apply (OUT0_without_SETUP_ignored_in_WAIT_SETUP stray_out0); reflexivity.
Defined.

(** *** The further properties, at concrete inputs *)

Local Existing Instance Board.driver.

Lemma configuration_round_trip_witness :
  Forall (fun e => sets_configuration e = false) [IN_COMPLETE]
  /\ wRequestAndType (request 0x0880 0 0 1) = 0x0880
  /\ 1 <= wLength (request 0x0880 0 0 1)
  /\ 1 <= LEN_BITS
  /\ reply_buffer_p <> NULL
  /\ usb_configuration (run (SETUP (request 0x0900 1 0 0) :: [IN_COMPLETE]) boot)
     = u8 1
  /\ reply_buffer (deliver (SETUP (request 0x0880 0 0 1))
                     (run (SETUP (request 0x0900 1 0 0) :: [IN_COMPLETE]) boot))
     = <[0%nat := u8 1]>
         (reply_buffer (run (SETUP (request 0x0900 1 0 0) :: [IN_COMPLETE]) boot))
  /\ exists l,
       trace (deliver (SETUP (request 0x0880 0 0 1))
                (run (SETUP (request 0x0900 1 0 0) :: [IN_COMPLETE]) boot))
       = trace (run (SETUP (request 0x0900 1 0 0) :: [IN_COMPLETE]) boot) ++ l
       /\ in_packets l = [1].
Proof.
  assert (H1 : Forall (fun e => sets_configuration e = false) [IN_COMPLETE])
    by (repeat constructor).
  assert (H2 : wRequestAndType (request 0x0880 0 0 1) = 0x0880) by reflexivity.
  assert (H3 : 1 <= wLength (request 0x0880 0 0 1)) by (vm_compute; discriminate).
  assert (H4 : 1 <= LEN_BITS) by (vm_compute; discriminate).
  assert (H5 : reply_buffer_p <> NULL) by (vm_compute; discriminate).
  repeat (split; [ assumption | ]).
  exact (configuration_round_trip 1 0 0 [IN_COMPLETE] (request 0x0880 0 0 1) boot
           H1 H2 H3 H4 H5).
Defined.

Lemma GET_DESCRIPTOR_unknown_is_refused_witness :
  Forall (fun e => d_wValue e <> wValue (dev_req (dev (asked (request 0x0680 0x0200 0 9)))))
         (reachable_entries usb_descriptor_list)
  /\ trace (usb_setup (asked (request 0x0680 0x0200 0 9))) = stall_and_rearm
  /\ state (dev (usb_setup (asked (request 0x0680 0x0200 0 9)))) = WAIT_SETUP.
Proof.
  assert (H1 : Forall (fun e => d_wValue e
                        <> wValue (dev_req (dev (asked (request 0x0680 0x0200 0 9)))))
                      (reachable_entries usb_descriptor_list))
    by (repeat constructor; vm_compute; discriminate).
  split; [ exact H1 | ].
  exact (proj2 (GET_DESCRIPTOR_unknown_is_refused
                  (asked (request 0x0680 0x0200 0 9)) (or_introl eq_refl) H1)).
Defined.

Lemma GET_DESCRIPTOR_replies_with_the_first_match_witness :
  reachable_entries usb_descriptor_list
  = [] ++ {| d_wValue := 0x0100; d_addr := 0x4000; d_length := 18 |} :: []
  /\ usb_setup (asked (request 0x0681 0x0100 0 18))
     = send 0x4000 18
         (set_last_setup (request 0x0681 0x0100 0 18)
            (asked (request 0x0681 0x0100 0 18))).
Proof.
  assert (H1 : reachable_entries usb_descriptor_list
               = [] ++ {| d_wValue := 0x0100; d_addr := 0x4000; d_length := 18 |}
                       :: []) by reflexivity.
  split; [ exact H1 | ].
  exact (GET_DESCRIPTOR_replies_with_the_first_match
           (asked (request 0x0681 0x0100 0 18)) [] _ []
           (or_intror eq_refl) H1 (List.Forall_nil _) eq_refl).
Defined.

Lemma USB_Handler_serves_endpoint_0_witness :
  USB_Handler stray_in0
  = deliver IN_COMPLETE
      (emit (STORE (R_DINEPS_INT 0) USB_DIEP_INT_XFERCOMPL) stray_in0)
  /\ USB_Handler stray_out0
     = deliver (OUT_COMPLETE (DOEP0TSIZ (USB stray_out0)))
         (emit (STORE (R_DOUTEPS_INT 0) USB_DOEP0INT_STUPPKTRCVD)
               (emit (STORE (R_DOUTEPS_INT 0) USB_DOEP_INT_XFERCOMPL) stray_out0))
  /\ USB_Handler setup_pending
     = deliver (SETUP (ep0_setup_pkt setup_pending
                         (setup_slot (DOEP0TSIZ (USB setup_pending)))))
         (emit (STORE R_DOEP0INT USB_DOEP0INT_SETUP) setup_pending).
Proof.
  split; [ | split ].
  - apply (proj1 (USB_Handler_serves_endpoint_0 stray_in0));
      [ repeat split | reflexivity ].
  - apply (proj1 (proj2 (USB_Handler_serves_endpoint_0 stray_out0)));
      [ repeat split | reflexivity .. ].
  - apply (proj2 (proj2 (USB_Handler_serves_endpoint_0 setup_pending)));
      [ repeat split | reflexivity .. ].
Defined.

Lemma every_armed_packet_fits_witness :
  0 <= LEN_BITS /\ Forall sized scenario_B
  /\ Forall within_packet (trace (run scenario_B (power_on idle tt))).
Proof.
  assert (H1 : 0 <= LEN_BITS) by (vm_compute; discriminate).
  assert (H2 : Forall sized scenario_B)
    by (repeat (constructor; [ first [ exact I | vm_compute; discriminate ] | ]);
        constructor).
  split; [ exact H1 | split; [ exact H2 | ] ].
  exact (every_armed_packet_fits scenario_B idle tt H1 H2).
Defined.

Lemma control_read_round_trip_witness :
  Z.land (DIEP0CTL (USB (asked (request 0x0680 0x0100 0 64)))) 3 = 0
  /\ Z.land (DOEP0CTL (USB (asked (request 0x0680 0x0100 0 64)))) 3 = 0
  /\ 16 <= LEN_BITS
  /\ 0 <= wLength (dev_req (dev (asked (request 0x0680 0x0100 0 64)))) < 2 ^ 16
  /\ 0 <= 18 < 2 ^ LEN_BITS
  /\ state (dev (run (repeat IN_COMPLETE
                        (length (armed_in_packets
                           (Z.min 18 (wLength (dev_req (dev
                              (asked (request 0x0680 0x0100 0 64))))))))
                      ++ [OUT_COMPLETE 0])
                     (usb_lld_ctrl_send 0x4000 18
                        (asked (request 0x0680 0x0100 0 64)))))
     = WAIT_SETUP.
Proof.
  assert (H1 : Z.land (DIEP0CTL (USB (asked (request 0x0680 0x0100 0 64)))) 3 = 0)
    by reflexivity.
  assert (H2 : Z.land (DOEP0CTL (USB (asked (request 0x0680 0x0100 0 64)))) 3 = 0)
    by reflexivity.
  assert (H3 : 16 <= LEN_BITS) by (vm_compute; discriminate).
  assert (H4 : 0 <= wLength (dev_req (dev (asked (request 0x0680 0x0100 0 64)))) < 2 ^ 16)
    by (vm_compute; split; [ discriminate | reflexivity ]).
  assert (H5 : 0 <= 18 < 2 ^ LEN_BITS)
    by (vm_compute; split; [ discriminate | reflexivity ]).
  repeat (split; [ assumption | ]).
  exact (proj1 (control_read_round_trip (asked (request 0x0680 0x0100 0 64))
                  0x4000 18 0 H1 H2 H3 H4 H5)).
Defined.

Lemma rejected_chunk_keeps_the_cursor_witness :
  state (dev (go [SETUP (download 0 200)] boot)) = OUT_DATA
  /\ wRequestAndType (last_setup (go [SETUP (download 0 200)] boot)) = 0x0121
  /\ wIndex (last_setup (go [SETUP (download 0 200)] boot)) = 0
  /\ chunk_rejected (DFU := rejecting) (go [SETUP (download 0 200)] boot)
  /\ ep0_rx_offset (handle_out0 (DFU := rejecting) (go [SETUP (download 0 200)] boot))
     = ep0_rx_offset (go [SETUP (download 0 200)] boot)
  /\ state (dev (handle_out0 (DFU := rejecting) (go [SETUP (download 0 200)] boot)))
     = WAIT_SETUP.
Proof.
  assert (H1 : state (dev (go [SETUP (download 0 200)] boot)) = OUT_DATA)
    by (vm_compute; reflexivity).
  assert (H2 : wRequestAndType (last_setup (go [SETUP (download 0 200)] boot))
               = 0x0121) by (vm_compute; reflexivity).
  assert (H3 : wIndex (last_setup (go [SETUP (download 0 200)] boot)) = 0)
    by (vm_compute; reflexivity).
  assert (H4 : chunk_rejected (DFU := rejecting) (go [SETUP (download 0 200)] boot))
    by reflexivity.
  split; [ exact H1 | split; [ exact H2 | split; [ exact H3 | split; [ exact H4 | ] ] ] ].
  destruct (rejected_chunk_keeps_the_cursor (DFU := rejecting)
              (go [SETUP (download 0 200)] boot) H1 H2 H3 H4) as (Hoff & Hst & _).
  split; [ exact Hoff | exact Hst ].
Defined.


Lemma offset_check_of_handle_out0_is_dead_witness :
  Forall from_the_wire [SETUP (download 0 200); OUT_COMPLETE 64]
  /\ state (dev (run [SETUP (download 0 200); OUT_COMPLETE 64] (power_on idle tt)))
     = OUT_DATA
  /\ negb (wIndex (last_setup (run [SETUP (download 0 200); OUT_COMPLETE 64]
                                   (power_on idle tt))) =? 0)
     && (wLength (last_setup (run [SETUP (download 0 200); OUT_COMPLETE 64]
                                  (power_on idle tt)))
         <? ep0_rx_offset (run [SETUP (download 0 200); OUT_COMPLETE 64]
                               (power_on idle tt))) = false.
Proof.
  assert (H1 : Forall from_the_wire [SETUP (download 0 200); OUT_COMPLETE 64])
    by (repeat (constructor; [ first [ exact I | vm_compute; discriminate ] | ]);
        constructor).
  assert (H2 : state (dev (run [SETUP (download 0 200); OUT_COMPLETE 64]
                               (power_on idle tt))) = OUT_DATA)
    by (vm_compute; reflexivity).
  split; [ exact H1 | split; [ exact H2 | ] ].
  exact (offset_check_of_handle_out0_is_dead _ idle tt H1 H2).
Defined.

Lemma set_daddr_writes_the_address_field_witness :
  Driver._USB_DCFG_DEVADDR_MASK = 0x7F0 /\ 0 <= 5 < 256
  /\ exists s,
       Driver.efm32hg_set_daddr 5 (0x0803 :: [])
       = Some (tt, [Driver.LOAD Driver.USB_DCFG (u32 0x0803);
                    Driver.STORE Driver.USB_DCFG s], [])
       /\ (5 < 128 ->
           Z.land s 0x7F0 = Z.shiftl 5 4
           /\ Driver.andn s 0x7F0 = Driver.andn (u32 0x0803) 0x7F0)
       /\ (128 <= 5 -> Z.testbit s 11 = true).
Proof.
  assert (H1 : Driver._USB_DCFG_DEVADDR_MASK = 0x7F0) by reflexivity.
  assert (H2 : 0 <= 5 < 256) by (vm_compute; split; [ discriminate | reflexivity ]).
  split; [ exact H1 | split; [ exact H2 | ] ].
  exact (set_daddr_writes_the_address_field 5 0x0803 [] H1 H2).
Defined.

Lemma ep_in_stall_stores_the_OUT_register_witness :
  0 <= USB_DIEP_CTL_STALL < 2 ^ 32
  /\ Z.land USB_DIEP_CTL_STALL Driver.DEPCTL_WO_BITMASK = 0
  /\ Z.land USB_DIEP_CTL_STALL Driver.USB_DIEP_CTL_EPDIS = 0
  /\ Z.land (Driver.andn (u32 0x8000) Driver.DEPCTL_WO_BITMASK) 0xC0000
     <> Driver.USB_DIEP_CTL_EPTYPE_ISO
  /\ exists ctl,
       Driver.efm32hg_ep_in_stall 0 (0x8000 :: 0x8000 :: [])
       = Some (tt, [Driver.LOAD (Driver.USB_DOUTEPS_CTL 0) (u32 0x8000);
                    Driver.LOAD (Driver.USB_DINEPS_CTL 0) (u32 0x8000);
                    Driver.STORE (Driver.USB_DINEPS_CTL 0)
                      (u32 (Z.lor (u32 0x8000) USB_DIEP_CTL_STALL));
                    Driver.STORE (Driver.USB_DINEPS_CTL 0) ctl],
               [])
       /\ Z.land ctl USB_DIEP_CTL_STALL = Z.land (u32 0x8000) USB_DIEP_CTL_STALL.
Proof.
  assert (H1 : 0 <= USB_DIEP_CTL_STALL < 2 ^ 32)
    by (vm_compute; split; [ discriminate | reflexivity ]).
  assert (H2 : Z.land USB_DIEP_CTL_STALL Driver.DEPCTL_WO_BITMASK = 0) by reflexivity.
  assert (H3 : Z.land USB_DIEP_CTL_STALL Driver.USB_DIEP_CTL_EPDIS = 0) by reflexivity.
  assert (H4 : Z.land (Driver.andn (u32 0x8000) Driver.DEPCTL_WO_BITMASK) 0xC0000
               <> Driver.USB_DIEP_CTL_EPTYPE_ISO) by (vm_compute; discriminate).
  repeat (split; [ assumption | ]).
  exact (ep_in_stall_stores_the_OUT_register 0 0x8000 0x8000 [] H1 H2 H3 H4).
Defined.

Lemma ctrl_error_at_the_registers_witness :
  0 <= USB_DIEP_CTL_STALL < 2 ^ 32
  /\ Z.land USB_DIEP_CTL_STALL Driver.DEPCTL_WO_BITMASK = 0
  /\ Z.land USB_DIEP_CTL_STALL Driver.USB_DIEP_CTL_EPDIS = 0
  /\ Z.land (Driver.andn (u32 0x8000) Driver.DEPCTL_WO_BITMASK) 0xC0000
     <> Driver.USB_DOEP_CTL_EPTYPE_ISO
  /\ Z.land (Driver.andn (u32 0x208000) Driver.DEPCTL_WO_BITMASK) 0xC0000
     <> Driver.USB_DIEP_CTL_EPTYPE_ISO
  /\ exists t,
       driver_calls stall_and_rearm (0x8000 :: 0x208000 :: 0x8000 :: 0x8000 :: [])
       = Some (tt, t, []).
Proof.
  assert (H1 : 0 <= USB_DIEP_CTL_STALL < 2 ^ 32)
    by (vm_compute; split; [ discriminate | reflexivity ]).
  assert (H2 : Z.land USB_DIEP_CTL_STALL Driver.DEPCTL_WO_BITMASK = 0) by reflexivity.
  assert (H3 : Z.land USB_DIEP_CTL_STALL Driver.USB_DIEP_CTL_EPDIS = 0) by reflexivity.
  assert (H4 : Z.land (Driver.andn (u32 0x8000) Driver.DEPCTL_WO_BITMASK) 0xC0000
               <> Driver.USB_DOEP_CTL_EPTYPE_ISO) by (vm_compute; discriminate).
  assert (H5 : Z.land (Driver.andn (u32 0x208000) Driver.DEPCTL_WO_BITMASK) 0xC0000
               <> Driver.USB_DIEP_CTL_EPTYPE_ISO) by (vm_compute; discriminate).
  repeat (split; [ assumption | ]).
  destruct (ctrl_error_at_the_registers 0x8000 0x208000 0x8000 0x8000 []
              H1 H2 H3 H4 H5) as (ctl & Hrun & _).
  eexists. exact Hrun.
Defined.

Lemma armed_lengths_fit_the_size_register_witness :
  0 <= LEN_BITS /\ Forall sized scenario_B
  /\ In (EP0_OUT rx_buffer 64 0) (trace (run scenario_B (power_on idle tt)))
  /\ exists ctl,
       driver_call (EP0_OUT rx_buffer 64 0) (0x8000 :: [])
       = Some (tt, [Driver.STORE Driver.USB_DOEP0DMAADDR (u32 rx_buffer);
                    Driver.STORE Driver.USB_DOEP0TSIZ (524288 + 64);
                    Driver.LOAD Driver.USB_DOEP0CTL (u32 0x8000);
                    Driver.STORE Driver.USB_DOEP0CTL ctl], [])
       /\ Z.land (524288 + 64) 127 = 64 /\ Z.shiftr (524288 + 64) 19 = 1.
Proof.
  assert (H1 : 0 <= LEN_BITS) by (vm_compute; discriminate).
  assert (H2 : Forall sized scenario_B)
    by (repeat (constructor; [ first [ exact I | vm_compute; discriminate ] | ]);
        constructor).
  assert (H3 : In (EP0_OUT rx_buffer 64 0) (trace (run scenario_B (power_on idle tt))))
    by (vm_compute; left; reflexivity).
  repeat (split; [ assumption | ]).
  exact (armed_lengths_fit_the_size_register scenario_B idle tt
           (EP0_OUT rx_buffer 64 0) 0x8000 [] H1 H2 H3).
Defined.

Lemma usb_core_init_lays_out_the_FIFOs_witness :
  0 <= Driver.MAX_NUM_IN_EPS <= 29
  /\ exists r t rest,
       Driver.usb_core_init (always_ready 13) = Some (r, t, rest)
       /\ List.filter fifo_store t = fifo_map (Z.to_nat Driver.MAX_NUM_IN_EPS).
Proof.
  assert (H1 : 0 <= Driver.MAX_NUM_IN_EPS <= 29)
    by (vm_compute; split; discriminate).
  split; [ exact H1 | ].
  destruct (Driver.usb_core_init (always_ready 13)) as [[[r t] rest] |] eqn:H;
    [ | vm_compute in H; discriminate ].
  exists r, t, rest. split; [ reflexivity | ].
  exact (proj1 (usb_core_init_lays_out_the_FIFOs _ r t rest H1 H)).
Defined.

Lemma usb_core_init_returns_witness :
  Forall ready (always_ready 13) /\ (13 <= length (always_ready 13))%nat
  /\ 0 <= Driver.MAX_NUM_IN_EPS < 255 /\ 0 <= Driver.MAX_NUM_OUT_EPS < 255
  /\ exists r t,
       Driver.usb_core_init (always_ready 13)
       = Some (r, t, skipn (if r =? 0 then 13 else 10) (always_ready 13))
       /\ (r = 0 \/ r = -1).
Proof.
  assert (H1 : Forall ready (always_ready 13))
    by (apply List.Forall_forall; intros w Hw; apply repeat_spec in Hw; subst w;
        repeat split).
  assert (H2 : (13 <= length (always_ready 13))%nat) by apply le_n.
  assert (H3 : 0 <= Driver.MAX_NUM_IN_EPS < 255)
    by (vm_compute; split; [ discriminate | reflexivity ]).
  assert (H4 : 0 <= Driver.MAX_NUM_OUT_EPS < 255)
    by (vm_compute; split; [ discriminate | reflexivity ]).
  repeat (split; [ assumption | ]).
  exact (usb_core_init_returns (always_ready 13) H1 H2 H3 H4).
Defined.

Lemma usb_init_goes_on_after_a_failed_core_init_witness :
  u32 (Driver.MAX_DEVICE_FIFO_SIZE_INWORDS (mcu_h_driver := tight)) < 384
  /\ exists t rest core mid mid',
       Driver.usb_init (DRV := tight) (always_ready 40) = Some (tt, t, rest)
       /\ Driver.usb_core_init (DRV := tight) mid = Some (-1, core, mid').
Proof.
  assert (H1 : u32 (Driver.MAX_DEVICE_FIFO_SIZE_INWORDS (mcu_h_driver := tight)) < 384)
    by reflexivity.
  split; [ exact H1 | ].
  destruct (Driver.usb_init (DRV := tight) (always_ready 40))
    as [[[[] t] rest] |] eqn:H; [ | vm_compute in H; discriminate ].
  destruct (usb_init_goes_on_after_a_failed_core_init (DRV := tight) _ t rest H1 H)
    as (before & core & mid & mid' & v & w & Hcore & _).
  exists t, rest, core, mid, mid'. split; [ reflexivity | exact Hcore ].
Defined.

Lemma download_overruns_the_debug_arrays_witness :
  accepts_chunks /\ EP0_SIZE = 64 /\ 16 <= LEN_BITS
  /\ Z.land (DIEP0CTL (USB boot)) 3 = 0
  /\ ep0_rx_offset boot = 0
  /\ 2048 < 2049 < 2 ^ 16
  /\ len_pos boot = 0
  /\ length (lens boot) = 32%nat /\ length (pktsizes boot) = 32%nat
  /\ lens (receive_all (out_packets (packets_for 2049) 2049)
             (deliver (SETUP (download 0 2049)) boot)) !! 32%nat = Some 64
  /\ pktsizes (receive_all (out_packets (packets_for 2049) 2049)
                 (deliver (SETUP (download 0 2049)) boot)) !! 32%nat = Some 64.
Proof.
  assert (H1 : accepts_chunks) by (intros ? ? ? ? ? ?; reflexivity).
  assert (H2 : EP0_SIZE = 64) by reflexivity.
  assert (H3 : 16 <= LEN_BITS) by (vm_compute; discriminate).
  assert (H4 : Z.land (DIEP0CTL (USB boot)) 3 = 0) by reflexivity.
  assert (H5 : ep0_rx_offset boot = 0) by reflexivity.
  assert (H6 : 2048 < 2049 < 2 ^ 16) by (vm_compute; split; reflexivity).
  assert (H7 : len_pos boot = 0) by reflexivity.
  assert (H8 : length (lens boot) = 32%nat) by reflexivity.
  assert (H9 : length (pktsizes boot) = 32%nat) by reflexivity.
  split; [ exact H1 | ]. split; [ exact H2 | ]. split; [ exact H3 | ].
  split; [ exact H4 | ]. split; [ exact H5 | ]. split; [ exact H6 | ].
  split; [ exact H7 | ]. split; [ exact H8 | ]. split; [ exact H9 | ].
  exact (download_overruns_the_debug_arrays boot 0 2049
           H1 H2 H3 H4 H5 H6 H7 H8 H9).
Defined.

End OnTheBoard.
